(** * Agri_Sight_AI drone edge pipeline: a shallow embedding

    The Python sources under [drone_edge/src] are embedded as Rocq
    functions with explicit state passing.

    Conventions of the embedding:
    - a Python [int] is a [Z]; a Python [float] is the rational [Q] it
      denotes; a [str] is a [string].  The arithmetic of [get_progress]
      is rounded to binary64 operation by operation (module [Float]);
      clock readings and the latencies computed from them are kept as the
      rationals read;
    - a Python exception is a value of [exn]; a function that can raise
      returns [exn + A];
    - the outside world (OpenCV captures, the YOLO model, the wall clock,
      the network) is passed in as explicit arguments;
    - [print] calls have no effect on the modelled state and are left out. *)

From Stdlib Require Import QArith ZArith Lia Qround Qpower.
From stdpp Require Import gmap strings list pretty.

Open Scope Z_scope.

(** ** Python values shared by all modules *)

(** Exceptions that the modelled code raises or lets through. *)
Inductive exn :=
| FileNotFoundError
| RuntimeError
| ValueError
| ZeroDivisionError
| KeyError
| IndexError
| LibraryError (origin : string).

(** [int(x)] on a float truncates toward zero. *)
Definition py_int (x : Q) : Z := Z.quot (Qnum x) (Z.pos (Qden x)).

(** A decoded frame: [frame.shape] is (height, width, channels); the pixel
    data only matters to the external model and is named by a tag. *)
Record Frame := {
  frame_shape : Z * Z * Z;
  frame_tag : nat
}.

(** ** Python float arithmetic

    A Python [float] is an IEEE 754 binary64 number: every operation
    returns the exact result rounded to the nearest value with a
    significand of 53 bits, a tie going to the even significand.  The
    exponent range is left out: this is binary64 for every result that is
    0 or of magnitude between 2^-1022 and 2^1024, which covers the
    quotients and products of integers below 2^1000. *)

Module Float.

Definition pow2 (e : Z) : Q := (2 ^ e)%Q.

(** The exponent [e] of a positive rational: [2^e <= x < 2^(e+1)]. *)
Definition binade (x : Q) : Z :=
  let e0 := Z.log2 (Qnum x) - Z.log2 (Z.pos (Qden x)) in
  if Qle_bool (pow2 e0) x then e0 else e0 - 1.

(** The nearest integer, a tie going to the even one. *)
Definition nearest_even (x : Q) : Z :=
  let f := Qfloor x in
  match Qcompare (x - inject_Z f) (1 # 2) with
  | Lt => f
  | Gt => f + 1
  | Eq => if Z.even f then f else f + 1
  end.

(** A positive rational rounded to 53 significant bits: the spacing of
    the representable values in the binade of exponent [e] is
    [2^(e-52)]. *)
Definition round_pos (x : Q) : Q :=
  let ulp := pow2 (binade x - 52) in
  (inject_Z (nearest_even (x / ulp)) * ulp)%Q.

Definition round (x : Q) : Q :=
  match Qnum x with
  | Z0 => 0%Q
  | Z.pos _ => round_pos x
  | Z.neg _ => (- round_pos (- x))%Q
  end.

(** [a / b] on two [int]s: the correctly rounded quotient. *)
Definition truediv (a b : Z) : Q := round (inject_Z a / inject_Z b).

(** [x * y] on two [float]s. *)
Definition mul (x y : Q) : Q := round (x * y).

End Float.

(** ** video_processor.py *)

Module VideoProcessor.

(** What [cv2.VideoCapture] exposes: [isOpened()], the four properties read
    through [cap.get(...)] and the frames [cap.read()] will still decode.
    The container's reported frame count is independent of the stream. *)
Record VideoCapture := {
  isOpened : bool;
  CAP_PROP_FPS : Q;
  CAP_PROP_FRAME_COUNT : Q;
  CAP_PROP_FRAME_WIDTH : Q;
  CAP_PROP_FRAME_HEIGHT : Q;
  stream : list Frame
}.

(** [cap.read()]: (ret, frame) and the capture advanced by one frame. *)
Definition cap_read (c : VideoCapture) : bool * option Frame * VideoCapture :=
  match stream c with
  | [] => (false, None, c)
  | f :: rest =>
      (true, Some f,
       {| isOpened := isOpened c;
          CAP_PROP_FPS := CAP_PROP_FPS c;
          CAP_PROP_FRAME_COUNT := CAP_PROP_FRAME_COUNT c;
          CAP_PROP_FRAME_WIDTH := CAP_PROP_FRAME_WIDTH c;
          CAP_PROP_FRAME_HEIGHT := CAP_PROP_FRAME_HEIGHT c;
          stream := rest |})
  end.

(** [source]: a path string (video file) or an int (webcam index). *)
Inductive Source :=
| SourcePath (p : string)
| SourceIndex (i : Z).

Record t := {
  source : Source;
  cap : option VideoCapture;
  fps : Z;
  total_frames : Z;
  current_frame : Z;
  frame_width : Z;
  frame_height : Z
}.

(** [__init__] followed by [_open_source].  [path_exists] is
    [video_path.exists()] and [dev] is the object [cv2.VideoCapture(...)]
    returns for the source. *)
Definition _open_source (src : Source) (path_exists : bool) (dev : VideoCapture)
  : exn + t :=
  match src with
  | SourceIndex _ =>
      if negb (isOpened dev) then inl RuntimeError
      else
        let f := py_int (CAP_PROP_FPS dev) in
        inr {| source := src;
               cap := Some dev;
               fps := if Z.eqb f 0 then 30 else f;
               total_frames := -1;
               current_frame := 0;
               frame_width := py_int (CAP_PROP_FRAME_WIDTH dev);
               frame_height := py_int (CAP_PROP_FRAME_HEIGHT dev) |}
  | SourcePath _ =>
      if negb path_exists then inl FileNotFoundError
      else if negb (isOpened dev) then inl RuntimeError
      else
        inr {| source := src;
               cap := Some dev;
               fps := py_int (CAP_PROP_FPS dev);
               total_frames := py_int (CAP_PROP_FRAME_COUNT dev);
               current_frame := 0;
               frame_width := py_int (CAP_PROP_FRAME_WIDTH dev);
               frame_height := py_int (CAP_PROP_FRAME_HEIGHT dev) |}
  end.

Definition with_read (vp : t) (c : VideoCapture) (n : Z) : t :=
  {| source := source vp;
     cap := Some c;
     fps := fps vp;
     total_frames := total_frames vp;
     current_frame := n;
     frame_width := frame_width vp;
     frame_height := frame_height vp |}.

Definition read_frame (vp : t) : bool * option Frame * t :=
  match cap vp with
  | None => (false, None, vp)
  | Some c =>
      let '(ret, frame, c') := cap_read c in
      if ret then (ret, frame, with_read vp c' (current_frame vp + 1))
      else (ret, frame, with_read vp c' (current_frame vp))
  end.

(** [(self.current_frame / self.total_frames) * 100]: the true division
    of two [int]s, then a [float] product. *)
Definition get_progress (vp : t) : Q :=
  if Z.leb (total_frames vp) 0 then (-1)%Q
  else Float.mul (Float.truediv (current_frame vp) (total_frames vp)) 100.

(** [n] consecutive calls of [read_frame]; the first component counts the
    calls that returned [ret = True]. *)
Fixpoint read_frames (n : nat) (vp : t) : Z * t :=
  match n with
  | O => (0, vp)
  | S n' =>
      let '(ret, _, vp') := read_frame vp in
      let '(oks, vp'') := read_frames n' vp' in
      ((if ret then 1 else 0) + oks, vp'')
  end.

(** [cap.release()]: the capture is closed and decodes nothing more. *)
Definition cap_release (c : VideoCapture) : VideoCapture :=
  {| isOpened := false;
     CAP_PROP_FPS := CAP_PROP_FPS c;
     CAP_PROP_FRAME_COUNT := CAP_PROP_FRAME_COUNT c;
     CAP_PROP_FRAME_WIDTH := CAP_PROP_FRAME_WIDTH c;
     CAP_PROP_FRAME_HEIGHT := CAP_PROP_FRAME_HEIGHT c;
     stream := [] |}.

Definition release (vp : t) : t :=
  match cap vp with
  | None => vp
  | Some c => with_read vp (cap_release c) (current_frame vp)
  end.

End VideoProcessor.

(** ** inference_engine.py *)

Module InferenceEngine.

(** One element of [result.boxes]: [box.cls[0]], [box.conf[0]] and
    [box.xyxy[0].tolist()]. *)
Record Box := {
  cls : Q;
  conf : Q;
  xyxy : Q * Q * Q * Q
}.

Record Result := { boxes : list Box }.

(** The loaded [ultralytics.YOLO] object: [model.names] and the outcome of
    [model.predict(frame, conf=...)], which either raises or returns a list
    of results. *)
Record YOLO := {
  names : gmap Z string;
  model_predict : Frame → Q → exn + list Result
}.

Record BBox := { x1 : Z; y1 : Z; x2 : Z; y2 : Z }.

Record Detection := {
  class_id : Z;
  class_name : string;
  confidence : Q;
  bbox : BBox
}.

Record t := {
  conf_threshold : Q;
  model : YOLO;
  class_names : gmap Z string;
  inference_times : list Q
}.

(** [np.zeros((640, 640, 3))], the warm-up input. *)
Definition dummy_input : Frame := {| frame_shape := (640, 640, 3); frame_tag := 0 |}.

(** Confidence that [model.predict] uses when [conf] is not passed. *)
Definition default_conf : Q := 25 # 100.

(** [__init__] followed by [_load_model].  [model_exists] is
    [self.model_path.exists()], [loaded] what [YOLO(path)] does.  The
    warm-up inference calls [self.model.predict] directly and appends
    nothing to [inference_times]. *)
Definition _load_model (threshold : Q) (model_exists : bool) (loaded : exn + YOLO)
  : exn + t :=
  if negb model_exists then inl FileNotFoundError
  else
    match loaded with
    | inl _ => inl RuntimeError
    | inr m =>
        match model_predict m dummy_input default_conf with
        | inl _ => inl RuntimeError
        | inr _ =>
            inr {| conf_threshold := threshold;
                   model := m;
                   class_names := names m;
                   inference_times := [] |}
        end
    end.

Definition parse_box (e : t) (b : Box) : exn + Detection :=
  let cid := py_int (cls b) in
  match class_names e !! cid with
  | None => inl KeyError
  | Some name =>
      let '(a1, b1, a2, b2) := xyxy b in
      inr {| class_id := cid;
             class_name := name;
             confidence := conf b;
             bbox := {| x1 := py_int a1; y1 := py_int b1;
                        x2 := py_int a2; y2 := py_int b2 |} |}
  end.

(** The [for box in result.boxes] loop: the first box that raises ends it. *)
Fixpoint parse_boxes (e : t) (bs : list Box) (detections : list Detection)
  : exn + list Detection :=
  match bs with
  | [] => inr detections
  | b :: rest =>
      match parse_box e b with
      | inl x => inl x
      | inr d => parse_boxes e rest (detections ++ [d])
      end
  end.

Definition _parse_results (e : t) (result : Result) : exn + list Detection :=
  parse_boxes e (boxes result) [].

Definition record_time (e : t) (ms : Q) : t :=
  {| conf_threshold := conf_threshold e;
     model := model e;
     class_names := class_names e;
     inference_times := inference_times e ++ [ms] |}.

(** [predict]: [t_start] and [t_end] are the two readings of [time.time()].
    There is no handler around the model call. *)
Definition predict (e : t) (frame : Frame) (t_start t_end : Q)
  : exn + (list Detection * t) :=
  match model_predict (model e) frame (conf_threshold e) with
  | inl x => inl x
  | inr results =>
      let e' := record_time e ((t_end - t_start) * 1000)%Q in
      match results with
      | [] => inl IndexError
      | r :: _ =>
          match _parse_results e' r with
          | inl x => inl x
          | inr ds => inr (ds, e')
          end
      end
  end.

(** Python's [sum]: a left fold starting from 0. *)
Definition py_sum (l : list Q) : Q := fold_left Qplus l 0%Q.

Definition get_avg_inference_time (e : t) : Q :=
  match inference_times e with
  | [] => 0%Q
  | _ => (py_sum (inference_times e) / inject_Z (Z.of_nat (length (inference_times e))))%Q
  end.

Definition get_fps (e : t) : Q :=
  let avg := get_avg_inference_time e in
  if Qlt_le_dec 0 avg then (1000 / avg)%Q else 0%Q.

(** One call of [predict] as the environment sees it: the frame and the
    two clock readings. *)
Record Call := { call_frame : Frame; call_start : Q; call_end : Q }.

Definition latency_ms (c : Call) : Q := ((call_end c - call_start c) * 1000)%Q.

(** A sequence of [predict] calls on one engine, stopping at the first
    exception. *)
Fixpoint predict_all (e : t) (calls : list Call) : exn + t :=
  match calls with
  | [] => inr e
  | c :: rest =>
      match predict e (call_frame c) (call_start c) (call_end c) with
      | inl x => inl x
      | inr (_, e') => predict_all e' rest
      end
  end.

End InferenceEngine.

(** ** detection_formatter.py *)

Module DetectionFormatter.

Record ImageSize := { width : Z; height : Z }.

(** The event dictionary.  The key ['session_id'] is absent from what
    [format_detection_event] returns ([None] here) and is added by the
    caller. *)
Record Event := {
  frame_id : Z;
  timestamp : string;
  image_size : ImageSize;
  detection_count : Z;
  detections : list InferenceEngine.Detection;
  session_id : option string
}.

Definition format_detection_event (frame_number : Z) (timestamp : string)
    (detections : list InferenceEngine.Detection) (frame_shape : Z * Z * Z) : Event :=
  {| frame_id := frame_number;
     timestamp := timestamp;
     image_size := {| width := frame_shape.1.2; height := frame_shape.1.1 |};
     detection_count := Z.of_nat (length detections);
     detections := detections;
     session_id := None |}.

(** [event['session_id'] = sid], also [{**event, 'session_id': sid}]. *)
Definition set_session_id (e : Event) (sid : string) : Event :=
  {| frame_id := frame_id e;
     timestamp := timestamp e;
     image_size := image_size e;
     detection_count := detection_count e;
     detections := detections e;
     session_id := Some sid |}.

End DetectionFormatter.

(** ** The session dictionary of run_inference_local.py *)

Module Session.

Record t := {
  session_id : string;
  start_time : string;
  status : string;
  video_path : string;
  frame_count : Z;
  total_detections : Z;
  end_time : option string
}.

End Session.

(** ** Files on disk and the JSON written to them

    A file holds the text written so far, as the sequence of pieces the
    JSON encoder emitted.  [open(path, 'w')] truncates the file at once;
    the pieces then reach the file in order; a reader in another process
    may open the path at any moment in between.  Calls into the file
    system are taken to succeed. *)

Module Storage.

Inductive Doc :=
| DetectionsDoc (session_id : string) (detections : list DetectionFormatter.Event)
| SessionDoc (session : Session.t)
| ArchiveDoc (session : Session.t) (detections : list DetectionFormatter.Event)
| EventsDoc (events : list DetectionFormatter.Event).

Inductive Token :=
| TDetectionsOpen (session_id : string)
| TSession (session : Session.t)
| TArchiveOpen (session : Session.t)
| TEventsOpen
| TEvent (e : DetectionFormatter.Event)
| TClose.

(** The pieces [json.dump] writes for a document. *)
Definition encode (d : Doc) : list Token :=
  match d with
  | DetectionsDoc sid evs => TDetectionsOpen sid :: map TEvent evs ++ [TClose]
  | SessionDoc s => [TSession s; TClose]
  | ArchiveDoc s evs => TArchiveOpen s :: map TEvent evs ++ [TClose]
  | EventsDoc evs => TEventsOpen :: map TEvent evs ++ [TClose]
  end.

(** The events at the head of a text, and what follows them. *)
Fixpoint take_events (text : list Token)
  : list DetectionFormatter.Event * list Token :=
  match text with
  | TEvent e :: rest => let '(evs, tl) := take_events rest in (e :: evs, tl)
  | _ => ([], text)
  end.

(** [json.load]: [None] stands for a [JSONDecodeError]; only a complete
    text parses. *)
Definition json_load (text : list Token) : option Doc :=
  match text with
  | [TSession s; TClose] => Some (SessionDoc s)
  | TDetectionsOpen sid :: rest =>
      match take_events rest with
      | (evs, [TClose]) => Some (DetectionsDoc sid evs)
      | _ => None
      end
  | TArchiveOpen s :: rest =>
      match take_events rest with
      | (evs, [TClose]) => Some (ArchiveDoc s evs)
      | _ => None
      end
  | TEventsOpen :: rest =>
      match take_events rest with
      | (evs, [TClose]) => Some (EventsDoc evs)
      | _ => None
      end
  | _ => None
  end.

(** [open(path, 'w')]. *)
Definition open_w (fs : gmap string (list Token)) (path : string)
  : gmap string (list Token) :=
  <[path := []]> fs.

(** [f.write(piece)] on the file opened at [path]. *)
Definition write (fs : gmap string (list Token)) (path : string) (piece : Token)
  : gmap string (list Token) :=
  alter (λ text, text ++ [piece]) path fs.

(** The states of the disk during
    [with open(path, 'w') as f: json.dump(doc, f)], in order: after the
    open, then after each piece. *)
Fixpoint write_trace (fs : gmap string (list Token)) (path : string)
    (pieces : list Token) : list (gmap string (list Token)) :=
  match pieces with
  | [] => []
  | p :: rest => write fs path p :: write_trace (write fs path p) path rest
  end.

Definition json_dump_trace (fs : gmap string (list Token)) (path : string) (d : Doc)
  : list (gmap string (list Token)) :=
  open_w fs path :: write_trace (open_w fs path) path (encode d).

(** The disk once the [with] block is left. *)
Definition json_dump (fs : gmap string (list Token)) (path : string) (d : Doc)
  : gmap string (list Token) :=
  foldl (λ fs' p, write fs' path p) (open_w fs path) (encode d).

(** [path.unlink()] guarded by [path.exists()]. *)
Definition unlink_if_exists (fs : gmap string (list Token)) (path : string)
  : gmap string (list Token) :=
  match fs !! path with
  | Some _ => delete path fs
  | None => fs
  end.

Definition current_detections : string := "output/current_detections.json".
Definition current_session : string := "output/current_session.json".

End Storage.

(** ** config.py: the parsed config.yaml *)

Module Config.

Record t := {
  model_path : string;
  confidence_threshold : Q;
  input_path : VideoProcessor.Source;
  display_window : bool;
  log_fps : bool;
  log_interval : Z;
  output_dir : string;
  save_detections : bool
}.

(** [str(config['video']['input_path'])]. *)
Definition input_path_str (c : t) : string :=
  match input_path c with
  | VideoProcessor.SourcePath p => p
  | VideoProcessor.SourceIndex i => pretty i
  end.

End Config.

(** ** What the two inference scripts share *)

Module Pipeline.

(** What the environment supplies at start-up: [load_config()], the two
    clock readings, what loading the model and opening the video do, what
    constructing the [FirebaseClient] raises (if anything) and whether the
    first remote write goes through. *)
Record Boot := {
  boot_config : exn + Config.t;
  boot_time : Q;
  boot_model_exists : bool;
  boot_model : exn + InferenceEngine.YOLO;
  boot_video_exists : bool;
  boot_capture : VideoProcessor.VideoCapture;
  boot_stamp : string;
  boot_clock : Q;
  boot_client : option exn;
  boot_online : bool
}.

(** What the environment supplies to one pass of the loop: the two clock
    readings inside [predict], the timestamp of the event, the key
    [cv2.waitKey(1)] returns, the clock reading of the periodic log and
    whether a call to the remote database goes through. *)
Record Tick := {
  tick_start : Q;
  tick_end : Q;
  tick_stamp : string;
  tick_key : Z;
  tick_clock : Q;
  tick_online : bool
}.

(** What the environment supplies after the loop: the end timestamp, the
    [strftime] stamp of the archive file name, whether the remote call goes
    through. *)
Record Final := {
  final_stamp : string;
  final_name : string;
  final_online : bool
}.

(** [cv2.waitKey(1) & 0xFF == ord('q')]. *)
Definition quit_pressed (key : Z) : bool := Z.eqb (Z.land key 255) 113.

(** The periodic log: [frame_count % log_interval] and
    [frame_count / elapsed] raise [ZeroDivisionError] on a zero divisor.
    [true] when the statement raises. *)
Definition log_raises (c : Config.t) (frame_count : Z) (start_time now : Q) : bool :=
  if Config.log_fps c then
    if Z.eqb (Config.log_interval c) 0 then true
    else if Z.eqb (frame_count mod Config.log_interval c) 0
         then Qeq_bool (now - start_time) 0
         else false
  else false.

(** [f"{prefix}{int(time.time())}"]. *)
Definition make_id (prefix : string) (now : Q) : string :=
  prefix +:+ pretty (py_int now).

(** How one pass of the [while True] loop ends. *)
Inductive Step (S : Type) :=
| Continue (st : S)
| Break (st : S)
| Raise (x : exn) (st : S).
Arguments Continue {S} st.
Arguments Break {S} st.
Arguments Raise {S} x st.

End Pipeline.

(** ** run_inference_local.py

    The drawing and window calls of OpenCV change nothing that is
    modelled and are taken not to raise; an interrupt from the keyboard
    (SIGINT) is not modelled. *)

Module LocalMain.

(** The local variables of [main] that live across the loop. *)
Record t := {
  config : Config.t;
  session_id : string;
  engine : InferenceEngine.t;
  video : VideoProcessor.t;
  session_data : Session.t;
  all_detections : list DetectionFormatter.Event;
  frame_count : Z;
  total_detections : Z;
  start_time : Q
}.

(** [main] up to the loop: configuration, session id, engine, video,
    initial session file, counters. *)
Definition start (b : Pipeline.Boot) (fs : gmap string (list Storage.Token))
  : exn + (t * gmap string (list Storage.Token)) :=
  match Pipeline.boot_config b with
  | inl x => inl x
  | inr cfg =>
      let sid := Pipeline.make_id "local_" (Pipeline.boot_time b) in
      match InferenceEngine._load_model (Config.confidence_threshold cfg)
              (Pipeline.boot_model_exists b) (Pipeline.boot_model b) with
      | inl x => inl x
      | inr eng =>
          match VideoProcessor._open_source (Config.input_path cfg)
                  (Pipeline.boot_video_exists b) (Pipeline.boot_capture b) with
          | inl x => inl x
          | inr vid =>
              let sd := {| Session.session_id := sid;
                           Session.start_time := Pipeline.boot_stamp b;
                           Session.status := "active";
                           Session.video_path := Config.input_path_str cfg;
                           Session.frame_count := 0;
                           Session.total_detections := 0;
                           Session.end_time := None |} in
              inr ({| config := cfg;
                      session_id := sid;
                      engine := eng;
                      video := vid;
                      session_data := sd;
                      all_detections := [];
                      frame_count := 0;
                      total_detections := 0;
                      start_time := Pipeline.boot_clock b |},
                   Storage.json_dump fs Storage.current_session (Storage.SessionDoc sd))
          end
      end
  end.

(** The state once [video.read_frame()] returned, with the frame counter
    as given. *)
Definition with_video (st : t) (v : VideoProcessor.t) (count : Z) : t :=
  {| config := config st;
     session_id := session_id st;
     engine := engine st;
     video := v;
     session_data := session_data st;
     all_detections := all_detections st;
     frame_count := count;
     total_detections := total_detections st;
     start_time := start_time st |}.

(** The state once the frame was predicted on and its event recorded. *)
Definition with_event (st : t) (eng : InferenceEngine.t)
    (event : DetectionFormatter.Event) (found : Z) : t :=
  {| config := config st;
     session_id := session_id st;
     engine := eng;
     video := video st;
     session_data := session_data st;
     all_detections := all_detections st ++ [event];
     frame_count := frame_count st;
     total_detections := total_detections st + found;
     start_time := start_time st |}.

(** One pass of the [while True] loop. *)
Definition iteration (k : Pipeline.Tick)
    (s : t * gmap string (list Storage.Token))
  : Pipeline.Step (t * gmap string (list Storage.Token)) :=
  let '(st, fs) := s in
  let '(success, frame, vid) := VideoProcessor.read_frame (video st) in
  if negb success then Pipeline.Break (with_video st vid (frame_count st), fs)
  else
    let st1 := with_video st vid (frame_count st + 1) in
    match frame with
    | None => Pipeline.Raise (LibraryError "cv2") (st1, fs)
    | Some f =>
        match InferenceEngine.predict (engine st1) f
                (Pipeline.tick_start k) (Pipeline.tick_end k) with
        | inl x => Pipeline.Raise x (st1, fs)
        | inr (dets, eng) =>
            let event :=
              DetectionFormatter.set_session_id
                (DetectionFormatter.format_detection_event
                   (frame_count st1) (Pipeline.tick_stamp k) dets (frame_shape f))
                (session_id st1) in
            let st' := with_event st1 eng event (Z.of_nat (length dets)) in
            let fs' := Storage.json_dump fs Storage.current_detections
                         (Storage.DetectionsDoc (session_id st) (all_detections st')) in
            if Config.display_window (config st) && Pipeline.quit_pressed (Pipeline.tick_key k)
            then Pipeline.Break (st', fs')
            else if Pipeline.log_raises (config st) (frame_count st')
                      (start_time st') (Pipeline.tick_clock k)
            then Pipeline.Raise ZeroDivisionError (st', fs')
            else Pipeline.Continue (st', fs')
        end
    end.

(** The session dictionary after the four assignments that follow the
    loop. *)
Definition completed (st : t) (end_stamp : string) : Session.t :=
  {| Session.session_id := Session.session_id (session_data st);
     Session.start_time := Session.start_time (session_data st);
     Session.status := "completed";
     Session.video_path := Session.video_path (session_data st);
     Session.frame_count := frame_count st;
     Session.total_detections := total_detections st;
     Session.end_time := Some end_stamp |}.

Definition archive_path (stamp : string) : string :=
  "output/detections_local_" +:+ stamp +:+ ".json".

(** [main] after the loop: the session file and the archive. *)
Definition finish (f : Pipeline.Final) (s : t * gmap string (list Storage.Token))
  : gmap string (list Storage.Token) :=
  let '(st, fs) := s in
  let sd := completed st (Pipeline.final_stamp f) in
  let fs1 := Storage.json_dump fs Storage.current_session (Storage.SessionDoc sd) in
  Storage.json_dump fs1 (archive_path (Pipeline.final_name f))
    (Storage.ArchiveDoc sd (all_detections st)).

(** The states of the disk while [main] starts up, in order: the disk it
    found and, when the start-up gets as far as the initial session file,
    the states of that write. *)
Definition start_trace (b : Pipeline.Boot) (fs : gmap string (list Storage.Token))
  : list (gmap string (list Storage.Token)) :=
  match start b fs with
  | inl _ => [fs]
  | inr (st, _) =>
      fs :: Storage.json_dump_trace fs Storage.current_session
              (Storage.SessionDoc (session_data st))
  end.

(** The states of the disk during one pass of the loop, in order: the
    disk the pass found and, when the pass gets as far as the rewrite of
    the detections file, the states of that rewrite. *)
Definition iteration_trace (k : Pipeline.Tick)
    (s : t * gmap string (list Storage.Token))
  : list (gmap string (list Storage.Token)) :=
  let '(st, fs) := s in
  let '(success, frame, _) := VideoProcessor.read_frame (video st) in
  match success, frame with
  | true, Some f =>
      match InferenceEngine.predict (engine st) f
              (Pipeline.tick_start k) (Pipeline.tick_end k) with
      | inl _ => [fs]
      | inr (dets, _) =>
          let event :=
            DetectionFormatter.set_session_id
              (DetectionFormatter.format_detection_event
                 (frame_count st + 1) (Pipeline.tick_stamp k) dets (frame_shape f))
              (session_id st) in
          fs :: Storage.json_dump_trace fs Storage.current_detections
                  (Storage.DetectionsDoc (session_id st) (all_detections st ++ [event]))
      end
  | _, _ => [fs]
  end.

(** The states of the disk during what follows the loop, in order: the
    disk the loop left, the states of the rewrite of the session file,
    then those of the write of the archive. *)
Definition finish_trace (f : Pipeline.Final) (s : t * gmap string (list Storage.Token))
  : list (gmap string (list Storage.Token)) :=
  let '(st, fs) := s in
  let sd := completed st (Pipeline.final_stamp f) in
  let fs1 := Storage.json_dump fs Storage.current_session (Storage.SessionDoc sd) in
  fs :: Storage.json_dump_trace fs Storage.current_session (Storage.SessionDoc sd)
     ++ Storage.json_dump_trace fs1 (archive_path (Pipeline.final_name f))
          (Storage.ArchiveDoc sd (all_detections st)).

(** The worker process between two passes of the loop. *)
Inductive Run :=
| Looping (s : t * gmap string (list Storage.Token))
| Left (s : t * gmap string (list Storage.Token))
| Crashed (x : exn) (s : t * gmap string (list Storage.Token)).

(** The loop fed one tick per pass; a run that left the loop or raised
    ignores the remaining ticks. *)
Fixpoint loop (ticks : list Pipeline.Tick)
    (s : t * gmap string (list Storage.Token)) : Run :=
  match ticks with
  | [] => Looping s
  | k :: rest =>
      match iteration k s with
      | Pipeline.Continue s' => loop rest s'
      | Pipeline.Break s' => Left s'
      | Pipeline.Raise x s' => Crashed x s'
      end
  end.

(** The whole of [main]: exit code and disk, or [None] when the ticks ran
    out before the loop was left.  [sys.exit(1)] follows any exception. *)
Definition main (b : Pipeline.Boot) (ticks : list Pipeline.Tick) (f : Pipeline.Final)
    (fs : gmap string (list Storage.Token))
  : option (Z * gmap string (list Storage.Token)) :=
  match start b fs with
  | inl _ => Some (1, fs)
  | inr s =>
      match loop ticks s with
      | Looping _ => None
      | Left s' => Some (0, finish f s')
      | Crashed _ (_, fs') => Some (1, fs')
      end
  end.

End LocalMain.

(** ** firebase_client.py: the remote database as the scripts use it *)

Module FirebaseClient.

(** The dictionary stored at [/sessions/<id>]; a key that was never
    written is [None]. *)
Record SessionRec := {
  session_id : option string;
  start_time : option string;
  status : option string;
  frame_count : option Z;
  total_detections : option Z;
  last_update : option string;
  end_time : option string
}.

(** [/detections] and [/frames] hold pushed children in key order. *)
Record DB := {
  detections : list DetectionFormatter.Event;
  frames : list DetectionFormatter.Event;
  sessions : gmap string SessionRec
}.

Definition empty_rec : SessionRec :=
  {| session_id := None; start_time := None; status := None;
     frame_count := None; total_detections := None;
     last_update := None; end_time := None |}.

Definition or_old {A} (new old : option A) : option A :=
  match new with
  | Some _ => new
  | None => old
  end.

(** [ref.update(updates)]: the keys of [updates] replace those stored. *)
Definition merge (updates old : SessionRec) : SessionRec :=
  {| session_id := or_old (session_id updates) (session_id old);
     start_time := or_old (start_time updates) (start_time old);
     status := or_old (status updates) (status old);
     frame_count := or_old (frame_count updates) (frame_count old);
     total_detections := or_old (total_detections updates) (total_detections old);
     last_update := or_old (last_update updates) (last_update old);
     end_time := or_old (end_time updates) (end_time old) |}.

(** [push_data('/detections', data)]: the new database and the key. *)
Definition push_detection (db : DB) (e : DetectionFormatter.Event) : DB * string :=
  ({| detections := detections db ++ [e];
      frames := frames db;
      sessions := sessions db |},
   "-N" +:+ pretty (length (detections db))).

(** [push_data('/frames', data)]. *)
Definition push_frame (db : DB) (e : DetectionFormatter.Event) : DB * string :=
  ({| detections := detections db;
      frames := frames db ++ [e];
      sessions := sessions db |},
   "-N" +:+ pretty (length (frames db))).

(** [set_data('/sessions/<sid>', data)]. *)
Definition set_session (db : DB) (sid : string) (r : SessionRec) : DB :=
  {| detections := detections db;
     frames := frames db;
     sessions := <[sid := r]> (sessions db) |}.

(** [update_data('/sessions/<sid>', updates)]. *)
Definition update_session (db : DB) (sid : string) (updates : SessionRec) : DB :=
  {| detections := detections db;
     frames := frames db;
     sessions :=
       <[sid := merge updates (default empty_rec (sessions db !! sid))]> (sessions db) |}.

(** [set_data(path, None)]: [Reference.set] of firebase_admin refuses
    [None] with [ValueError] before anything is sent, so the database is
    never reached. *)
Definition set_data_none (db : DB) (path : string) : exn + DB := inl ValueError.

End FirebaseClient.

(** ** firebase_uploader.py *)

Module FirebaseUploader.

Record t := {
  session_id : string;
  frame_count : Z;
  total_detections : Z;
  session_start : string
}.

(** [__init__] with [_init_session].  The client constructor and the first
    [set_data] are outside any handler. *)
Definition init (sid : option string) (now : Q) (stamp : string)
    (client : option exn) (online : bool) (db : FirebaseClient.DB)
  : exn + (t * FirebaseClient.DB) :=
  match client with
  | Some x => inl x
  | None =>
      let id := match sid with
                | Some s => if String.eqb s "" then Pipeline.make_id "session_" now else s
                | None => Pipeline.make_id "session_" now
                end in
      if negb online then inl (LibraryError "firebase")
      else
        inr ({| session_id := id; frame_count := 0; total_detections := 0;
                session_start := stamp |},
             FirebaseClient.set_session db id
               {| FirebaseClient.session_id := Some id;
                  FirebaseClient.start_time := Some stamp;
                  FirebaseClient.status := Some "active";
                  FirebaseClient.frame_count := Some 0;
                  FirebaseClient.total_detections := Some 0;
                  FirebaseClient.last_update := None;
                  FirebaseClient.end_time := None |})
  end.

(** [upload_detection_event]: a failed push is caught and returns [None];
    [total_detections] advances only after a push that went through. *)
Definition upload_detection_event (u : t) (db : FirebaseClient.DB)
    (event : DetectionFormatter.Event) (online : bool)
  : option string * t * FirebaseClient.DB :=
  let event_with_session := DetectionFormatter.set_session_id event (session_id u) in
  if online then
    let '(db', key) := FirebaseClient.push_detection db event_with_session in
    (Some key,
     {| session_id := session_id u;
        frame_count := frame_count u;
        total_detections := total_detections u + DetectionFormatter.detection_count event;
        session_start := session_start u |},
     db')
  else (None, u, db).

(** [_update_session_stats]. *)
Definition _update_session_stats (u : t) (db : FirebaseClient.DB)
    (stamp : string) (online : bool) : FirebaseClient.DB :=
  if online then
    FirebaseClient.update_session db (session_id u)
      {| FirebaseClient.session_id := None;
         FirebaseClient.start_time := None;
         FirebaseClient.status := None;
         FirebaseClient.frame_count := Some (frame_count u);
         FirebaseClient.total_detections := Some (total_detections u);
         FirebaseClient.last_update := Some stamp;
         FirebaseClient.end_time := None |}
  else db.

(** [upload_frame_summary]: the only place that advances [frame_count]. *)
Definition upload_frame_summary (u : t) (db : FirebaseClient.DB)
    (frame_data : DetectionFormatter.Event) (stamp : string)
    (online stats_online : bool)
  : option string * t * FirebaseClient.DB :=
  let frame_with_session := DetectionFormatter.set_session_id frame_data (session_id u) in
  if online then
    let '(db', key) := FirebaseClient.push_frame db frame_with_session in
    let u' := {| session_id := session_id u;
                 frame_count := frame_count u + 1;
                 total_detections := total_detections u;
                 session_start := session_start u |} in
    (Some key, u', _update_session_stats u' db' stamp stats_online)
  else (None, u, db).

(** [end_session]: a failed update is caught. *)
Definition end_session (u : t) (db : FirebaseClient.DB)
    (stamp : string) (online : bool) : FirebaseClient.DB :=
  if online then
    FirebaseClient.update_session db (session_id u)
      {| FirebaseClient.session_id := None;
         FirebaseClient.start_time := None;
         FirebaseClient.status := Some "completed";
         FirebaseClient.frame_count := Some (frame_count u);
         FirebaseClient.total_detections := Some (total_detections u);
         FirebaseClient.last_update := None;
         FirebaseClient.end_time := Some stamp |}
  else db.

End FirebaseUploader.

(** ** run_inference_firebase.py *)

Module FirebaseMain.

Record t := {
  config : Config.t;
  uploader : FirebaseUploader.t;
  engine : InferenceEngine.t;
  video : VideoProcessor.t;
  all_events : list DetectionFormatter.Event;
  frame_count : Z;
  start_time : Q
}.

(** How [main] can fail before the loop: before the uploader exists, or
    after (the handler then still calls [end_session] on it). *)
Inductive StartError :=
| NoUploader (x : exn)
| WithUploader (x : exn) (u : FirebaseUploader.t) (db : FirebaseClient.DB).

Definition start (b : Pipeline.Boot) (db : FirebaseClient.DB)
  : StartError + (t * FirebaseClient.DB) :=
  match Pipeline.boot_config b with
  | inl x => inl (NoUploader x)
  | inr cfg =>
      match FirebaseUploader.init
              (Some (Pipeline.make_id "inference_" (Pipeline.boot_time b)))
              (Pipeline.boot_time b) (Pipeline.boot_stamp b)
              (Pipeline.boot_client b) (Pipeline.boot_online b) db with
      | inl x => inl (NoUploader x)
      | inr (u, db1) =>
          match InferenceEngine._load_model (Config.confidence_threshold cfg)
                  (Pipeline.boot_model_exists b) (Pipeline.boot_model b) with
          | inl x => inl (WithUploader x u db1)
          | inr eng =>
              match VideoProcessor._open_source (Config.input_path cfg)
                      (Pipeline.boot_video_exists b) (Pipeline.boot_capture b) with
              | inl x => inl (WithUploader x u db1)
              | inr vid =>
                  inr ({| config := cfg;
                          uploader := u;
                          engine := eng;
                          video := vid;
                          all_events := [];
                          frame_count := 0;
                          start_time := Pipeline.boot_clock b |}, db1)
              end
          end
      end
  end.

Definition with_video (st : t) (v : VideoProcessor.t) (count : Z) : t :=
  {| config := config st;
     uploader := uploader st;
     engine := engine st;
     video := v;
     all_events := all_events st;
     frame_count := count;
     start_time := start_time st |}.

Definition with_event (st : t) (eng : InferenceEngine.t)
    (u : FirebaseUploader.t) (event : DetectionFormatter.Event) : t :=
  {| config := config st;
     uploader := u;
     engine := eng;
     video := video st;
     all_events := all_events st ++ [event];
     frame_count := frame_count st;
     start_time := start_time st |}.

(** One pass of the [while True] loop.  [upload_frame_summary] is not
    called anywhere in it. *)
Definition iteration (k : Pipeline.Tick) (s : t * FirebaseClient.DB)
  : Pipeline.Step (t * FirebaseClient.DB) :=
  let '(st, db) := s in
  let '(success, frame, vid) := VideoProcessor.read_frame (video st) in
  if negb success then Pipeline.Break (with_video st vid (frame_count st), db)
  else
    let st1 := with_video st vid (frame_count st + 1) in
    match frame with
    | None => Pipeline.Raise (LibraryError "cv2") (st1, db)
    | Some f =>
        match InferenceEngine.predict (engine st1) f
                (Pipeline.tick_start k) (Pipeline.tick_end k) with
        | inl x => Pipeline.Raise x (st1, db)
        | inr (dets, eng) =>
            let event :=
              DetectionFormatter.format_detection_event
                (frame_count st1) (Pipeline.tick_stamp k) dets (frame_shape f) in
            let '(_, u, db') :=
              FirebaseUploader.upload_detection_event (uploader st1) db event
                (Pipeline.tick_online k) in
            let st' := with_event st1 eng u event in
            if Config.display_window (config st) && Pipeline.quit_pressed (Pipeline.tick_key k)
            then Pipeline.Break (st', db')
            else if Pipeline.log_raises (config st) (frame_count st')
                      (start_time st') (Pipeline.tick_clock k)
            then Pipeline.Raise ZeroDivisionError (st', db')
            else Pipeline.Continue (st', db')
        end
    end.

Inductive Run :=
| Looping (s : t * FirebaseClient.DB)
| Left (s : t * FirebaseClient.DB)
| Crashed (x : exn) (s : t * FirebaseClient.DB).

Fixpoint loop (ticks : list Pipeline.Tick) (s : t * FirebaseClient.DB) : Run :=
  match ticks with
  | [] => Looping s
  | k :: rest =>
      match iteration k s with
      | Pipeline.Continue s' => loop rest s'
      | Pipeline.Break s' => Left s'
      | Pipeline.Raise x s' => Crashed x s'
      end
  end.

Definition backup_path (cfg : Config.t) (stamp : string) : string :=
  Config.output_dir cfg +:+ "/detections_firebase_" +:+ stamp +:+ ".json".

(** The local backup: written when [save_detections] is set and
    [all_events] is not empty. *)
Definition save_backup (st : t) (f : Pipeline.Final)
    (fs : gmap string (list Storage.Token)) : gmap string (list Storage.Token) :=
  if Config.save_detections (config st) then
    match all_events st with
    | [] => fs
    | _ => Storage.json_dump fs (backup_path (config st) (Pipeline.final_name f))
             (Storage.EventsDoc (all_events st))
    end
  else fs.

(** The states of the disk during the write of the local backup. *)
Definition save_backup_trace (st : t) (f : Pipeline.Final)
    (fs : gmap string (list Storage.Token))
  : list (gmap string (list Storage.Token)) :=
  if Config.save_detections (config st) then
    match all_events st with
    | [] => []
    | _ => Storage.json_dump_trace fs (backup_path (config st) (Pipeline.final_name f))
             (Storage.EventsDoc (all_events st))
    end
  else [].

(** The whole of [main]: exit code, remote database and disk, or [None]
    when the ticks ran out before the loop was left.  The handler of
    [Exception] calls [end_session] when the uploader exists, then
    [sys.exit(1)]. *)
Definition main (b : Pipeline.Boot) (ticks : list Pipeline.Tick) (f : Pipeline.Final)
    (db : FirebaseClient.DB) (fs : gmap string (list Storage.Token))
  : option (Z * FirebaseClient.DB * gmap string (list Storage.Token)) :=
  match start b db with
  | inl (NoUploader _) => Some (1, db, fs)
  | inl (WithUploader _ u db1) =>
      Some (1, FirebaseUploader.end_session u db1
                 (Pipeline.final_stamp f) (Pipeline.final_online f), fs)
  | inr s =>
      match loop ticks s with
      | Looping _ => None
      | Left (st, db') =>
          Some (0, FirebaseUploader.end_session (uploader st) db'
                     (Pipeline.final_stamp f) (Pipeline.final_online f),
                save_backup st f fs)
      | Crashed _ (st, db') =>
          Some (1, FirebaseUploader.end_session (uploader st) db'
                     (Pipeline.final_stamp f) (Pipeline.final_online f), fs)
      end
  end.

End FirebaseMain.

(** ** api_server.py *)

Module ApiServer.

(** The global dictionary [current_analysis]; ["process"] holds the
    [Popen] object, named here by its index in the table of processes. *)
Record Analysis := {
  running : bool;
  session_id : option string;
  video_name : option string;
  start_time : option string;
  process : option nat
}.

(** A worker process started by [subprocess.Popen]. *)
Inductive Proc :=
| Spawned
| LocalLoop (st : LocalMain.t)
| LocalLeft (st : LocalMain.t)
| FirebaseLoop (st : FirebaseMain.t)
| FirebaseLeft (st : FirebaseMain.t)
| Exited (returncode : Z).

(** A thread running [run_inference_background]. *)
Inductive Thread :=
| Pending (video_path : string)
| Waiting (pid : nat)
| Finished.

(** The server process and everything its handlers and workers touch. *)
Record World := {
  FIREBASE_ENABLED : bool;
  current_analysis : Analysis;
  files : gmap string (list Storage.Token);
  config_yaml : exn + Config.t;
  db : FirebaseClient.DB;
  procs : list Proc;
  threads : list Thread
}.

(** JSON bodies of the responses. *)
Inductive Body :=
| Error (message : string)
| Failure (x : exn)
| Started (session_id video_name : string)
| Stopped (success : bool) (message : string)
| Status (running : bool) (session_id video_name start_time : option string)
| NoDetections
| NoSession
| Document (d : Storage.Doc).

(** What a [/start-analysis] request and the environment supply:
    [request.json] with [data.get('video_path')] (or the exception they
    raise), [video_path.exists()], [video_path.name], the two clock
    readings, and for [clear_data] what constructing the client
    raises. *)
Record StartRequest := {
  video_path : exn + option string;
  path_exists : bool;
  path_name : string;
  now : Q;
  stamp : string;
  client : option exn
}.

Definition set_analysis (w : World) (a : Analysis) : World :=
  {| FIREBASE_ENABLED := FIREBASE_ENABLED w;
     current_analysis := a;
     files := files w;
     config_yaml := config_yaml w;
     db := db w;
     procs := procs w;
     threads := threads w |}.

Definition set_running (w : World) (b : bool) : World :=
  set_analysis w
    {| running := b;
       session_id := session_id (current_analysis w);
       video_name := video_name (current_analysis w);
       start_time := start_time (current_analysis w);
       process := process (current_analysis w) |}.

Definition set_process (w : World) (pid : nat) : World :=
  set_analysis w
    {| running := running (current_analysis w);
       session_id := session_id (current_analysis w);
       video_name := video_name (current_analysis w);
       start_time := start_time (current_analysis w);
       process := Some pid |}.

Definition set_files (w : World) (fs : gmap string (list Storage.Token)) : World :=
  {| FIREBASE_ENABLED := FIREBASE_ENABLED w;
     current_analysis := current_analysis w;
     files := fs;
     config_yaml := config_yaml w;
     db := db w;
     procs := procs w;
     threads := threads w |}.

Definition set_db (w : World) (d : FirebaseClient.DB) : World :=
  {| FIREBASE_ENABLED := FIREBASE_ENABLED w;
     current_analysis := current_analysis w;
     files := files w;
     config_yaml := config_yaml w;
     db := d;
     procs := procs w;
     threads := threads w |}.

Definition set_config (w : World) (c : exn + Config.t) : World :=
  {| FIREBASE_ENABLED := FIREBASE_ENABLED w;
     current_analysis := current_analysis w;
     files := files w;
     config_yaml := c;
     db := db w;
     procs := procs w;
     threads := threads w |}.

Definition set_procs (w : World) (ps : list Proc) : World :=
  {| FIREBASE_ENABLED := FIREBASE_ENABLED w;
     current_analysis := current_analysis w;
     files := files w;
     config_yaml := config_yaml w;
     db := db w;
     procs := ps;
     threads := threads w |}.

Definition set_threads (w : World) (ts : list Thread) : World :=
  {| FIREBASE_ENABLED := FIREBASE_ENABLED w;
     current_analysis := current_analysis w;
     files := files w;
     config_yaml := config_yaml w;
     db := db w;
     procs := procs w;
     threads := ts |}.

(** [clear_data]: every failure is caught and printed.  In Firebase mode
    the first [set_data(..., None)] raises, so the second is never
    attempted. *)
Definition clear_data (r : StartRequest) (w : World) : World :=
  if FIREBASE_ENABLED w then
    match client r with
    | Some _ => w
    | None =>
        match FirebaseClient.set_data_none (db w) "/detections" with
        | inl _ => w
        | inr d1 =>
            match FirebaseClient.set_data_none d1 "/frames" with
            | inl _ => set_db w d1
            | inr d2 => set_db w d2
            end
        end
    end
  else
    set_files w
      (Storage.unlink_if_exists
         (Storage.unlink_if_exists (files w) Storage.current_detections)
         Storage.current_session).

(** [not video_path] on what [data.get] returned. *)
Definition falsy (p : option string) : bool :=
  match p with
  | None => true
  | Some s => String.eqb s ""
  end.

(** [start_analysis]: the response (status code and body) and the world
    after the handler returned.  [thread.start()] is taken to succeed; the
    new thread is left pending. *)
Definition start_analysis (r : StartRequest) (w : World) : Z * Body * World :=
  if running (current_analysis w)
  then (400, Error "Analysis already in progress", w)
  else
    match video_path r with
    | inl x => (500, Failure x, set_running w false)
    | inr p =>
        if falsy p then (400, Error "No video path provided", w)
        else if negb (path_exists r) then (404, Error "Video file not found", w)
        else
          let sid := Pipeline.make_id "session_" (now r) in
          let w1 := clear_data r w in
          let w2 := set_analysis w1
                      {| running := true;
                         session_id := Some sid;
                         video_name := Some (path_name r);
                         start_time := Some (stamp r);
                         process := process (current_analysis w1) |} in
          (200, Started sid (path_name r),
           set_threads w2 (threads w2 ++ [Pending (default "" p)]))
    end.

Definition get_status (w : World) : Z * Body :=
  (200, Status (running (current_analysis w)) (session_id (current_analysis w))
          (video_name (current_analysis w)) (start_time (current_analysis w))).

(** [process.terminate()]: the signal ends a live worker where it stands;
    nothing of the worker's [main] runs afterwards.  A worker that already
    exited is left alone.  Where the worker stands inside the step it is
    taking is given by [proc_trace] below. *)
Definition terminate (p : Proc) : Proc :=
  match p with
  | Exited c => Exited c
  | _ => Exited (-15)
  end.

Definition stop_analysis (w : World) : Z * Body * World :=
  match process (current_analysis w) with
  | Some pid =>
      if running (current_analysis w)
      then (200, Stopped true "Analysis stopped",
            set_running (set_procs w (alter terminate pid (procs w))) false)
      else (200, Stopped false "No analysis running", w)
  | None => (200, Stopped false "No analysis running", w)
  end.

(** [get_detections]: latest-detections, read from the local file. *)
Definition get_detections (fs : gmap string (list Storage.Token)) : Z * Body :=
  match fs !! Storage.current_detections with
  | None => (200, NoDetections)
  | Some text =>
      match Storage.json_load text with
      | Some d => (200, Document d)
      | None => (500, Failure ValueError)
      end
  end.

(** [get_session]: latest-session, read from the local file. *)
Definition get_session (fs : gmap string (list Storage.Token)) : Z * Body :=
  match fs !! Storage.current_session with
  | None => (200, NoSession)
  | Some text =>
      match Storage.json_load text with
      | Some d => (200, Document d)
      | None => (500, Failure ValueError)
      end
  end.

(** What the environment supplies to a step of a thread or a worker. *)
Record Input := {
  relative_path : string;
  popen : option exn;
  boot : Pipeline.Boot;
  tick : Pipeline.Tick;
  final : Pipeline.Final
}.

Definition with_config (b : Pipeline.Boot) (c : exn + Config.t) : Pipeline.Boot :=
  {| Pipeline.boot_config := c;
     Pipeline.boot_time := Pipeline.boot_time b;
     Pipeline.boot_model_exists := Pipeline.boot_model_exists b;
     Pipeline.boot_model := Pipeline.boot_model b;
     Pipeline.boot_video_exists := Pipeline.boot_video_exists b;
     Pipeline.boot_capture := Pipeline.boot_capture b;
     Pipeline.boot_stamp := Pipeline.boot_stamp b;
     Pipeline.boot_clock := Pipeline.boot_clock b;
     Pipeline.boot_client := Pipeline.boot_client b;
     Pipeline.boot_online := Pipeline.boot_online b |}.

(** [update_config_video_path]: rewrite [video.input_path] in config.yaml. *)
Definition update_config_video_path (c : Config.t) (relative : string) : Config.t :=
  {| Config.model_path := Config.model_path c;
     Config.confidence_threshold := Config.confidence_threshold c;
     Config.input_path := VideoProcessor.SourcePath relative;
     Config.display_window := Config.display_window c;
     Config.log_fps := Config.log_fps c;
     Config.log_interval := Config.log_interval c;
     Config.output_dir := Config.output_dir c;
     Config.save_detections := Config.save_detections c |}.

(** One step of thread [tid] in [run_inference_background]: a pending
    thread rewrites the configuration, spawns the worker and records it in
    [current_analysis]; a waiting thread whose worker has exited clears
    [running]; any exception clears [running] as well. *)
Definition thread_step (tid : nat) (i : Input) (w : World) : World :=
  match threads w !! tid with
  | Some (Pending _) =>
      match config_yaml w, popen i with
      | inr c, None =>
          let w1 := set_config w (inr (update_config_video_path c (relative_path i))) in
          let pid := length (procs w1) in
          let w2 := set_procs w1 (procs w1 ++ [Spawned]) in
          let w3 := set_process w2 pid in
          set_threads w3 (<[tid := Waiting pid]> (threads w3))
      | inr c, Some _ =>
          let w1 := set_config w (inr (update_config_video_path c (relative_path i))) in
          let w2 := set_running w1 false in
          set_threads w2 (<[tid := Finished]> (threads w2))
      | inl _, _ =>
          let w2 := set_running w false in
          set_threads w2 (<[tid := Finished]> (threads w2))
      end
  | Some (Waiting pid) =>
      match procs w !! pid with
      | Some (Exited _) =>
          let w2 := set_running w false in
          set_threads w2 (<[tid := Finished]> (threads w2))
      | _ => w
      end
  | _ => w
  end.

Definition set_proc (w : World) (pid : nat) (p : Proc) : World :=
  set_procs w (<[pid := p]> (procs w)).

(** One step of worker [pid]: start-up, one pass of the loop, or what
    follows the loop.  A worker that exited takes no step. *)
Definition proc_step (pid : nat) (i : Input) (w : World) : World :=
  match procs w !! pid with
  | Some Spawned =>
      if FIREBASE_ENABLED w then
        match FirebaseMain.start (with_config (boot i) (config_yaml w)) (db w) with
        | inl (FirebaseMain.NoUploader _) => set_proc w pid (Exited 1)
        | inl (FirebaseMain.WithUploader _ u d) =>
            set_proc
              (set_db w (FirebaseUploader.end_session u d
                           (Pipeline.final_stamp (final i)) (Pipeline.final_online (final i))))
              pid (Exited 1)
        | inr (st, d) => set_proc (set_db w d) pid (FirebaseLoop st)
        end
      else
        match LocalMain.start (with_config (boot i) (config_yaml w)) (files w) with
        | inl _ => set_proc w pid (Exited 1)
        | inr (st, fs) => set_proc (set_files w fs) pid (LocalLoop st)
        end
  | Some (LocalLoop st) =>
      match LocalMain.iteration (tick i) (st, files w) with
      | Pipeline.Continue (st', fs) => set_proc (set_files w fs) pid (LocalLoop st')
      | Pipeline.Break (st', fs) => set_proc (set_files w fs) pid (LocalLeft st')
      | Pipeline.Raise _ (_, fs) => set_proc (set_files w fs) pid (Exited 1)
      end
  | Some (LocalLeft st) =>
      set_proc (set_files w (LocalMain.finish (final i) (st, files w))) pid (Exited 0)
  | Some (FirebaseLoop st) =>
      match FirebaseMain.iteration (tick i) (st, db w) with
      | Pipeline.Continue (st', d) => set_proc (set_db w d) pid (FirebaseLoop st')
      | Pipeline.Break (st', d) => set_proc (set_db w d) pid (FirebaseLeft st')
      | Pipeline.Raise _ (st', d) =>
          set_proc
            (set_db w (FirebaseUploader.end_session (FirebaseMain.uploader st') d
                         (Pipeline.final_stamp (final i)) (Pipeline.final_online (final i))))
            pid (Exited 1)
      end
  | Some (FirebaseLeft st) =>
      set_proc
        (set_files
           (set_db w (FirebaseUploader.end_session (FirebaseMain.uploader st) (db w)
                        (Pipeline.final_stamp (final i)) (Pipeline.final_online (final i))))
           (FirebaseMain.save_backup st (final i) (files w)))
        pid (Exited 0)
  | Some (Exited _) => w
  | None => w
  end.

(** The worlds the server goes through while worker [pid] takes the step
    [proc_step pid i w], in order, starting with [w]: the disk and the
    database move write by write; what [procs] holds for the worker is
    updated only once the step is complete.  A signal can find the worker
    in any of them. *)
Definition proc_trace (pid : nat) (i : Input) (w : World) : list World :=
  match procs w !! pid with
  | Some Spawned =>
      if FIREBASE_ENABLED w then
        match FirebaseMain.start (with_config (boot i) (config_yaml w)) (db w) with
        | inl (FirebaseMain.NoUploader _) => [w]
        | inl (FirebaseMain.WithUploader _ u d) =>
            [w; set_db w d;
             set_db w (FirebaseUploader.end_session u d
                         (Pipeline.final_stamp (final i)) (Pipeline.final_online (final i)))]
        | inr (_, d) => [w; set_db w d]
        end
      else
        set_files w
          <$> LocalMain.start_trace (with_config (boot i) (config_yaml w)) (files w)
  | Some (LocalLoop st) =>
      set_files w <$> LocalMain.iteration_trace (tick i) (st, files w)
  | Some (LocalLeft st) =>
      set_files w <$> LocalMain.finish_trace (final i) (st, files w)
  | Some (FirebaseLoop st) =>
      match FirebaseMain.iteration (tick i) (st, db w) with
      | Pipeline.Continue (_, d) => [w; set_db w d]
      | Pipeline.Break (_, d) => [w; set_db w d]
      | Pipeline.Raise _ (st', d) =>
          [w; set_db w d;
           set_db w (FirebaseUploader.end_session (FirebaseMain.uploader st') d
                       (Pipeline.final_stamp (final i)) (Pipeline.final_online (final i)))]
      end
  | Some (FirebaseLeft st) =>
      let w1 := set_db w (FirebaseUploader.end_session (FirebaseMain.uploader st) (db w)
                            (Pipeline.final_stamp (final i))
                            (Pipeline.final_online (final i))) in
      w :: w1 :: (set_files w1 <$> FirebaseMain.save_backup_trace st (final i) (files w))
  | Some (Exited _) => [w]
  | None => [w]
  end.

End ApiServer.

(** ** Sample inputs used by the witnesses and counterexamples *)

Section Samples.
Import VideoProcessor.

Definition sample_frame : Frame := {| frame_shape := (480, 640, 3); frame_tag := 0 |}.

(** A file whose container header reports [count] frames while [frames]
    are actually decodable. *)
Definition sample_capture (count : Q) (frames : list Frame) : VideoCapture :=
  {| isOpened := true;
     CAP_PROP_FPS := 30;
     CAP_PROP_FRAME_COUNT := count;
     CAP_PROP_FRAME_WIDTH := 640;
     CAP_PROP_FRAME_HEIGHT := 480;
     stream := frames |}.

End Samples.

Section EngineSamples.
Import InferenceEngine.

Definition sample_box : Box :=
  {| cls := 1; conf := 8 # 10; xyxy := (10, 20, 110, 220)%Q |}.

(** A model with two classes that finds one box in frames tagged 1 and
    nothing elsewhere. *)
Definition sample_model : YOLO :=
  {| names := <[0 := "Healthy"]> (<[1 := "Early Blight"]> ∅);
     model_predict := λ f _,
       inr [ {| boxes := if Nat.eqb (frame_tag f) 1 then [sample_box] else [] |} ] |}.

(** A model whose warm-up succeeds and whose inference fails on frames
    tagged 2 (for instance an out-of-memory error inside the library). *)
Definition failing_model : YOLO :=
  {| names := names sample_model;
     model_predict := λ f c,
       if Nat.eqb (frame_tag f) 2 then inl (LibraryError "ultralytics")
       else model_predict sample_model f c |}.

Definition frame_tagged (n : nat) : Frame :=
  {| frame_shape := (480, 640, 3); frame_tag := n |}.

End EngineSamples.

(** ** Properties of a run used in the statements *)

(** The sum of the per-frame detection counts of a list of events. *)
Definition sum_counts (evs : list DetectionFormatter.Event) : Z :=
  foldr (λ e acc, DetectionFormatter.detection_count e + acc) 0 evs.

(** What holds of the local worker and the disk between two passes of the
    loop, [fs0] being the disk the worker found at start-up: the counters
    agree with the recorded events, the events are numbered from 1 in the
    order recorded and carry the worker's session id, the detections file
    holds the whole list once one event was recorded, the session file
    still holds the record written at start-up, and no other path
    changed. *)
Definition local_consistent (fs0 : gmap string (list Storage.Token))
    (s : LocalMain.t * gmap string (list Storage.Token)) : Prop :=
  let evs := LocalMain.all_detections s.1 in
  LocalMain.frame_count s.1 = Z.of_nat (length evs) ∧
  VideoProcessor.current_frame (LocalMain.video s.1) = LocalMain.frame_count s.1 ∧
  LocalMain.total_detections s.1 = sum_counts evs ∧
  (∀ i e, evs !! i = Some e →
     DetectionFormatter.frame_id e = Z.of_nat i + 1 ∧
     DetectionFormatter.session_id e = Some (LocalMain.session_id s.1) ∧
     DetectionFormatter.detection_count e
       = Z.of_nat (length (DetectionFormatter.detections e))) ∧
  s.2 !! Storage.current_detections
    = match evs with
      | [] => fs0 !! Storage.current_detections
      | _ => Some (Storage.encode (Storage.DetectionsDoc (LocalMain.session_id s.1) evs))
      end ∧
  s.2 !! Storage.current_session
    = Some (Storage.encode (Storage.SessionDoc (LocalMain.session_data s.1))) ∧
  Session.status (LocalMain.session_data s.1) = "active" ∧
  Session.frame_count (LocalMain.session_data s.1) = 0 ∧
  Session.total_detections (LocalMain.session_data s.1) = 0 ∧
  Session.session_id (LocalMain.session_data s.1) = LocalMain.session_id s.1 ∧
  (∀ p, p ≠ Storage.current_detections → p ≠ Storage.current_session →
        s.2 !! p = fs0 !! p).

(** The session id and the events a latest-detections body carries. *)
Definition detections_in (body : ApiServer.Body)
  : option (option string * list DetectionFormatter.Event) :=
  match body with
  | ApiServer.NoDetections => Some (None, [])
  | ApiServer.Document (Storage.DetectionsDoc sid evs) => Some (Some sid, evs)
  | _ => None
  end.

(** The session record a latest-session body carries. *)
Definition session_in (body : ApiServer.Body) : option Session.t :=
  match body with
  | ApiServer.Document (Storage.SessionDoc s) => Some s
  | _ => None
  end.

(** ** Sample runs *)

Definition sample_config : Config.t :=
  {| Config.model_path := "models/best.pt";
     Config.confidence_threshold := 25 # 100;
     Config.input_path := VideoProcessor.SourcePath "video/uploads/test.mp4";
     Config.display_window := false;
     Config.log_fps := true;
     Config.log_interval := 30;
     Config.output_dir := "output";
     Config.save_detections := true |}.

(** A start-up in which everything loads, on a video with the given
    frames and the given model. *)
Definition sample_boot (m : InferenceEngine.YOLO) (frames : list Frame) : Pipeline.Boot :=
  {| Pipeline.boot_config := inr sample_config;
     Pipeline.boot_time := 1700000000;
     Pipeline.boot_model_exists := true;
     Pipeline.boot_model := inr m;
     Pipeline.boot_video_exists := true;
     Pipeline.boot_capture :=
       sample_capture (inject_Z (Z.of_nat (length frames))) frames;
     Pipeline.boot_stamp := "2026-02-08T01:30:31";
     Pipeline.boot_clock := 1700000001;
     Pipeline.boot_client := None;
     Pipeline.boot_online := true |}.

(** A pass in which inference takes 20 ms, no key is pressed and the
    remote database answers. *)
Definition sample_tick : Pipeline.Tick :=
  {| Pipeline.tick_start := 10;
     Pipeline.tick_end := 10 + (1 # 50);
     Pipeline.tick_stamp := "2026-02-08T01:30:32";
     Pipeline.tick_key := -1;
     Pipeline.tick_clock := 1700000005;
     Pipeline.tick_online := true |}.

Definition sample_final : Pipeline.Final :=
  {| Pipeline.final_stamp := "2026-02-08T01:30:40";
     Pipeline.final_name := "20260208_013040";
     Pipeline.final_online := true |}.

(** Ten frames of which the third and the seventh show one diseased
    leaf. *)
Definition ten_frames : list Frame :=
  [frame_tagged 0; frame_tagged 0; frame_tagged 1; frame_tagged 0; frame_tagged 0;
   frame_tagged 0; frame_tagged 1; frame_tagged 0; frame_tagged 0; frame_tagged 0].

(** Placeholders for the states of a start-up that failed; the sample
    start-ups below all succeed. *)
Definition blank_video : VideoProcessor.t :=
  {| VideoProcessor.source := VideoProcessor.SourceIndex 0;
     VideoProcessor.cap := None;
     VideoProcessor.fps := 0;
     VideoProcessor.total_frames := 0;
     VideoProcessor.current_frame := 0;
     VideoProcessor.frame_width := 0;
     VideoProcessor.frame_height := 0 |}.

Definition blank_engine : InferenceEngine.t :=
  {| InferenceEngine.conf_threshold := 0;
     InferenceEngine.model := sample_model;
     InferenceEngine.class_names := ∅;
     InferenceEngine.inference_times := [] |}.

Definition blank_local : LocalMain.t :=
  {| LocalMain.config := sample_config;
     LocalMain.session_id := "";
     LocalMain.engine := blank_engine;
     LocalMain.video := blank_video;
     LocalMain.session_data :=
       {| Session.session_id := ""; Session.start_time := ""; Session.status := "";
          Session.video_path := ""; Session.frame_count := 0;
          Session.total_detections := 0; Session.end_time := None |};
     LocalMain.all_detections := [];
     LocalMain.frame_count := 0;
     LocalMain.total_detections := 0;
     LocalMain.start_time := 0 |}.

Definition blank_firebase : FirebaseMain.t :=
  {| FirebaseMain.config := sample_config;
     FirebaseMain.uploader :=
       {| FirebaseUploader.session_id := ""; FirebaseUploader.frame_count := 0;
          FirebaseUploader.total_detections := 0; FirebaseUploader.session_start := "" |};
     FirebaseMain.engine := blank_engine;
     FirebaseMain.video := blank_video;
     FirebaseMain.all_events := [];
     FirebaseMain.frame_count := 0;
     FirebaseMain.start_time := 0 |}.

(** The state a local worker starts in, given what the environment
    supplies and the disk. *)
Definition local_boot (b : Pipeline.Boot) (fs : gmap string (list Storage.Token))
  : LocalMain.t * gmap string (list Storage.Token) :=
  match LocalMain.start b fs with
  | inr s => s
  | inl _ => (blank_local, fs)
  end.

Definition local_started (m : InferenceEngine.YOLO) (frames : list Frame)
    (fs : gmap string (list Storage.Token))
  : LocalMain.t * gmap string (list Storage.Token) :=
  local_boot (sample_boot m frames) fs.

(** The state a run carries, however it stands. *)
Definition local_state (r : LocalMain.Run)
  : LocalMain.t * gmap string (list Storage.Token) :=
  match r with
  | LocalMain.Looping s => s
  | LocalMain.Left s => s
  | LocalMain.Crashed _ s => s
  end.

(** The local worker after [n] sample passes over the given frames. *)
Definition local_after (m : InferenceEngine.YOLO) (frames : list Frame) (n : nat)
  : LocalMain.t * gmap string (list Storage.Token) :=
  local_state (LocalMain.loop (replicate n sample_tick) (local_started m frames ∅)).

(** Three frames, the second of which makes [failing_model] raise. *)
Definition crash_frames : list Frame :=
  [frame_tagged 0; frame_tagged 2; frame_tagged 0].

(** Frames still to be decoded by a video. *)
Definition remaining (vp : VideoProcessor.t) : nat :=
  match VideoProcessor.cap vp with
  | Some c => length (VideoProcessor.stream c)
  | None => 0
  end.

(** What holds of the remote worker and the database between two passes
    of the loop, [db0] being the database the worker found at start-up and
    [sid] its session id: the loop counter is the number of frames read,
    the uploader's frame counter never moved, the events pushed by this run
    follow those found, carry the session id and account for the
    uploader's detection total, and the session record is the one written
    at start-up. *)
Definition firebase_consistent (db0 : FirebaseClient.DB) (sid : string)
    (s : FirebaseMain.t * FirebaseClient.DB) : Prop :=
  FirebaseUploader.session_id (FirebaseMain.uploader s.1) = sid ∧
  FirebaseUploader.frame_count (FirebaseMain.uploader s.1) = 0 ∧
  FirebaseMain.frame_count s.1 = Z.of_nat (length (FirebaseMain.all_events s.1)) ∧
  VideoProcessor.current_frame (FirebaseMain.video s.1) = FirebaseMain.frame_count s.1 ∧
  (∃ pushed,
     FirebaseClient.detections s.2 = FirebaseClient.detections db0 ++ pushed ∧
     (∀ e, e ∈ pushed → DetectionFormatter.session_id e = Some sid) ∧
     FirebaseUploader.total_detections (FirebaseMain.uploader s.1) = sum_counts pushed ∧
     (length pushed ≤ length (FirebaseMain.all_events s.1))%nat) ∧
  (∃ r, FirebaseClient.sessions s.2 !! sid = Some r ∧
        FirebaseClient.status r = Some "active" ∧
        FirebaseClient.frame_count r = Some 0).

(** The same when every push so far went through: every event read was
    pushed and counted. *)
Definition firebase_all_pushed (db0 : FirebaseClient.DB)
    (s : FirebaseMain.t * FirebaseClient.DB) : Prop :=
  FirebaseClient.detections s.2
    = FirebaseClient.detections db0
      ++ map (λ e, DetectionFormatter.set_session_id e
                     (FirebaseUploader.session_id (FirebaseMain.uploader s.1)))
             (FirebaseMain.all_events s.1) ∧
  FirebaseUploader.total_detections (FirebaseMain.uploader s.1)
    = sum_counts (FirebaseMain.all_events s.1).

(** The remote session record of [sid] exists with the given status and
    a frame count of 0. *)
Definition remote_record (d : FirebaseClient.DB) (sid status : string) : Prop :=
  ∃ r, FirebaseClient.sessions d !! sid = Some r ∧
       FirebaseClient.status r = Some status ∧
       FirebaseClient.frame_count r = Some 0.

Definition empty_db : FirebaseClient.DB :=
  {| FirebaseClient.detections := [];
     FirebaseClient.frames := [];
     FirebaseClient.sessions := ∅ |}.

(** ** Sample worlds *)

(** A server in local mode that has not run anything yet. *)
Definition idle_world : ApiServer.World :=
  {| ApiServer.FIREBASE_ENABLED := false;
     ApiServer.current_analysis :=
       {| ApiServer.running := false; ApiServer.session_id := None;
          ApiServer.video_name := None; ApiServer.start_time := None;
          ApiServer.process := None |};
     ApiServer.files := ∅;
     ApiServer.config_yaml := inr sample_config;
     ApiServer.db := empty_db;
     ApiServer.procs := [];
     ApiServer.threads := [] |}.

Definition sample_request : ApiServer.StartRequest :=
  {| ApiServer.video_path := inr (Some "video/uploads/upload_20260208_013031.mp4");
     ApiServer.path_exists := true;
     ApiServer.path_name := "upload_20260208_013031.mp4";
     ApiServer.now := 1699999999;
     ApiServer.stamp := "2026-02-08T01:30:31";
     ApiServer.client := None |}.

(** What a step of the thread or of the worker is given in the sample
    runs: a ten-frame video and quiet passes. *)
Definition sample_input : ApiServer.Input :=
  {| ApiServer.relative_path := "video/uploads/upload_20260208_013031.mp4";
     ApiServer.popen := None;
     ApiServer.boot := sample_boot sample_model ten_frames;
     ApiServer.tick := sample_tick;
     ApiServer.final := sample_final |}.

(** The server right after a successful [/start-analysis]. *)
Definition started_world : ApiServer.World :=
  (ApiServer.start_analysis sample_request idle_world).2.

(** [n] steps of worker [pid], each given the sample input. *)
Definition worker_steps (pid n : nat) (w : ApiServer.World) : ApiServer.World :=
  Nat.iter n (ApiServer.proc_step pid sample_input) w.

(** The server once the thread spawned worker 0, the worker started up
    and went through [n] passes of its loop. *)
Definition world_after (n : nat) : ApiServer.World :=
  worker_steps 0 (S n) (ApiServer.thread_step 0 sample_input started_world).

(** The local worker state held by a process, if it is in its loop. *)
Definition looping_state (p : option ApiServer.Proc) : LocalMain.t :=
  match p with
  | Some (ApiServer.LocalLoop st) => st
  | _ => blank_local
  end.

(** What the worker spawned in the sample world is given at start-up:
    the sample start-up with the configuration the thread rewrote. *)
Definition world_boot : Pipeline.Boot :=
  ApiServer.with_config (ApiServer.boot sample_input)
    (inr (ApiServer.update_config_video_path sample_config
            (ApiServer.relative_path sample_input))).

(** ** Observing a run *)

Definition has_started (b : Pipeline.Boot) (fs : gmap string (list Storage.Token)) : bool :=
  match LocalMain.start b fs with
  | inr _ => true
  | inl _ => false
  end.

Definition is_looping (r : LocalMain.Run) : bool :=
  match r with
  | LocalMain.Looping _ => true
  | _ => false
  end.

Definition goes_on {S : Type} (r : Pipeline.Step S) : bool :=
  match r with
  | Pipeline.Continue _ => true
  | _ => false
  end.

(** The state a pass of the loop ends in. *)
Definition step_state {S : Type} (r : Pipeline.Step S) : S :=
  match r with
  | Pipeline.Continue s => s
  | Pipeline.Break s => s
  | Pipeline.Raise _ s => s
  end.

(** The local worker of the sample world after [n] passes. *)
Definition world_run (n : nat) : LocalMain.t * gmap string (list Storage.Token) :=
  local_state (LocalMain.loop (replicate n sample_tick) (local_boot world_boot ∅)).

(** The server holding that worker as its running job. *)
Definition running_world (n : nat) : ApiServer.World :=
  {| ApiServer.FIREBASE_ENABLED := false;
     ApiServer.current_analysis :=
       {| ApiServer.running := true;
          ApiServer.session_id := Some "session_1699999999";
          ApiServer.video_name := Some "upload_20260208_013031.mp4";
          ApiServer.start_time := Some "2026-02-08T01:30:31";
          ApiServer.process := Some 0%nat |};
     ApiServer.files := (world_run n).2;
     ApiServer.config_yaml := Pipeline.boot_config world_boot;
     ApiServer.db := empty_db;
     ApiServer.procs := [ApiServer.LocalLoop (world_run n).1];
     ApiServer.threads := [ApiServer.Waiting 0] |}.

(** The server holding that worker as its running job at the instant the
    worker, in its next pass, has opened the detections file for writing
    and written nothing yet. *)
Definition cut_short_world (n : nat) : ApiServer.World :=
  default (running_world n)
    (ApiServer.proc_trace 0 sample_input (running_world n) !! 1%nat).

(** ** Further observations used in the statements *)

(** A tick with another key pressed. *)
Definition with_key (k : Pipeline.Tick) (key : Z) : Pipeline.Tick :=
  {| Pipeline.tick_start := Pipeline.tick_start k;
     Pipeline.tick_end := Pipeline.tick_end k;
     Pipeline.tick_stamp := Pipeline.tick_stamp k;
     Pipeline.tick_key := key;
     Pipeline.tick_clock := Pipeline.tick_clock k;
     Pipeline.tick_online := Pipeline.tick_online k |}.

(** A tick with the remote database reachable or not. *)
Definition with_online (k : Pipeline.Tick) (online : bool) : Pipeline.Tick :=
  {| Pipeline.tick_start := Pipeline.tick_start k;
     Pipeline.tick_end := Pipeline.tick_end k;
     Pipeline.tick_stamp := Pipeline.tick_stamp k;
     Pipeline.tick_key := Pipeline.tick_key k;
     Pipeline.tick_clock := Pipeline.tick_clock k;
     Pipeline.tick_online := online |}.

(** How a pass of the loop ended, leaving the state aside. *)
Inductive Ending := Goes | Leaves | Raises (x : exn).

Definition ending {S : Type} (r : Pipeline.Step S) : Ending :=
  match r with
  | Pipeline.Continue _ => Goes
  | Pipeline.Break _ => Leaves
  | Pipeline.Raise x _ => Raises x
  end.

(** A model that reports a box of class 7, which [sample_model] has no
    name for. *)
Definition odd_model : InferenceEngine.YOLO :=
  {| InferenceEngine.names := InferenceEngine.names sample_model;
     InferenceEngine.model_predict := λ _ _,
       inr [ {| InferenceEngine.boxes :=
                  [sample_box;
                   {| InferenceEngine.cls := 7; InferenceEngine.conf := 1 # 2;
                      InferenceEngine.xyxy := (0, 0, 5, 5)%Q |}] |} ] |}.

Definition odd_engine : InferenceEngine.t :=
  {| InferenceEngine.conf_threshold := 25 # 100;
     InferenceEngine.model := odd_model;
     InferenceEngine.class_names := InferenceEngine.names odd_model;
     InferenceEngine.inference_times := [] |}.

Definition has_left (r : LocalMain.Run) : bool :=
  match r with
  | LocalMain.Left _ => true
  | _ => false
  end.

(** The exception a run ended with, if it did. *)
Definition crashed_with (r : LocalMain.Run) : option exn :=
  match r with
  | LocalMain.Crashed x _ => Some x
  | _ => None
  end.

(** The sample configuration with the display window switched on. *)
Definition window_config : Config.t :=
  {| Config.model_path := Config.model_path sample_config;
     Config.confidence_threshold := Config.confidence_threshold sample_config;
     Config.input_path := Config.input_path sample_config;
     Config.display_window := true;
     Config.log_fps := Config.log_fps sample_config;
     Config.log_interval := Config.log_interval sample_config;
     Config.output_dir := Config.output_dir sample_config;
     Config.save_detections := Config.save_detections sample_config |}.

(** The sample configuration with a periodic log every 0 frames. *)
Definition zero_interval_config : Config.t :=
  {| Config.model_path := Config.model_path sample_config;
     Config.confidence_threshold := Config.confidence_threshold sample_config;
     Config.input_path := Config.input_path sample_config;
     Config.display_window := false;
     Config.log_fps := true;
     Config.log_interval := 0;
     Config.output_dir := Config.output_dir sample_config;
     Config.save_detections := Config.save_detections sample_config |}.

(** The local worker started on the ten sample frames under a given
    configuration. *)
Definition local_under (cfg : Config.t)
  : LocalMain.t * gmap string (list Storage.Token) :=
  local_boot (ApiServer.with_config (sample_boot sample_model ten_frames) (inr cfg)) ∅.

(** A caller of the uploader: one [upload_detection_event] per entry, each
    with whether its push goes through. *)
Definition upload_all (uploads : list (DetectionFormatter.Event * bool))
    (s : FirebaseUploader.t * FirebaseClient.DB)
  : FirebaseUploader.t * FirebaseClient.DB :=
  foldl (λ (s : FirebaseUploader.t * FirebaseClient.DB)
           (eo : DetectionFormatter.Event * bool),
           let '(_, u, db) :=
             FirebaseUploader.upload_detection_event s.1 s.2 eo.1 eo.2 in
           (u, db))
        s uploads.

(** One [upload_frame_summary] per entry: the frame data, the timestamp of
    the statistics update, whether the push and whether the update go
    through. *)
Definition summarise_all
    (frames : list (DetectionFormatter.Event * string * bool * bool))
    (s : FirebaseUploader.t * FirebaseClient.DB)
  : FirebaseUploader.t * FirebaseClient.DB :=
  foldl (λ (s : FirebaseUploader.t * FirebaseClient.DB)
           (fr : DetectionFormatter.Event * string * bool * bool),
           let '(_, u, db) :=
             FirebaseUploader.upload_frame_summary s.1 s.2 fr.1.1.1 fr.1.1.2 fr.1.2 fr.2 in
           (u, db))
        s frames.

(** The entries whose push went through. *)
Definition pushed_of {A} (l : list (A * bool)) : list A :=
  omap (λ x : A * bool, if x.2 then Some x.1 else None) l.

(** A frame event with the given number and detection count. *)
Definition sample_event (n found : Z) : DetectionFormatter.Event :=
  {| DetectionFormatter.frame_id := n;
     DetectionFormatter.timestamp := "2026-01-14T20:30:13";
     DetectionFormatter.image_size :=
       {| DetectionFormatter.width := 1280; DetectionFormatter.height := 720 |};
     DetectionFormatter.detection_count := found;
     DetectionFormatter.detections := [];
     DetectionFormatter.session_id := None |}.

(** The state a remote run carries, however it stands. *)
Definition remote_state (r : FirebaseMain.Run) : FirebaseMain.t * FirebaseClient.DB :=
  match r with
  | FirebaseMain.Looping s => s
  | FirebaseMain.Left s => s
  | FirebaseMain.Crashed _ s => s
  end.

(** How a remote run stands. *)
Definition remote_ending (r : FirebaseMain.Run) : Ending :=
  match r with
  | FirebaseMain.Looping _ => Goes
  | FirebaseMain.Left _ => Leaves
  | FirebaseMain.Crashed x _ => Raises x
  end.

(** The local variables of the remote [main] other than the uploader. *)
Definition local_part (st : FirebaseMain.t)
  : Config.t * InferenceEngine.t * VideoProcessor.t
    * list DetectionFormatter.Event * Z * Q :=
  (FirebaseMain.config st, FirebaseMain.engine st, FirebaseMain.video st,
   FirebaseMain.all_events st, FirebaseMain.frame_count st, FirebaseMain.start_time st).

(** The state a remote worker starts in, given what the environment
    supplies and the database. *)
Definition remote_boot (b : Pipeline.Boot) (db : FirebaseClient.DB)
  : FirebaseMain.t * FirebaseClient.DB :=
  match FirebaseMain.start b db with
  | inr s => s
  | inl _ => (blank_firebase, db)
  end.

Definition remote_has_started (b : Pipeline.Boot) (db : FirebaseClient.DB) : bool :=
  match FirebaseMain.start b db with
  | inr _ => true
  | inl _ => false
  end.

Definition remote_has_left (r : FirebaseMain.Run) : bool :=
  match r with
  | FirebaseMain.Left _ => true
  | _ => false
  end.

Definition remote_crashed_with (r : FirebaseMain.Run) : option exn :=
  match r with
  | FirebaseMain.Crashed x _ => Some x
  | _ => None
  end.

(** The sample start-up with the model file missing. *)
Definition no_model_boot : Pipeline.Boot :=
  {| Pipeline.boot_config := Pipeline.boot_config (sample_boot sample_model ten_frames);
     Pipeline.boot_time := Pipeline.boot_time (sample_boot sample_model ten_frames);
     Pipeline.boot_model_exists := false;
     Pipeline.boot_model := Pipeline.boot_model (sample_boot sample_model ten_frames);
     Pipeline.boot_video_exists :=
       Pipeline.boot_video_exists (sample_boot sample_model ten_frames);
     Pipeline.boot_capture := Pipeline.boot_capture (sample_boot sample_model ten_frames);
     Pipeline.boot_stamp := Pipeline.boot_stamp (sample_boot sample_model ten_frames);
     Pipeline.boot_clock := Pipeline.boot_clock (sample_boot sample_model ten_frames);
     Pipeline.boot_client := Pipeline.boot_client (sample_boot sample_model ten_frames);
     Pipeline.boot_online := Pipeline.boot_online (sample_boot sample_model ten_frames) |}.

(** What a step of a worker is given, from the environment of its
    [main]. *)
Definition worker_input (b : Pipeline.Boot) (f : Pipeline.Final) (k : Pipeline.Tick)
  : ApiServer.Input :=
  {| ApiServer.relative_path := "";
     ApiServer.popen := None;
     ApiServer.boot := b;
     ApiServer.tick := k;
     ApiServer.final := f |}.

(** Worker [pid] stepped once per input. *)
Definition worker_run (pid : nat) (inputs : list ApiServer.Input) (w : ApiServer.World)
  : ApiServer.World :=
  foldl (λ w' i, ApiServer.proc_step pid i w') w inputs.

(** A server in local mode whose disk still holds the two files of an
    earlier run. *)
Definition stale_world : ApiServer.World :=
  {| ApiServer.FIREBASE_ENABLED := false;
     ApiServer.current_analysis := ApiServer.current_analysis idle_world;
     ApiServer.files :=
       <[Storage.current_session :=
           Storage.encode (Storage.DetectionsDoc "local_1699990000" [])]>
         (<[Storage.current_detections :=
              Storage.encode (Storage.DetectionsDoc "local_1699990000" [])]> ∅);
     ApiServer.config_yaml := inr sample_config;
     ApiServer.db := empty_db;
     ApiServer.procs := [];
     ApiServer.threads := [] |}.

(** A server in local mode after a first job ran to its end: the global
    dictionary still holds that job's worker. *)
Definition finished_world : ApiServer.World :=
  {| ApiServer.FIREBASE_ENABLED := false;
     ApiServer.current_analysis :=
       {| ApiServer.running := false;
          ApiServer.session_id := Some "session_1699990000";
          ApiServer.video_name := Some "upload_20260208_010000.mp4";
          ApiServer.start_time := Some "2026-02-08T01:00:00";
          ApiServer.process := Some 0%nat |};
     ApiServer.files := ∅;
     ApiServer.config_yaml := inr sample_config;
     ApiServer.db := empty_db;
     ApiServer.procs := [ApiServer.Exited 0];
     ApiServer.threads := [ApiServer.Finished] |}.

(** A server in Firebase mode whose database holds one event of an
    earlier run. *)
Definition firebase_world : ApiServer.World :=
  {| ApiServer.FIREBASE_ENABLED := true;
     ApiServer.current_analysis := ApiServer.current_analysis idle_world;
     ApiServer.files := ApiServer.files stale_world;
     ApiServer.config_yaml := inr sample_config;
     ApiServer.db :=
       {| FirebaseClient.detections := [sample_event 1 0];
          FirebaseClient.frames := [sample_event 1 0];
          FirebaseClient.sessions := ∅ |};
     ApiServer.procs := [];
     ApiServer.threads := [] |}.

(** The sample input with [subprocess.Popen] raising. *)
Definition failing_input : ApiServer.Input :=
  {| ApiServer.relative_path := ApiServer.relative_path sample_input;
     ApiServer.popen := Some (LibraryError "subprocess");
     ApiServer.boot := ApiServer.boot sample_input;
     ApiServer.tick := ApiServer.tick sample_input;
     ApiServer.final := ApiServer.final sample_input |}.

(** A request whose JSON body has no video path. *)
Definition empty_request : ApiServer.StartRequest :=
  {| ApiServer.video_path := inr None;
     ApiServer.path_exists := false;
     ApiServer.path_name := "";
     ApiServer.now := ApiServer.now sample_request;
     ApiServer.stamp := ApiServer.stamp sample_request;
     ApiServer.client := None |}.

(** The sample request with the remote database unreachable. *)
Definition offline_request : ApiServer.StartRequest :=
  {| ApiServer.video_path := ApiServer.video_path sample_request;
     ApiServer.path_exists := true;
     ApiServer.path_name := ApiServer.path_name sample_request;
     ApiServer.now := ApiServer.now sample_request;
     ApiServer.stamp := ApiServer.stamp sample_request;
     ApiServer.client := Some (LibraryError "firebase") |}.

(** What a step of a worker leaves alone in the server. *)
Definition same_server (w' w : ApiServer.World) : Prop :=
  ApiServer.FIREBASE_ENABLED w' = ApiServer.FIREBASE_ENABLED w ∧
  ApiServer.current_analysis w' = ApiServer.current_analysis w ∧
  ApiServer.db w' = ApiServer.db w ∧
  ApiServer.config_yaml w' = ApiServer.config_yaml w ∧
  ApiServer.threads w' = ApiServer.threads w.

(** What holds of the engine and the recorded events of a local worker:
    one latency sample per event, and every detection named as the
    model's table names its class. *)
Definition engine_consistent (names : gmap Z string) (st : LocalMain.t) : Prop :=
  InferenceEngine.class_names (LocalMain.engine st) = names ∧
  length (InferenceEngine.inference_times (LocalMain.engine st))
    = length (LocalMain.all_detections st) ∧
  Forall (λ e, Forall (λ d, names !! InferenceEngine.class_id d
                            = Some (InferenceEngine.class_name d))
                 (DetectionFormatter.detections e))
         (LocalMain.all_detections st).

(* ================================================================= *)
(** * Theorems *)

(** ** Rounding *)

Section FloatFacts.
Import Float.

Lemma pow2_pos e : (0 < pow2 e)%Q.
Proof. apply Qpower_0_lt. reflexivity. Qed.

Lemma pow2_plus a b : (pow2 (a + b) == pow2 a * pow2 b)%Q.
Proof. apply Qpower_plus. discriminate. Qed.

Lemma pow2_le a b : a ≤ b → (pow2 a <= pow2 b)%Q.
Proof. intros H. apply Qpower_le_compat_l; [done|]. discriminate. Qed.

Lemma pow2_lt a b : a < b → (pow2 a < pow2 b)%Q.
Proof. intros H. apply Qpower_lt_compat_l; [done|]. reflexivity. Qed.

Lemma pow2_lt_inv a b : (pow2 a < pow2 b)%Q → a < b.
Proof. intros H. eapply Qpower_lt_compat_l_inv; [exact H|]. reflexivity. Qed.

Lemma pow2_Z n : 0 ≤ n → (pow2 n == inject_Z (2 ^ n))%Q.
Proof. intros H. unfold pow2. by rewrite Zpower_Qpower. Qed.

Lemma log2_bounds n :
  0 < n → (pow2 (Z.log2 n) <= inject_Z n)%Q ∧ (inject_Z n < pow2 (Z.log2 n + 1))%Q.
Proof.
  intros H. destruct (Z.log2_spec n H) as [H1 H2].
  pose proof (Z.log2_nonneg n) as H0.
  rewrite !pow2_Z by lia. rewrite <- Zle_Qle, <- Zlt_Qlt. split; [done|].
  by rewrite <- Z.add_1_r in H2.
Qed.

Lemma binade_spec x :
  (0 < x)%Q → (pow2 (binade x) <= x)%Q ∧ (x < pow2 (binade x + 1))%Q.
Proof.
  intros Hx. destruct x as [n d]. assert (0 < n) as Hn.
  { unfold Qlt in Hx. simpl in Hx. lia. }
  destruct (log2_bounds n Hn) as [Hn1 Hn2].
  destruct (log2_bounds (Z.pos d) ltac:(lia)) as [Hd1 Hd2].
  set (ln := Z.log2 n) in *. set (ld := Z.log2 (Z.pos d)) in *.
  assert (n # d == inject_Z n / inject_Z (Z.pos d))%Q as Hq by apply Qmake_Qdiv.
  assert (0 < inject_Z (Z.pos d))%Q as Hdpos by (rewrite <- (Zlt_Qlt 0); lia).
  assert (pow2 (ln - ld - 1) <= n # d)%Q as Hlow.
  { rewrite Hq. apply Qle_shift_div_l; [done|].
    apply Qle_trans with (pow2 (ln - ld - 1) * pow2 (ld + 1))%Q.
    - apply Qmult_le_l; [apply pow2_pos|]. by apply Qlt_le_weak.
    - rewrite <- pow2_plus. replace (ln - ld - 1 + (ld + 1)) with ln by lia. done. }
  assert (n # d < pow2 (ln - ld + 1))%Q as Hhigh.
  { rewrite Hq. apply Qlt_shift_div_r; [done|].
    apply Qlt_le_trans with (pow2 (ln + 1)); [done|].
    replace (ln + 1) with (ln - ld + 1 + ld) by lia. rewrite pow2_plus.
    apply Qmult_le_l; [apply pow2_pos|]. done. }
  unfold binade. simpl Qnum. simpl Qden. fold ln ld.
  destruct (Qle_bool (pow2 (ln - ld)) (n # d)) eqn:Hb.
  - apply Qle_bool_iff in Hb. done.
  - split; [done|]. replace (ln - ld - 1 + 1) with (ln - ld) by lia.
    apply Qnot_le_lt. intros Hle. apply Qle_bool_iff in Hle. congruence.
Qed.

Lemma binade_unique x e :
  (pow2 e <= x)%Q → (x < pow2 (e + 1))%Q → binade x = e.
Proof.
  intros H1 H2.
  assert (0 < x)%Q as Hx by (eapply Qlt_le_trans; [apply pow2_pos | exact H1]).
  destruct (binade_spec x Hx) as [H3 H4].
  assert (binade x < e + 1).
  { apply pow2_lt_inv. eapply Qle_lt_trans; [exact H3 | exact H2]. }
  assert (e < binade x + 1).
  { apply pow2_lt_inv. eapply Qle_lt_trans; [exact H1 | exact H4]. }
  lia.
Qed.

Lemma binade_le x y : (0 < x)%Q → (x <= y)%Q → binade x ≤ binade y.
Proof.
  intros Hx Hxy.
  assert (0 < y)%Q as Hy by (eapply Qlt_le_trans; [exact Hx | exact Hxy]).
  destruct (binade_spec x Hx) as [H1 _]. destruct (binade_spec y Hy) as [_ H2].
  assert (binade x < binade y + 1); [|lia].
  apply pow2_lt_inv. eapply Qle_lt_trans; [exact H1|].
  eapply Qle_lt_trans; [exact Hxy | exact H2].
Qed.

Lemma nearest_even_bounds x :
  Qfloor x ≤ nearest_even x ≤ Qfloor x + 1.
Proof.
  unfold nearest_even. destruct (Qcompare _ _); [destruct (Z.even _)|..]; lia.
Qed.

Lemma nearest_even_Z k : nearest_even (inject_Z k) = k.
Proof.
  unfold nearest_even. rewrite Qfloor_Z.
  assert (Qcompare (inject_Z k - inject_Z k) (1 # 2) = Lt) as ->; [|done].
  apply Qlt_alt. assert (inject_Z k - inject_Z k == 0)%Q as -> by ring. reflexivity.
Qed.

Lemma nearest_even_mono x y : (x <= y)%Q → nearest_even x ≤ nearest_even y.
Proof.
  intros Hxy. pose proof (Qfloor_resp_le _ _ Hxy) as Hf.
  pose proof (nearest_even_bounds x). pose proof (nearest_even_bounds y).
  destruct (decide (Qfloor x = Qfloor y)) as [Heq|Hne]; [|lia].
  unfold nearest_even. rewrite <- Heq.
  assert (x - inject_Z (Qfloor x) <= y - inject_Z (Qfloor x))%Q as Hd.
  { unfold Qminus. by apply Qplus_le_l. }
  destruct (Qcompare (x - inject_Z (Qfloor x)) (1 # 2)) eqn:Hx;
    destruct (Qcompare (y - inject_Z (Qfloor x)) (1 # 2)) eqn:Hy;
    try (destruct (Z.even (Qfloor x))); try lia; exfalso;
    first [apply Qeq_alt in Hx | apply Qlt_alt in Hx | apply Qgt_alt in Hx];
    first [apply Qeq_alt in Hy | apply Qlt_alt in Hy | apply Qgt_alt in Hy];
    revert Hd Hx Hy; generalize (x - inject_Z (Qfloor x))%Q (y - inject_Z (Qfloor x))%Q;
    intros a b; unfold Qle, Qlt, Qeq; simpl; nia.
Qed.

(** Rounding a positive rational stays within its binade. *)
Lemma round_pos_bounds x :
  (0 < x)%Q →
  (pow2 (binade x) <= round_pos x)%Q ∧ (round_pos x <= pow2 (binade x + 1))%Q.
Proof.
  intros Hx. destruct (binade_spec x Hx) as [H1 H2]. unfold round_pos.
  set (e := binade x) in *. set (u := pow2 (e - 52)).
  assert (0 < u)%Q as Hu by apply pow2_pos.
  assert (pow2 e == inject_Z (2 ^ 52) * u)%Q as He.
  { rewrite <- pow2_Z by lia. unfold u. rewrite <- pow2_plus.
    by replace (52 + (e - 52)) with e by lia. }
  assert (pow2 (e + 1) == inject_Z (2 ^ 53) * u)%Q as He1.
  { rewrite <- pow2_Z by lia. unfold u. rewrite <- pow2_plus.
    by replace (53 + (e - 52)) with (e + 1) by lia. }
  assert (inject_Z (2 ^ 52) <= x / u)%Q as Hlo.
  { apply Qle_shift_div_l; [done|]. by rewrite <- He. }
  assert (x / u <= inject_Z (2 ^ 53))%Q as Hhi.
  { apply Qle_shift_div_r; [done|]. rewrite <- He1. by apply Qlt_le_weak. }
  apply nearest_even_mono in Hlo, Hhi. rewrite nearest_even_Z in Hlo, Hhi.
  rewrite He, He1. split; (apply Qmult_le_r; [done|]); by rewrite <- Zle_Qle.
Qed.

Lemma round_pos_mono x y :
  (0 < x)%Q → (x <= y)%Q → (round_pos x <= round_pos y)%Q.
Proof.
  intros Hx Hxy.
  assert (0 < y)%Q as Hy by (eapply Qlt_le_trans; [exact Hx | exact Hxy]).
  pose proof (binade_le x y Hx Hxy) as He.
  destruct (decide (binade x = binade y)) as [Heq|Hne].
  - unfold round_pos. rewrite Heq. apply Qmult_le_r; [apply pow2_pos|].
    rewrite <- Zle_Qle. apply nearest_even_mono.
    apply Qmult_le_r; [|done]. apply Qinv_lt_0_compat, pow2_pos.
  - destruct (round_pos_bounds x Hx) as [_ H1].
    destruct (round_pos_bounds y Hy) as [H2 _].
    eapply Qle_trans; [exact H1|]. eapply Qle_trans; [|exact H2].
    apply pow2_le. lia.
Qed.

Lemma round_nonneg x : (0 <= x)%Q → (0 <= round x)%Q.
Proof.
  intros Hx. unfold round. destruct x as [[|n|n] d]; simpl; [done| |].
  - assert (0 < Z.pos n # d)%Q as Hp by done.
    destruct (round_pos_bounds _ Hp) as [H _].
    eapply Qle_trans; [|exact H]. apply Qlt_le_weak, pow2_pos.
  - unfold Qle in Hx. simpl in Hx. lia.
Qed.

(** Rounding is monotone on the non-negative rationals. *)
Lemma round_mono x y : (0 <= x)%Q → (x <= y)%Q → (round x <= round y)%Q.
Proof.
  intros Hx Hxy. destruct x as [[|n|n] d].
  - apply (round_nonneg y). by eapply Qle_trans.
  - assert (0 < Z.pos n # d)%Q as Hp by done.
    destruct y as [[|m|m] d'].
    + unfold Qle in Hxy. simpl in Hxy. lia.
    + unfold round. simpl. by apply round_pos_mono.
    + unfold Qle in Hxy. simpl in Hxy. lia.
  - unfold Qle in Hx. simpl in Hx. lia.
Qed.

Lemma round_1 : (round 1 == 1)%Q.
Proof. vm_compute. reflexivity. Qed.

Lemma round_100 : (round 100 == 100)%Q.
Proof. vm_compute. reflexivity. Qed.

Lemma round_above_1 : (round (1 + pow2 (-52)) == 1 + pow2 (-52))%Q.
Proof. vm_compute. reflexivity. Qed.

Lemma round_above_100 : (round (100 + pow2 (-46)) == 100 + pow2 (-46))%Q.
Proof. vm_compute. reflexivity. Qed.

Lemma progress_nonneg c t : 0 ≤ c → 0 < t → (0 <= mul (truediv c t) 100)%Q.
Proof.
  intros Hc Ht. unfold mul, truediv. apply round_nonneg.
  apply Qmult_le_0_compat; [|done]. apply round_nonneg.
  apply Qle_shift_div_l; [by rewrite <- (Zlt_Qlt 0)|].
  rewrite Qmult_0_l. by rewrite <- (Zle_Qle 0).
Qed.

Lemma progress_le_100 c t : 0 ≤ c → 0 < t → c ≤ t → (mul (truediv c t) 100 <= 100)%Q.
Proof.
  intros Hc Ht Hct. unfold mul, truediv.
  assert (0 <= inject_Z c / inject_Z t)%Q as H0.
  { apply Qle_shift_div_l; [by rewrite <- (Zlt_Qlt 0)|].
    rewrite Qmult_0_l. by rewrite <- (Zle_Qle 0). }
  assert (round (inject_Z c / inject_Z t) <= 1)%Q as H1.
  { rewrite <- round_1. apply round_mono; [done|].
    apply Qle_shift_div_r; [by rewrite <- (Zlt_Qlt 0)|].
    rewrite Qmult_1_l. by rewrite <- Zle_Qle. }
  rewrite <- round_100 at 2. apply round_mono.
  - apply Qmult_le_0_compat; [by apply round_nonneg | done].
  - apply Qle_trans with (1 * 100)%Q; [by apply Qmult_le_r|]. by vm_compute.
Qed.

Lemma progress_gt_100 c t : 0 < t → t < 2 ^ 52 → t < c → (100 < mul (truediv c t) 100)%Q.
Proof.
  intros Ht Hsmall Hct. unfold mul, truediv.
  assert (0 < inject_Z t)%Q as Htq by (by rewrite <- (Zlt_Qlt 0)).
  assert (1 + pow2 (-52) <= inject_Z c / inject_Z t)%Q as Hq.
  { apply Qle_shift_div_l; [done|].
    apply Qle_trans with (inject_Z (t + 1)); [|rewrite <- Zle_Qle; lia].
    rewrite inject_Z_plus, Qmult_plus_distr_l, Qmult_1_l.
    apply Qplus_le_r. 
    apply Qle_trans with (pow2 (-52) * inject_Z (2 ^ 52))%Q.
    - apply Qmult_le_l; [apply pow2_pos|]. rewrite <- Zle_Qle. lia.
    - rewrite <- pow2_Z by lia. rewrite <- pow2_plus. done. }
  assert (1 + pow2 (-52) <= round (inject_Z c / inject_Z t))%Q as Hr.
  { rewrite <- round_above_1. apply round_mono; [done|done]. }
  apply Qlt_le_trans with (100 + pow2 (-46))%Q.
  { rewrite <- (Qplus_0_r 100) at 1. apply Qplus_lt_r. apply pow2_pos. }
  rewrite <- round_above_100. apply round_mono; [done|].
  apply Qle_trans with ((1 + pow2 (-52)) * 100)%Q; [done|].
  by apply Qmult_le_r.
Qed.

Lemma progress_7_of_25 : (mul (truediv 7 25) 100 == 28 + pow2 (-48))%Q.
Proof. vm_compute. reflexivity. Qed.

Lemma progress_3_of_4 : (mul (truediv 3 4) 100 == 75)%Q.
Proof. vm_compute. reflexivity. Qed.

End FloatFacts.

(** ** video_processor.py *)

Section VideoProcessorFacts.
Import VideoProcessor.

Lemma read_frame_total_frames vp :
  total_frames (read_frame vp).2 = total_frames vp.
Proof.
  unfold read_frame. destruct (cap vp) as [c|]; [|done].
  unfold cap_read. by destruct (stream c).
Qed.

Lemma read_frame_source vp : source (read_frame vp).2 = source vp.
Proof.
  unfold read_frame. destruct (cap vp) as [c|]; [|done].
  unfold cap_read. by destruct (stream c).
Qed.

Lemma read_frame_current vp :
  current_frame (read_frame vp).2 =
  current_frame vp + (if (read_frame vp).1.1 then 1 else 0).
Proof.
  unfold read_frame. destruct (cap vp) as [c|]; simpl; [|lia].
  unfold cap_read. destruct (stream c); simpl; lia.
Qed.

Lemma read_frames_spec n : ∀ vp,
  let r := read_frames n vp in
  current_frame r.2 = current_frame vp + r.1 ∧ 0 ≤ r.1 ∧
  total_frames r.2 = total_frames vp ∧ source r.2 = source vp.
Proof.
  induction n as [|n IH]; intros vp; simpl.
  - repeat split; lia.
  - pose proof (read_frame_current vp) as Hc.
    pose proof (read_frame_total_frames vp) as Ht.
    pose proof (read_frame_source vp) as Hs.
    destruct (read_frame vp) as [[ret fr] vp']. simpl in *.
    specialize (IH vp'). destruct (read_frames n vp') as [oks vp'']. simpl in *.
    destruct IH as (IH1 & IH2 & IH3 & IH4).
    repeat split; [destruct ret; lia | destruct ret; lia | congruence | congruence].
Qed.

Lemma open_source_fresh src ex dev vp :
  _open_source src ex dev = inr vp →
  current_frame vp = 0 ∧ source vp = src ∧
  (∀ i, src = SourceIndex i → total_frames vp = -1).
Proof.
  unfold _open_source. destruct src; intros H.
  - destruct (negb ex); [done|]. destruct (negb (isOpened dev)); [done|].
    injection H as <-. by repeat split.
  - destruct (negb (isOpened dev)); [done|]. injection H as <-. by repeat split.
Qed.

Lemma progress_undefined_iff vp :
  0 ≤ current_frame vp →
  (get_progress vp == -1)%Q ↔ total_frames vp ≤ 0.
Proof.
  intros Hc. unfold get_progress.
  destruct (Z.leb_spec (total_frames vp) 0) as [H|H].
  - split; [done | intros; reflexivity].
  - split; [|lia]. intros Heq.
    pose proof (progress_nonneg (current_frame vp) (total_frames vp) Hc H) as Hn.
    rewrite Heq in Hn. by vm_compute in Hn.
Qed.

(** C7 (as amended).  After [_open_source] and any number of [read_frame]
    calls, [current_frame] is the number of calls that returned a frame;
    [get_progress] is -1 exactly when [total_frames <= 0], which is always
    the case for a webcam; otherwise it is the binary64 value of
    [(current_frame / total_frames) * 100], rounded at the division and
    again at the product.  For a container that reports fewer than 2^52
    frames (and fewer than 2^1000 frames read, so that no operation
    leaves binary64's exponent range) that value is non-negative, it is
    at most 100 exactly as long as no more frames were read than the
    container reported, and it is above 100 once more were read. *)
Theorem C7_get_progress src path_exists dev vp0 n :
  _open_source src path_exists dev = inr vp0 →
  let oks := (read_frames n vp0).1 in
  let vp := (read_frames n vp0).2 in
  current_frame vp = oks ∧
  ((get_progress vp == -1)%Q ↔ total_frames vp ≤ 0) ∧
  (∀ i, src = SourceIndex i → (get_progress vp == -1)%Q) ∧
  (0 < total_frames vp → total_frames vp < 2 ^ 52 → oks < 2 ^ 1000 →
     get_progress vp = Float.round (Float.round (inject_Z oks / inject_Z (total_frames vp)) * 100) ∧
     (0 <= get_progress vp)%Q ∧
     ((get_progress vp <= 100)%Q ↔ oks ≤ total_frames vp) ∧
     ((100 < get_progress vp)%Q ↔ total_frames vp < oks)).
Proof.
  intros Hopen oks vp.
  destruct (open_source_fresh _ _ _ _ Hopen) as (Hc0 & Hsrc & Hcam).
  destruct (read_frames_spec n vp0) as (Hcur & Hoks & Htot & _).
  fold oks vp in Hcur, Hoks, Htot.
  assert (current_frame vp = oks) as Hcnt by lia.
  split; [done|]. split; [apply progress_undefined_iff; lia|]. split.
  - intros i Hi. apply progress_undefined_iff; [lia|].
    rewrite Htot, (Hcam i Hi). lia.
  - intros Hpos Hsmall _. unfold get_progress.
    destruct (Z.leb_spec (total_frames vp) 0) as [H|H]; [lia|].
    rewrite Hcnt. split; [done|].
    split; [apply progress_nonneg; lia|].
    assert (oks ≤ total_frames vp →
            (Float.mul (Float.truediv oks (total_frames vp)) 100 <= 100)%Q) as Hle
      by (intros; apply progress_le_100; lia).
    assert (total_frames vp < oks →
            (100 < Float.mul (Float.truediv oks (total_frames vp)) 100)%Q) as Hgt
      by (intros; by apply progress_gt_100).
    split; split; try done.
    + intros Hp. destruct (Z.le_gt_cases oks (total_frames vp)) as [|Hlt]; [done|].
      exfalso. apply Hgt in Hlt. by apply Qlt_not_le in Hlt.
    + intros Hp. destruct (Z.le_gt_cases oks (total_frames vp)) as [Hl|]; [|lia].
      exfalso. apply Hle in Hl. by apply Qlt_not_le in Hp.
Qed.

Lemma C7_get_progress_witness :
  ∃ vp0, _open_source (SourcePath "video/test.mp4") true
           (sample_capture 4 [sample_frame; sample_frame; sample_frame; sample_frame]) = inr vp0 ∧
         current_frame (read_frames 3 vp0).2 = 3 ∧
         (get_progress (read_frames 3 vp0).2 <= 100)%Q.
Proof.
  eexists. split; [reflexivity|].
  pose proof (C7_get_progress (SourcePath "video/test.mp4") true
    (sample_capture 4 [sample_frame; sample_frame; sample_frame; sample_frame])
    _ 3 eq_refl) as H.
  simpl in H. destruct H as (H1 & _ & _ & H4). split; [exact H1|].
  destruct (H4 ltac:(reflexivity) ltac:(reflexivity) ltac:(reflexivity))
    as (_ & _ & H5 & _).
  apply H5. vm_compute. discriminate.
Defined.

(** C7 as stated fails: a file whose header reports one frame but decodes
    two gives progress 200, outside [0,100]; a file whose header reports
    no frames gives -1 although the source is not live; and at 7 frames of
    25 the value is 28.000000000000004, that is 28 + 2^-48, not
    100 * 7 / 25. *)
Lemma C7_counterexample :
  (∃ vp0, _open_source (SourcePath "video/test.mp4") true
            (sample_capture 1 [sample_frame; sample_frame]) = inr vp0 ∧
          (read_frames 2 vp0).1 = 2 ∧
          (get_progress (read_frames 2 vp0).2 == 200)%Q ∧
          ¬ (get_progress (read_frames 2 vp0).2 <= 100)%Q) ∧
  (∃ vp0, _open_source (SourcePath "video/test.mp4") true
            (sample_capture 0 [sample_frame]) = inr vp0 ∧
          source vp0 = SourcePath "video/test.mp4" ∧
          (get_progress vp0 == -1)%Q) ∧
  (∃ vp0, _open_source (SourcePath "video/test.mp4") true
            (sample_capture 25 (replicate 25 sample_frame)) = inr vp0 ∧
          (read_frames 7 vp0).1 = 7 ∧
          (get_progress (read_frames 7 vp0).2 == 28 + Float.pow2 (-48))%Q ∧
          ¬ (get_progress (read_frames 7 vp0).2 == 100 * 7 / 25)%Q).
Proof.
  split; [|split]; eexists; (split; [reflexivity|]); vm_compute;
    repeat split; congruence.
Qed.

End VideoProcessorFacts.
(** ** inference_engine.py *)

Section InferenceEngineFacts.
Import InferenceEngine.

Lemma load_model_fresh threshold ex loaded e :
  _load_model threshold ex loaded = inr e → inference_times e = [].
Proof.
  unfold _load_model. destruct (negb ex); [done|].
  destruct loaded as [|m]; [done|].
  destruct (model_predict m dummy_input default_conf); [done|].
  by intros [= <-].
Qed.

Lemma predict_times e frame t0 t1 ds e' :
  predict e frame t0 t1 = inr (ds, e') →
  inference_times e' = inference_times e ++ [((t1 - t0) * 1000)%Q].
Proof.
  unfold predict. destruct (model_predict _ _ _) as [|results]; [done|].
  destruct results as [|r ?]; [done|].
  destruct (_parse_results _ r); [done|]. by intros [= _ <-].
Qed.

Lemma predict_all_times calls : ∀ e e',
  predict_all e calls = inr e' →
  inference_times e' = inference_times e ++ map latency_ms calls.
Proof.
  induction calls as [|c calls IH]; intros e e'; simpl.
  - intros [= <-]. by rewrite app_nil_r.
  - destruct (predict e _ _ _) as [|[ds e1]] eqn:Hp; [done|].
    intros H. rewrite (IH _ _ H), (predict_times _ _ _ _ _ _ Hp).
    by rewrite <- app_assoc.
Qed.

Lemma fps_no_samples e : inference_times e = [] → get_fps e = 0%Q.
Proof.
  intros H. unfold get_fps, get_avg_inference_time. rewrite H.
  by destruct (Qlt_le_dec 0 0).
Qed.

Lemma fps_cases e :
  let avg := get_avg_inference_time e in
  ((0 < avg)%Q → (get_fps e == 1000 / avg)%Q ∧ (0 < get_fps e)%Q) ∧
  ((avg <= 0)%Q → get_fps e = 0%Q).
Proof.
  intros avg. unfold get_fps. fold avg.
  destruct (Qlt_le_dec 0 avg) as [Hlt|Hle]; split.
  - intros _. split; [reflexivity|]. apply Qlt_shift_div_l; [done|].
    by rewrite Qmult_0_l.
  - intros Hle. exfalso. by apply (Qlt_not_le _ _ Hlt).
  - intros Hlt. exfalso. by apply (Qlt_not_le _ _ Hlt).
  - done.
Qed.

(** C8 (as amended).  Right after loading (warm-up included) [get_fps] is
    0.  After one or more successful [predict] calls the recorded samples
    are exactly the per-call latencies in milliseconds; [get_fps] is then
    1000 divided by their average, and strictly positive, when that
    average is positive, and 0 when the average is not positive. *)
Theorem C8_get_fps threshold model_exists loaded e0 calls e :
  _load_model threshold model_exists loaded = inr e0 →
  calls ≠ [] →
  predict_all e0 calls = inr e →
  get_fps e0 = 0%Q ∧
  inference_times e = map latency_ms calls ∧
  get_avg_inference_time e =
    (py_sum (map latency_ms calls) / inject_Z (Z.of_nat (length calls)))%Q ∧
  ((0 < get_avg_inference_time e)%Q →
     (get_fps e == 1000 / get_avg_inference_time e)%Q ∧ (0 < get_fps e)%Q) ∧
  ((get_avg_inference_time e <= 0)%Q → get_fps e = 0%Q).
Proof.
  intros Hload Hne Hall.
  pose proof (load_model_fresh _ _ _ _ Hload) as H0.
  pose proof (predict_all_times _ _ _ Hall) as Ht. rewrite H0 in Ht. simpl in Ht.
  split; [by apply fps_no_samples|]. split; [done|]. split.
  - unfold get_avg_inference_time. rewrite Ht, length_map.
    destruct calls; [done|]. reflexivity.
  - apply fps_cases.
Qed.

Lemma C8_get_fps_witness :
  ∃ e0 e,
    _load_model (25 # 100) true (inr sample_model) = inr e0 ∧
    predict_all e0 [ {| call_frame := frame_tagged 1; call_start := 10; call_end := 10 + (1 # 50) |} ] = inr e ∧
    get_fps e0 = 0%Q ∧
    (get_avg_inference_time e == 20)%Q ∧
    (get_fps e == 50)%Q.
Proof.
  eexists _, _. split; [reflexivity|]. split; [reflexivity|].
  pose proof (C8_get_fps (25 # 100) true (inr sample_model) _
    [ {| call_frame := frame_tagged 1; call_start := 10; call_end := 10 + (1 # 50) |} ]
    _ eq_refl ltac:(discriminate) eq_refl) as (H1 & _ & H3 & H4 & _).
  split; [exact H1|]. split; [rewrite H3; reflexivity|].
  destruct H4 as [H4 _]; [rewrite H3; reflexivity|]. rewrite H4, H3. reflexivity.
Defined.

(** C8 as stated fails: when the clock reads the same value before and
    after the model call, one prediction has been made, the average latency
    is 0 and [get_fps] is 0, not strictly positive. *)
Lemma C8_counterexample :
  ∃ e0 e,
    _load_model (25 # 100) true (inr sample_model) = inr e0 ∧
    predict_all e0 [ {| call_frame := frame_tagged 1; call_start := 10; call_end := 10 |} ] = inr e ∧
    length (inference_times e) = 1%nat ∧
    get_fps e = 0%Q ∧ ¬ (0 < get_fps e)%Q.
Proof.
  eexists _, _. split; [reflexivity|]. split; [reflexivity|].
  split; [reflexivity|]. split; [reflexivity|]. by vm_compute.
Qed.

Lemma parse_boxes_all e bs : ∀ acc,
  (∀ b, b ∈ bs → is_Some (class_names e !! py_int (cls b))) →
  ∃ ds, parse_boxes e bs acc = inr (acc ++ ds) ∧
        Forall2 (λ b d, parse_box e b = inr d) bs ds.
Proof.
  induction bs as [|b bs IH]; intros acc Hall; simpl.
  - exists []. by rewrite app_nil_r.
  - destruct (Hall b) as [name Hname]; [by left|].
    assert (∃ d, parse_box e b = inr d) as [d Hd].
    { unfold parse_box. rewrite Hname. destruct (xyxy b) as [[[? ?] ?] ?]. by eexists. }
    rewrite Hd. destruct (IH (acc ++ [d])) as (ds & -> & Hds).
    { intros b' Hb'. apply Hall. by right. }
    exists (d :: ds). split; [by rewrite <- app_assoc|]. by constructor.
Qed.

Lemma parse_box_record_time e ms b :
  parse_box (record_time e ms) b = parse_box e b.
Proof. done. Qed.

(** When the model call raises, so does [predict]. *)
Lemma predict_raises e frame t0 t1 x :
  model_predict (model e) frame (conf_threshold e) = inl x →
  predict e frame t0 t1 = inl x.
Proof. intros H. unfold predict. by rewrite H. Qed.

(** When the model call returns and every class id has a name, [predict]
    returns one detection per box, in order. *)
Lemma predict_returns e frame t0 t1 r rest :
  model_predict (model e) frame (conf_threshold e) = inr (r :: rest) →
  (∀ b, b ∈ boxes r → is_Some (class_names e !! py_int (cls b))) →
  ∃ ds, predict e frame t0 t1 = inr (ds, record_time e ((t1 - t0) * 1000)%Q) ∧
        Forall2 (λ b d, parse_box e b = inr d) (boxes r) ds.
Proof.
  intros Hm Hall. unfold predict, _parse_results. rewrite Hm.
  destruct (parse_boxes_all (record_time e ((t1 - t0) * 1000)%Q) (boxes r) [])
    as (ds & -> & Hds); [done|].
  exists ds. split; [done|].
  eapply Forall2_impl; [exact Hds|]. intros b d H. exact H.
Qed.

End InferenceEngineFacts.

(** ** Files and JSON *)

Section StorageFacts.
Import Storage.

Lemma write_insert (fs : gmap string (list Token)) path text p :
  write (<[path := text]> fs) path p = <[path := text ++ [p]]> fs.
Proof. unfold write. by rewrite alter_insert_eq. Qed.

Lemma foldl_write pieces : ∀ (fs : gmap string (list Token)) path text,
  foldl (λ fs' p, write fs' path p) (<[path := text]> fs) pieces
  = <[path := text ++ pieces]> fs.
Proof.
  induction pieces as [|p pieces IH]; intros fs path text; simpl.
  - by rewrite app_nil_r.
  - rewrite write_insert, IH. by rewrite <- app_assoc.
Qed.

(** Once the [with] block is left the path holds the whole text. *)
Lemma json_dump_insert (fs : gmap string (list Token)) path d :
  json_dump fs path d = <[path := encode d]> fs.
Proof. unfold json_dump, open_w. by rewrite foldl_write. Qed.

Lemma json_dump_lookup (fs : gmap string (list Token)) path d :
  json_dump fs path d !! path = Some (encode d).
Proof. by rewrite json_dump_insert, lookup_insert_eq. Qed.

Lemma json_dump_lookup_ne (fs : gmap string (list Token)) path path' d :
  path ≠ path' → json_dump fs path d !! path' = fs !! path'.
Proof. intros. by rewrite json_dump_insert, lookup_insert_ne. Qed.

Lemma take_events_encoded evs rest :
  (∀ e tl, rest ≠ TEvent e :: tl) →
  take_events (map TEvent evs ++ rest) = (evs, rest).
Proof.
  intros Hrest. induction evs as [|e evs IH]; simpl.
  - destruct rest as [|[] ?]; try done. by exfalso; eapply Hrest.
  - by rewrite IH.
Qed.

(** Reading back a completely written text gives the document. *)
Lemma json_load_encode d : json_load (encode d) = Some d.
Proof.
  destruct d; simpl; try done; by rewrite take_events_encoded.
Qed.

Lemma write_trace_prefixes pieces : ∀ (fs : gmap string (list Token)) path text fs',
  fs' ∈ write_trace (<[path := text]> fs) path pieces →
  ∃ done rest, pieces = done ++ rest ∧ done ≠ [] ∧
               fs' = <[path := text ++ done]> fs.
Proof.
  induction pieces as [|p pieces IH]; intros fs path text fs'; simpl.
  - by intros ?%elem_of_nil.
  - rewrite write_insert. intros [->|Hin]%elem_of_cons.
    + by exists [p], pieces.
    + destruct (IH _ _ _ _ Hin) as (dn & rest & -> & _ & ->).
      exists (p :: dn), rest. split; [done|]. split; [done|].
      by rewrite <- app_assoc.
Qed.

(** Every state of the disk during a dump holds, at the path, a prefix
    of the text being written, and nothing else differs from before. *)
Lemma json_dump_trace_prefixes (fs : gmap string (list Token)) path d fs' :
  fs' ∈ json_dump_trace fs path d →
  ∃ done rest, encode d = done ++ rest ∧ fs' = <[path := done]> fs.
Proof.
  unfold json_dump_trace, open_w. intros [->|Hin]%elem_of_cons.
  - by exists [], (encode d).
  - destruct (write_trace_prefixes _ _ _ _ _ Hin) as (dn & rest & ? & _ & ->).
    by exists dn, rest.
Qed.

Lemma write_trace_last pieces : ∀ (fs : gmap string (list Token)) path,
  last (fs :: write_trace fs path pieces)
  = Some (foldl (λ fs' p, write fs' path p) fs pieces).
Proof.
  induction pieces as [|p pieces IH]; intros fs path; [done|].
  simpl write_trace. rewrite last_cons_cons. apply IH.
Qed.

(** The last state of the disk during a dump is the one [json_dump]
    returns. *)
Lemma json_dump_trace_last (fs : gmap string (list Token)) path d :
  last (json_dump_trace fs path d) = Some (json_dump fs path d).
Proof. apply write_trace_last. Qed.

Lemma encode_nonempty d : encode d ≠ [].
Proof. by destruct d. Qed.

Lemma events_prefix dn : ∀ rest evs,
  dn ++ rest = map TEvent evs ++ [TClose] → rest ≠ [] →
  ∃ evs', dn = map TEvent evs'.
Proof.
  induction dn as [|x dn IH]; intros rest evs Heq Hrest.
  - by exists [].
  - destruct evs as [|e evs]; simpl in Heq.
    + injection Heq as -> Heq. by destruct dn, rest.
    + injection Heq as -> Heq. destruct (IH _ _ Heq Hrest) as [evs' ->].
      by exists (e :: evs').
Qed.

Lemma take_events_only evs : take_events (map TEvent evs) = (evs, []).
Proof.
  rewrite <- (app_nil_r (map TEvent evs)). by apply take_events_encoded.
Qed.

(** A text cut short does not parse: the reader gets a decode error. *)
Lemma json_load_partial d dn rest :
  encode d = dn ++ rest → rest ≠ [] → json_load dn = None.
Proof.
  intros Heq Hrest.
  destruct dn as [|x dn]; [done|].
  destruct d as [sid evs|s|s evs|evs]; simpl in Heq; injection Heq as <- Heq;
    symmetry in Heq.
  - destruct (events_prefix _ _ _ Heq Hrest) as [evs' ->].
    simpl. by rewrite take_events_only.
  - destruct dn as [|y dn]; [done|]. injection Heq as -> Heq.
    by destruct dn, rest.
  - destruct (events_prefix _ _ _ Heq Hrest) as [evs' ->].
    simpl. by rewrite take_events_only.
  - destruct (events_prefix _ _ _ Heq Hrest) as [evs' ->].
    simpl. by rewrite take_events_only.
Qed.

End StorageFacts.

(** ** run_inference_local.py *)

Section LocalMainFacts.

Lemma sum_counts_snoc evs e :
  sum_counts (evs ++ [e]) = sum_counts evs + DetectionFormatter.detection_count e.
Proof.
  unfold sum_counts. induction evs as [|e' evs IH]; simpl; [lia|]. rewrite IH. lia.
Qed.

Lemma paths_differ : Storage.current_detections ≠ Storage.current_session.
Proof. done. Qed.

Lemma start_consistent b fs0 s0 :
  LocalMain.start b fs0 = inr s0 →
  local_consistent fs0 s0 ∧
  LocalMain.session_id s0.1 = Pipeline.make_id "local_" (Pipeline.boot_time b) ∧
  LocalMain.all_detections s0.1 = [].
Proof.
  unfold LocalMain.start. destruct (Pipeline.boot_config b) as [|cfg]; [done|].
  destruct (InferenceEngine._load_model _ _ _) as [|eng]; [done|].
  destruct (VideoProcessor._open_source _ _ _) as [|vid] eqn:Hopen; [done|].
  intros [= <-]. destruct (open_source_fresh _ _ _ _ Hopen) as (Hc & _ & _).
  split; [|done]. unfold local_consistent; simpl.
  repeat split; try done.
  - rewrite json_dump_lookup_ne; [done|]. by intros ?%symmetry%paths_differ.
  - by rewrite json_dump_lookup.
  - intros p _ Hp. by rewrite json_dump_lookup_ne.
Qed.

(** The state and disk right after a frame's event was recorded and the
    detections file rewritten. *)
Lemma pushed_consistent fs0 st fs vid eng stamp dets shape :
  local_consistent fs0 (st, fs) →
  VideoProcessor.current_frame vid
    = VideoProcessor.current_frame (LocalMain.video st) + 1 →
  let st1 := LocalMain.with_video st vid (LocalMain.frame_count st + 1) in
  let event :=
    DetectionFormatter.set_session_id
      (DetectionFormatter.format_detection_event
         (LocalMain.frame_count st1) stamp dets shape)
      (LocalMain.session_id st1) in
  let st' := LocalMain.with_event st1 eng event (Z.of_nat (length dets)) in
  local_consistent fs0
    (st', Storage.json_dump fs Storage.current_detections
            (Storage.DetectionsDoc (LocalMain.session_id st) (LocalMain.all_detections st'))).
Proof.
  intros (Hfc & Hcur & Htot & Hev & Hdet & Hses & Hst & Hf0 & Ht0 & Hsid & Hoth) Hvid.
  unfold local_consistent; simpl in *.
  split; [rewrite length_app; simpl; lia|].
  split; [lia|].
  split; [rewrite sum_counts_snoc; simpl; lia|].
  split.
  { intros i e Hi. apply lookup_app_Some in Hi as [Hi|[Hlen Hi]]; [by apply Hev|].
    apply list_lookup_singleton_Some in Hi as [Hz <-]. simpl.
    repeat split; try done. simpl in *. lia. }
  split.
  { rewrite json_dump_lookup.
    by destruct (LocalMain.all_detections st). }
  split; [rewrite json_dump_lookup_ne; [done | apply paths_differ]|].
  repeat split; try done.
  intros p Hp1 Hp2. rewrite json_dump_lookup_ne; [by apply Hoth | done].
Qed.

(** One pass of the loop keeps the state and the disk consistent; a pass
    that goes on has recorded exactly one more frame. *)
Lemma iteration_consistent k fs0 s :
  local_consistent fs0 s →
  match LocalMain.iteration k s with
  | Pipeline.Continue s' =>
      local_consistent fs0 s' ∧
      LocalMain.session_id s'.1 = LocalMain.session_id s.1 ∧
      LocalMain.frame_count s'.1 = LocalMain.frame_count s.1 + 1
  | Pipeline.Break s' =>
      local_consistent fs0 s' ∧
      LocalMain.session_id s'.1 = LocalMain.session_id s.1
  | Pipeline.Raise _ _ => True
  end.
Proof.
  destruct s as [st fs]. intros Hc. unfold LocalMain.iteration.
  pose proof (read_frame_current (LocalMain.video st)) as Hrd.
  destruct (VideoProcessor.read_frame (LocalMain.video st)) as [[success frame] vid].
  simpl in Hrd. destruct success; simpl.
  - destruct frame as [f|]; [|done].
    destruct (InferenceEngine.predict _ _ _ _) as [|[dets eng]]; [done|].
    pose proof (pushed_consistent fs0 st fs vid eng (Pipeline.tick_stamp k) dets
                  (frame_shape f) Hc Hrd) as Hp. simpl in Hp.
    destruct (Config.display_window _ && _); [by split|].
    destruct (Pipeline.log_raises _ _ _ _); [done|].
    split; [exact Hp|]. by split.
  - split; [|done].
    destruct Hc as (Hfc & Hcur & Hrest).
    unfold local_consistent. simpl in *.
    split; [done|]. split; [lia|]. exact Hrest.
Qed.

Lemma loop_cons k ticks s :
  LocalMain.loop (k :: ticks) s
  = match LocalMain.iteration k s with
    | Pipeline.Continue s' => LocalMain.loop ticks s'
    | Pipeline.Break s' => LocalMain.Left s'
    | Pipeline.Raise x s' => LocalMain.Crashed x s'
    end.
Proof. done. Qed.

Lemma loop_consistent ticks : ∀ fs0 s s',
  local_consistent fs0 s →
  (LocalMain.loop ticks s = LocalMain.Looping s' →
     local_consistent fs0 s' ∧
     LocalMain.session_id s'.1 = LocalMain.session_id s.1 ∧
     LocalMain.frame_count s'.1 = LocalMain.frame_count s.1 + Z.of_nat (length ticks)) ∧
  (LocalMain.loop ticks s = LocalMain.Left s' →
     local_consistent fs0 s' ∧
     LocalMain.session_id s'.1 = LocalMain.session_id s.1).
Proof.
  induction ticks as [|k ticks IH]; intros fs0 s s' Hc; simpl.
  - split; [|done]. intros [= <-]. split; [done|]. split; [done|lia].
  - pose proof (iteration_consistent k fs0 s Hc) as Hit.
    destruct (LocalMain.iteration k s) as [s1|s1|x s1].
    + destruct Hit as (Hc1 & Hs1 & Hf1).
      destruct (IH fs0 s1 s' Hc1) as [IH1 IH2]. split.
      * intros H. destruct (IH1 H) as (? & ? & ?).
        split; [done|]. split; [congruence|lia].
      * intros H. destruct (IH2 H) as (? & ?). split; [done|congruence].
    + split; [done|]. by intros [= <-].
    + by split.
Qed.

Lemma archive_path_fresh stamp :
  LocalMain.archive_path stamp ≠ Storage.current_detections ∧
  LocalMain.archive_path stamp ≠ Storage.current_session.
Proof. split; intros H; unfold LocalMain.archive_path in H; simpl in H; discriminate. Qed.

Lemma finish_detections f st fs :
  LocalMain.finish f (st, fs) !! Storage.current_detections
  = fs !! Storage.current_detections.
Proof.
  unfold LocalMain.finish.
  rewrite !json_dump_lookup_ne; [done|..];
    first [apply archive_path_fresh | by intros ?%symmetry%paths_differ].
Qed.

Lemma finish_session f st fs :
  LocalMain.finish f (st, fs) !! Storage.current_session
  = Some (Storage.encode
            (Storage.SessionDoc (LocalMain.completed st (Pipeline.final_stamp f)))).
Proof.
  unfold LocalMain.finish. rewrite json_dump_lookup_ne; [|apply archive_path_fresh].
  by rewrite json_dump_lookup.
Qed.

Lemma get_detections_written (fs : gmap string (list Storage.Token)) d :
  fs !! Storage.current_detections = Some (Storage.encode d) →
  ApiServer.get_detections fs = (200, ApiServer.Document d).
Proof.
  intros H. unfold ApiServer.get_detections. by rewrite H, json_load_encode.
Qed.

Lemma get_session_written (fs : gmap string (list Storage.Token)) d :
  fs !! Storage.current_session = Some (Storage.encode d) →
  ApiServer.get_session fs = (200, ApiServer.Document d).
Proof.
  intros H. unfold ApiServer.get_session. by rewrite H, json_load_encode.
Qed.

Lemma get_detections_consistent fs0 st fs :
  local_consistent fs0 (st, fs) →
  fs0 !! Storage.current_detections = None ∨ LocalMain.all_detections st ≠ [] →
  (ApiServer.get_detections fs).1 = 200 ∧
  detections_in (ApiServer.get_detections fs).2
  = Some (match LocalMain.all_detections st with
          | [] => None
          | _ => Some (LocalMain.session_id st)
          end, LocalMain.all_detections st).
Proof.
  intros (_ & _ & _ & _ & Hdet & _) Hclean. cbn [fst snd] in Hdet.
  destruct (LocalMain.all_detections st) as [|e evs] eqn:Hevs.
  - unfold ApiServer.get_detections. rewrite Hdet.
    destruct Hclean as [->|]; done.
  - by rewrite (get_detections_written _ _ Hdet).
Qed.

Lemma started_local_boot b fs :
  has_started b fs = true → LocalMain.start b fs = inr (local_boot b fs).
Proof. unfold has_started, local_boot. by destruct (LocalMain.start b fs). Qed.

Lemma looping_local_state r :
  is_looping r = true → r = LocalMain.Looping ((local_state r).1, (local_state r).2).
Proof. by destruct r as [[? ?]|[? ?]|? [? ?]]. Qed.

Lemma goes_on_step_state {S T : Type} (r : Pipeline.Step (S * T)) :
  goes_on r = true → r = Pipeline.Continue ((step_state r).1, (step_state r).2).
Proof. by destruct r as [[? ?]|[? ?]|? [? ?]]. Qed.

(** C4.  Start the local worker on a disk whose detections file was
    cleared (as [/start-analysis] does) or let it push at least one event.
    After any number of passes of the loop, whether the loop is still
    running or was left, and also after the final files were written,
    [/detections] answers 200 with exactly the events pushed so far, in
    the order pushed (the i-th event is that of frame i), each carrying
    the worker's session id, which is also the id of the response; while
    the loop is running their number is the number of passes. *)
Theorem C4_local_round_trip b fs0 s0 ticks st fs f :
  LocalMain.start b fs0 = inr s0 →
  LocalMain.loop ticks s0 = LocalMain.Looping (st, fs) ∨
  LocalMain.loop ticks s0 = LocalMain.Left (st, fs) →
  fs0 !! Storage.current_detections = None ∨ LocalMain.all_detections st ≠ [] →
  let pushed := LocalMain.all_detections st in
  let sid := LocalMain.session_id st in
  Z.of_nat (length pushed) = LocalMain.frame_count st ∧
  (LocalMain.loop ticks s0 = LocalMain.Looping (st, fs) → length pushed = length ticks) ∧
  (ApiServer.get_detections fs).1 = 200 ∧
  detections_in (ApiServer.get_detections fs).2
    = Some (match pushed with [] => None | _ => Some sid end, pushed) ∧
  ApiServer.get_detections (LocalMain.finish f (st, fs)) = ApiServer.get_detections fs ∧
  (∀ i e, pushed !! i = Some e →
     DetectionFormatter.frame_id e = Z.of_nat i + 1 ∧
     DetectionFormatter.session_id e = Some sid).
Proof.
  intros Hstart Hloop Hclean pushed sid.
  destruct (start_consistent _ _ _ Hstart) as (Hc0 & Hsid0 & Hev0).
  destruct (loop_consistent ticks fs0 s0 (st, fs) Hc0) as [HL HR].
  assert (local_consistent fs0 (st, fs)) as Hc
    by (destruct Hloop as [H|H]; [by apply HL | by apply HR]).
  destruct (get_detections_consistent _ _ _ Hc Hclean) as [Hcode Hbody].
  pose proof Hc as (Hfc & _ & _ & Hev & _). simpl in Hfc, Hev.
  split; [by rewrite Hfc|]. split.
  { intros H. destruct (HL H) as (_ & _ & Hn). simpl in Hn.
    pose proof Hc0 as (Hfc0 & _). rewrite Hev0 in Hfc0. simpl in Hfc0.
    unfold pushed. lia. }
  split; [done|]. split; [done|]. split.
  { unfold ApiServer.get_detections. by rewrite finish_detections. }
  intros i e Hi. by destruct (Hev i e Hi) as (? & ? & _).
Qed.

Lemma C4_local_round_trip_witness :
  let s0 := local_started sample_model ten_frames ∅ in
  let s := local_after sample_model ten_frames 4 in
  LocalMain.start (sample_boot sample_model ten_frames) ∅ = inr s0 ∧
  LocalMain.loop (replicate 4 sample_tick) s0 = LocalMain.Looping (s.1, s.2) ∧
  length (LocalMain.all_detections s.1) = 4%nat ∧
  fst <$> detections_in (ApiServer.get_detections s.2).2 = Some (Some "local_1700000000").
Proof.
  intros s0 s.
  assert (LocalMain.start (sample_boot sample_model ten_frames) ∅ = inr s0) as H1
    by (apply started_local_boot; vm_compute; reflexivity).
  assert (LocalMain.loop (replicate 4 sample_tick) s0 = LocalMain.Looping (s.1, s.2)) as H2
    by (apply looping_local_state; vm_compute; reflexivity).
  pose proof (C4_local_round_trip _ _ _ _ _ _ sample_final H1 (or_introl H2) (or_introl eq_refl))
    as (_ & Hn & _ & Hbody & _).
  split; [exact H1|]. split; [exact H2|]. split; [exact (Hn H2)|].
  rewrite Hbody. vm_compute. reflexivity.
Defined.

(** What a pass of the loop that goes on leaves on disk. *)
Lemma iteration_continue_disk k st fs st' fs1 :
  LocalMain.iteration k (st, fs) = Pipeline.Continue (st', fs1) →
  fs1 = Storage.json_dump fs Storage.current_detections
          (Storage.DetectionsDoc (LocalMain.session_id st') (LocalMain.all_detections st')).
Proof.
  unfold LocalMain.iteration.
  destruct (VideoProcessor.read_frame _) as [[success frame] vid].
  destruct success; simpl; [|done].
  destruct frame as [f|]; [|done].
  destruct (InferenceEngine.predict _ _ _ _) as [|[dets eng]]; [done|].
  destruct (Config.display_window _ && _); [done|].
  destruct (Pipeline.log_raises _ _ _ _); [done|].
  by intros [= <- <-].
Qed.

(** C6 (as amended).  A pass of the loop that records a frame updates the
    detections file in place: the disk goes through the states of
    [json_dump_trace], each of which differs from the disk before the
    update only at the well-known path, where it holds a prefix of the new
    text (no other path is created, nothing is renamed); the first of them
    holds the truncated, empty file; as long as the text is not complete
    [/detections] answers 500; the last state is the one the pass leaves,
    and there [/detections] answers with the latest full list. *)
Theorem C6_update_in_place k st fs st' fs1 :
  LocalMain.iteration k (st, fs) = Pipeline.Continue (st', fs1) →
  let d := Storage.DetectionsDoc (LocalMain.session_id st') (LocalMain.all_detections st') in
  let trace := Storage.json_dump_trace fs Storage.current_detections d in
  trace !! 0%nat = Some (<[Storage.current_detections := []]> fs) ∧
  (∀ fs', fs' ∈ trace →
     ∃ done rest,
       Storage.encode d = done ++ rest ∧
       fs' = <[Storage.current_detections := done]> fs ∧
       (rest ≠ [] → ApiServer.get_detections fs' = (500, ApiServer.Failure ValueError))) ∧
  last trace = Some fs1 ∧
  ApiServer.get_detections fs1 = (200, ApiServer.Document d).
Proof.
  intros Hit d trace. pose proof (iteration_continue_disk _ _ _ _ _ Hit) as ->.
  split; [done|]. split; [|split].
  - intros fs' Hin.
    destruct (json_dump_trace_prefixes _ _ _ _ Hin) as (dn & rest & Heq & ->).
    exists dn, rest. split; [done|]. split; [done|]. intros Hrest.
    unfold ApiServer.get_detections. rewrite lookup_insert_eq.
    by rewrite (json_load_partial _ _ _ Heq Hrest).
  - apply json_dump_trace_last.
  - apply get_detections_written, json_dump_lookup.
Qed.

Lemma C6_update_in_place_witness :
  let s1 := local_after sample_model ten_frames 1 in
  let s2 := step_state (LocalMain.iteration sample_tick (s1.1, s1.2)) in
  LocalMain.iteration sample_tick (s1.1, s1.2) = Pipeline.Continue (s2.1, s2.2) ∧
  ApiServer.get_detections s2.2
    = (200, ApiServer.Document
              (Storage.DetectionsDoc (LocalMain.session_id s2.1)
                 (LocalMain.all_detections s2.1))) ∧
  length (LocalMain.all_detections s2.1) = 2%nat.
Proof.
  intros s1 s2.
  assert (LocalMain.iteration sample_tick (s1.1, s1.2) = Pipeline.Continue (s2.1, s2.2)) as H
    by (apply goes_on_step_state; vm_compute; reflexivity).
  pose proof (C6_update_in_place _ _ _ _ _ H) as (_ & _ & _ & Hget).
  split; [exact H|]. split; [exact Hget|]. vm_compute. reflexivity.
Defined.

(** C6 as stated fails: when the second frame is recorded, the first state
    of the disk during the update has the well-known file truncated;
    [/detections] answers 500 there, and the path holds neither the
    previous list nor the new one.  Every other path is as before: nothing
    was written to a temporary location. *)
Lemma C6_counterexample :
  let s1 := local_after sample_model ten_frames 1 in
  let s2 := step_state (LocalMain.iteration sample_tick (s1.1, s1.2)) in
  let d := Storage.DetectionsDoc (LocalMain.session_id s2.1) (LocalMain.all_detections s2.1) in
  ∃ fs',
    goes_on (LocalMain.iteration sample_tick (s1.1, s1.2)) = true ∧
    Storage.json_dump_trace s1.2 Storage.current_detections d !! 0%nat = Some fs' ∧
    fs' !! Storage.current_detections = Some [] ∧
    length <$> s1.2 !! Storage.current_detections = Some 3%nat ∧
    length (Storage.encode d) = 4%nat ∧
    ApiServer.get_detections fs' = (500, ApiServer.Failure ValueError) ∧
    ∀ p, p ≠ Storage.current_detections → fs' !! p = s1.2 !! p.
Proof.
  intros s1 s2 d. exists (<[Storage.current_detections := []]> s1.2).
  split; [vm_compute; reflexivity|]. split; [reflexivity|].
  split; [by rewrite lookup_insert_eq|].
  split; [vm_compute; reflexivity|]. split; [vm_compute; reflexivity|].
  split; [unfold ApiServer.get_detections; by rewrite lookup_insert_eq|].
  intros p Hp. by rewrite lookup_insert_ne.
Qed.

Lemma loop_app ticks1 ticks2 : ∀ s,
  LocalMain.loop (ticks1 ++ ticks2) s
  = match LocalMain.loop ticks1 s with
    | LocalMain.Looping s' => LocalMain.loop ticks2 s'
    | r => r
    end.
Proof.
  induction ticks1 as [|k ticks1 IH]; intros s; [done|].
  simpl app. rewrite !loop_cons. by destruct (LocalMain.iteration k s).
Qed.

(** C5 (as amended).  On a frame for which the model call returns and
    every class id has a name, [predict] returns one detection per box of
    the first result, in the order of the boxes, the detection at each
    position being the one built from the box at that position, and
    records the latency.  When the model call raises, [predict] raises the
    same exception: nothing is caught, no empty list is returned, the pass
    of the loop that called it ends the loop with that exception, the disk
    left as it was, and the script exits with code 1. *)
Theorem C5_predict_on_failure k st fs f vid :
  VideoProcessor.read_frame (LocalMain.video st) = (true, Some f, vid) →
  let e := LocalMain.engine st in
  let outcome := InferenceEngine.model_predict (InferenceEngine.model e) f
                   (InferenceEngine.conf_threshold e) in
  (∀ r rest,
     outcome = inr (r :: rest) →
     (∀ b, b ∈ InferenceEngine.boxes r →
           is_Some (InferenceEngine.class_names e !! py_int (InferenceEngine.cls b))) →
     ∃ ds,
       InferenceEngine.predict e f (Pipeline.tick_start k) (Pipeline.tick_end k)
         = inr (ds, InferenceEngine.record_time e
                      ((Pipeline.tick_end k - Pipeline.tick_start k) * 1000)%Q) ∧
       length ds = length (InferenceEngine.boxes r) ∧
       Forall2 (λ b d, InferenceEngine.parse_box e b = inr d)
         (InferenceEngine.boxes r) ds ∧
       ∀ i b, InferenceEngine.boxes r !! i = Some b →
         ∃ d, ds !! i = Some d ∧
              InferenceEngine.class_id d = py_int (InferenceEngine.cls b) ∧
              InferenceEngine.class_names e !! InferenceEngine.class_id d
                = Some (InferenceEngine.class_name d) ∧
              InferenceEngine.confidence d = InferenceEngine.conf b) ∧
  (∀ x,
     outcome = inl x →
     InferenceEngine.predict e f (Pipeline.tick_start k) (Pipeline.tick_end k) = inl x ∧
     (∀ e', InferenceEngine.predict e f (Pipeline.tick_start k) (Pipeline.tick_end k)
            ≠ inr ([], e')) ∧
     LocalMain.iteration k (st, fs)
       = Pipeline.Raise x (LocalMain.with_video st vid (LocalMain.frame_count st + 1), fs) ∧
     (∀ ticks, LocalMain.loop (k :: ticks) (st, fs)
        = LocalMain.Crashed x (LocalMain.with_video st vid (LocalMain.frame_count st + 1), fs)) ∧
     ∀ b fs0 s0 before ticks final,
       LocalMain.start b fs0 = inr s0 →
       LocalMain.loop before s0 = LocalMain.Looping (st, fs) →
       LocalMain.main b (before ++ k :: ticks) final fs0 = Some (1, fs)).
Proof.
  intros Hread e outcome. split.
  - intros r rest Hout Hall.
    destruct (predict_returns e f (Pipeline.tick_start k) (Pipeline.tick_end k) r rest Hout Hall)
      as (ds & Hp & Hds).
    exists ds. split; [done|]. split; [symmetry; by eapply Forall2_length|].
    split; [done|]. intros i b Hb.
    destruct (Forall2_lookup_l _ _ _ _ _ Hds Hb) as (d & Hd & Hbd).
    exists d. split; [done|]. revert Hbd. unfold InferenceEngine.parse_box.
    destruct (InferenceEngine.class_names e !! _) as [name|] eqn:Hn; [|done].
    destruct (InferenceEngine.xyxy b) as [[[? ?] ?] ?]. by intros [= <-].
  - intros x Hout.
    pose proof (predict_raises e f (Pipeline.tick_start k) (Pipeline.tick_end k) x Hout) as Hp.
    assert (LocalMain.iteration k (st, fs)
            = Pipeline.Raise x (LocalMain.with_video st vid (LocalMain.frame_count st + 1), fs))
      as Hit.
    { unfold LocalMain.iteration. rewrite Hread. simpl. fold e. by rewrite Hp. }
    split; [done|]. split; [by rewrite Hp|]. split; [done|].
    split; [intros ticks; by rewrite loop_cons, Hit|].
    intros b fs0 s0 before ticks final Hstart Hloop.
    unfold LocalMain.main. by rewrite Hstart, loop_app, Hloop, loop_cons, Hit.
Qed.

Lemma C5_predict_on_failure_witness :
  let st := (local_after failing_model crash_frames 1).1 in
  let fs := (local_after failing_model crash_frames 1).2 in
  VideoProcessor.read_frame (LocalMain.video st)
    = (true, Some (frame_tagged 2), (VideoProcessor.read_frame (LocalMain.video st)).2) ∧
  InferenceEngine.predict (LocalMain.engine st) (frame_tagged 2)
    (Pipeline.tick_start sample_tick) (Pipeline.tick_end sample_tick)
    = inl (LibraryError "ultralytics") ∧
  ∀ ticks, LocalMain.loop (sample_tick :: ticks) (st, fs)
    = LocalMain.Crashed (LibraryError "ultralytics")
        (LocalMain.with_video st (VideoProcessor.read_frame (LocalMain.video st)).2
           (LocalMain.frame_count st + 1), fs).
Proof.
  intros st fs.
  assert (VideoProcessor.read_frame (LocalMain.video st)
          = (true, Some (frame_tagged 2), (VideoProcessor.read_frame (LocalMain.video st)).2))
    as Hread by (vm_compute; reflexivity).
  destruct (C5_predict_on_failure sample_tick st fs _ _ Hread) as [_ Hfail].
  destruct (Hfail (LibraryError "ultralytics")) as (Hp & _ & _ & Hloop & _);
    [vm_compute; reflexivity|].
  split; [exact Hread|]. split; [exact Hp | exact Hloop].
Defined.

(** C5 as stated fails: a model that loads and warms up, then raises on a
    valid frame, makes [predict] raise instead of returning an empty list;
    the local script then exits with code 1 after the first of three
    frames, the session record still "active". *)
Lemma C5_counterexample :
  ∃ e,
    InferenceEngine._load_model (25 # 100) true (inr failing_model) = inr e ∧
    InferenceEngine.predict e (frame_tagged 2) 10 11 = inl (LibraryError "ultralytics") ∧
    (∀ e', InferenceEngine.predict e (frame_tagged 2) 10 11 ≠ inr ([], e')) ∧
    let r := LocalMain.main (sample_boot failing_model crash_frames)
               (replicate 4 sample_tick) sample_final ∅ in
    fst <$> r = Some 1 ∧
    (λ o, length <$> (snd <$> detections_in (ApiServer.get_detections o.2).2)) <$> r
      = Some (Some 1%nat) ∧
    (λ o, Session.status <$> session_in (ApiServer.get_session o.2).2) <$> r
      = Some (Some "active").
Proof.
  eexists. split; [reflexivity|]. split; [reflexivity|]. split; [done|].
  split; [vm_compute; reflexivity|]. split; vm_compute; reflexivity.
Qed.

Lemma iteration_remaining k s :
  match LocalMain.iteration k s with
  | Pipeline.Continue s' =>
      S (remaining (LocalMain.video s'.1)) = remaining (LocalMain.video s.1)
  | _ => True
  end.
Proof.
  destruct s as [st fs]. unfold LocalMain.iteration, VideoProcessor.read_frame, remaining.
  simpl. destruct (VideoProcessor.cap (LocalMain.video st)) as [c|]; simpl; [|done].
  unfold VideoProcessor.cap_read. destruct (VideoProcessor.stream c) as [|f rest]; simpl; [done|].
  destruct (InferenceEngine.predict _ _ _ _) as [|[dets eng]]; [done|].
  destruct (Config.display_window _ && _); [done|].
  by destruct (Pipeline.log_raises _ _ _ _).
Qed.

(** The loop cannot go on for more passes than the video has frames. *)
Lemma loop_looping_bound ticks : ∀ s s',
  LocalMain.loop ticks s = LocalMain.Looping s' →
  (length ticks ≤ remaining (LocalMain.video s.1))%nat.
Proof.
  induction ticks as [|k ticks IH]; intros s s'; simpl; [lia|].
  pose proof (iteration_remaining k s) as Hrem.
  destruct (LocalMain.iteration k s) as [s1|s1|x s1]; [|done..].
  intros H. apply IH in H. lia.
Qed.

(** [main] returns once it is given more ticks than the video has
    frames. *)
Lemma local_main_returns b ticks f fs :
  (length (VideoProcessor.stream (Pipeline.boot_capture b)) < length ticks)%nat →
  ∃ code fs', LocalMain.main b ticks f fs = Some (code, fs').
Proof.
  intros Hlen. unfold LocalMain.main.
  destruct (LocalMain.start b fs) as [x|s0] eqn:Hstart; [by eexists _, _|].
  destruct (LocalMain.loop ticks s0) as [s'|s'|x [st' fs']] eqn:Hloop; [|by eexists _, _..].
  exfalso. apply loop_looping_bound in Hloop.
  assert (remaining (LocalMain.video s0.1)
          = length (VideoProcessor.stream (Pipeline.boot_capture b))) as Hr.
  { revert Hstart. unfold LocalMain.start.
    destruct (Pipeline.boot_config b) as [|cfg]; [done|].
    destruct (InferenceEngine._load_model _ _ _) as [|eng]; [done|].
    destruct (VideoProcessor._open_source _ _ _) as [|vid] eqn:Hopen; [done|].
    intros [= <-]. simpl. revert Hopen. unfold VideoProcessor._open_source.
    destruct (Config.input_path cfg);
      repeat (match goal with |- context [if ?c then _ else _] => destruct c end);
      try done; by intros [= <-]. }
  lia.
Qed.

(** A pass that raises ends [main] with exit code 1, the disk left as
    that pass left it and the session file not rewritten. *)
Lemma local_main_crashed b fs0 s0 ticks f x st fs :
  LocalMain.start b fs0 = inr s0 →
  LocalMain.loop ticks s0 = LocalMain.Crashed x (st, fs) →
  LocalMain.main b ticks f fs0 = Some (1, fs).
Proof. intros H1 H2. unfold LocalMain.main. by rewrite H1, H2. Qed.

(** What the local script leaves in the session file when the loop was
    left: the record is "completed", its frame count is the number of
    frames read and its detection total is the sum over the recorded
    events. *)
Lemma local_session_completed b fs0 s0 ticks st fs f :
  LocalMain.start b fs0 = inr s0 →
  LocalMain.loop ticks s0 = LocalMain.Left (st, fs) →
  ∃ sd,
    ApiServer.get_session (LocalMain.finish f (st, fs))
      = (200, ApiServer.Document (Storage.SessionDoc sd)) ∧
    Session.status sd = "completed" ∧
    Session.frame_count sd = VideoProcessor.current_frame (LocalMain.video st) ∧
    Session.frame_count sd = Z.of_nat (length (LocalMain.all_detections st)) ∧
    Session.total_detections sd = sum_counts (LocalMain.all_detections st) ∧
    Session.session_id sd = Pipeline.make_id "local_" (Pipeline.boot_time b).
Proof.
  intros Hstart Hloop.
  destruct (start_consistent _ _ _ Hstart) as (Hc0 & Hsid0 & _).
  destruct (loop_consistent ticks fs0 s0 (st, fs) Hc0) as [_ HR].
  destruct (HR Hloop) as ((Hfc & Hcur & Htot & _ & _ & _ & _ & _ & _ & Hsid & _) & Hsame).
  simpl in *.
  exists (LocalMain.completed st (Pipeline.final_stamp f)).
  split; [apply get_session_written, finish_session|].
  simpl. repeat split; try done; congruence.
Qed.

(** ** Where a signal can find the local worker *)

Lemma get_detections_prefix (fs : gmap string (list Storage.Token)) d dn rest :
  Storage.encode d = dn ++ rest →
  ApiServer.get_detections (<[Storage.current_detections := dn]> fs)
  = match rest with
    | [] => (200, ApiServer.Document d)
    | _ => (500, ApiServer.Failure ValueError)
    end.
Proof.
  intros Henc. unfold ApiServer.get_detections. rewrite lookup_insert_eq.
  destruct rest as [|x rest].
  - rewrite app_nil_r in Henc. by rewrite <- Henc, json_load_encode.
  - by rewrite (json_load_partial d dn (x :: rest) Henc).
Qed.

Lemma get_session_prefix (fs : gmap string (list Storage.Token)) d dn rest :
  Storage.encode d = dn ++ rest →
  ApiServer.get_session (<[Storage.current_session := dn]> fs)
  = match rest with
    | [] => (200, ApiServer.Document d)
    | _ => (500, ApiServer.Failure ValueError)
    end.
Proof.
  intros Henc. unfold ApiServer.get_session. rewrite lookup_insert_eq.
  destruct rest as [|x rest].
  - rewrite app_nil_r in Henc. by rewrite <- Henc, json_load_encode.
  - by rewrite (json_load_partial d dn (x :: rest) Henc).
Qed.

(** The disk during a pass is the disk the pass found, or holds a prefix
    of the new detections text at the detections path and is otherwise as
    found. *)
Lemma iteration_trace_cases k st (fs fs' : gmap string (list Storage.Token)) :
  fs' ∈ LocalMain.iteration_trace k (st, fs) →
  fs' = fs ∨
  ∃ ev dn rest,
    DetectionFormatter.frame_id ev = LocalMain.frame_count st + 1 ∧
    Storage.encode (Storage.DetectionsDoc (LocalMain.session_id st)
                      (LocalMain.all_detections st ++ [ev])) = dn ++ rest ∧
    fs' = <[Storage.current_detections := dn]> fs.
Proof.
  unfold LocalMain.iteration_trace.
  destruct (VideoProcessor.read_frame _) as [[success frame] vid].
  destruct success, frame as [f|]; try (intros ?%list_elem_of_singleton; by left).
  destruct (InferenceEngine.predict _ _ _ _) as [|[dets eng]];
    [intros ?%list_elem_of_singleton; by left|].
  intros [->|Hin]%elem_of_cons; [by left|]. right.
  destruct (json_dump_trace_prefixes _ _ _ _ Hin) as (dn & rest & Henc & ->).
  eexists _, dn, rest. split; [|split; [exact Henc|done]]. done.
Qed.

(** The last disk of a pass's trace is the disk the pass ends with. *)
Lemma iteration_trace_last k s :
  last (LocalMain.iteration_trace k s) = Some (step_state (LocalMain.iteration k s)).2.
Proof.
  destruct s as [st fs]. unfold LocalMain.iteration_trace, LocalMain.iteration.
  destruct (VideoProcessor.read_frame _) as [[success frame] vid].
  destruct success, frame as [f|]; simpl; try done.
  destruct (InferenceEngine.predict _ _ _ _) as [|[dets eng]]; [done|].
  rewrite last_cons, json_dump_trace_last.
  destruct (_ && _); [done|]. by destruct (Pipeline.log_raises _ _ _ _).
Qed.

Lemma start_trace_cases b (fs fs' : gmap string (list Storage.Token)) :
  fs' ∈ LocalMain.start_trace b fs →
  fs' = fs ∨
  ∃ s0 dn rest,
    LocalMain.start b fs = inr s0 ∧
    Storage.encode (Storage.SessionDoc (LocalMain.session_data s0.1)) = dn ++ rest ∧
    fs' = <[Storage.current_session := dn]> fs.
Proof.
  unfold LocalMain.start_trace.
  destruct (LocalMain.start b fs) as [|[st fs1]] eqn:Hs;
    [intros ?%list_elem_of_singleton; by left|].
  intros [->|Hin]%elem_of_cons; [by left|]. right.
  destruct (json_dump_trace_prefixes _ _ _ _ Hin) as (dn & rest & Henc & ->).
  by exists (st, fs1), dn, rest.
Qed.

Lemma finish_trace_cases f st (fs fs' : gmap string (list Storage.Token)) :
  fs' ∈ LocalMain.finish_trace f (st, fs) →
  let sd := LocalMain.completed st (Pipeline.final_stamp f) in
  fs' = fs ∨
  (∃ dn rest,
     Storage.encode (Storage.SessionDoc sd) = dn ++ rest ∧
     fs' = <[Storage.current_session := dn]> fs) ∨
  (∃ dn,
     fs' = <[LocalMain.archive_path (Pipeline.final_name f) := dn]>
             (<[Storage.current_session := Storage.encode (Storage.SessionDoc sd)]> fs)).
Proof.
  unfold LocalMain.finish_trace. intros [->|Hin]%elem_of_cons; [by left|]. right.
  apply elem_of_app in Hin as [Hin|Hin].
  - left. destruct (json_dump_trace_prefixes _ _ _ _ Hin) as (dn & rest & Henc & ->).
    by exists dn, rest.
  - right. destruct (json_dump_trace_prefixes _ _ _ _ Hin) as (dn & rest & Henc & ->).
    exists dn. by rewrite json_dump_insert.
Qed.

Lemma start_trace_last b fs :
  last (LocalMain.start_trace b fs)
  = Some (match LocalMain.start b fs with inl _ => fs | inr s => s.2 end).
Proof.
  unfold LocalMain.start_trace, LocalMain.start.
  destruct (Pipeline.boot_config b); [done|].
  destruct (InferenceEngine._load_model _ _ _); [done|].
  destruct (VideoProcessor._open_source _ _ _); [done|].
  by rewrite last_cons, json_dump_trace_last.
Qed.

Lemma finish_trace_last f s :
  last (LocalMain.finish_trace f s) = Some (LocalMain.finish f s).
Proof.
  destruct s as [st fs]. unfold LocalMain.finish_trace, LocalMain.finish.
  by rewrite last_cons, last_app, json_dump_trace_last.
Qed.

(** A signal landing anywhere in a pass of the loop: the session file is
    the start-up record; the detections file is as the last finished pass
    left it, or cut short, or complete with the event of the frame in
    flight. *)
Lemma stopped_in_loop b fs0 s0 ticks st fs k fs' :
  LocalMain.start b fs0 = inr s0 →
  LocalMain.loop ticks s0 = LocalMain.Looping (st, fs) →
  fs' ∈ LocalMain.iteration_trace k (st, fs) →
  ApiServer.get_session fs'
    = (200, ApiServer.Document (Storage.SessionDoc (LocalMain.session_data st))) ∧
  Session.status (LocalMain.session_data st) = "active" ∧
  Session.frame_count (LocalMain.session_data st) = 0 ∧
  length (LocalMain.all_detections st) = length ticks ∧
  (∀ j e, LocalMain.all_detections st !! j = Some e →
          DetectionFormatter.frame_id e = Z.of_nat j + 1) ∧
  (fs' = fs ∨
   ApiServer.get_detections fs' = (500, ApiServer.Failure ValueError) ∨
   ∃ ev, DetectionFormatter.frame_id ev = Z.of_nat (length ticks) + 1 ∧
         ApiServer.get_detections fs'
         = (200, ApiServer.Document
                   (Storage.DetectionsDoc (LocalMain.session_id st)
                      (LocalMain.all_detections st ++ [ev])))) ∧
  (fs0 !! Storage.current_detections = None ∨ ticks ≠ [] →
   detections_in (ApiServer.get_detections fs).2
     = Some (match LocalMain.all_detections st with
             | [] => None
             | _ => Some (LocalMain.session_id st)
             end, LocalMain.all_detections st)).
Proof.
  intros Hstart Hloop Hin.
  destruct (start_consistent _ _ _ Hstart) as (Hc0 & _ & Hev0).
  destruct (loop_consistent ticks fs0 s0 (st, fs) Hc0) as [HL _].
  destruct (HL Hloop) as (Hc & _ & Hn).
  pose proof Hc0 as (Hfc0 & _). rewrite Hev0 in Hfc0. simpl in Hfc0, Hn.
  pose proof Hc as (Hfc & _ & _ & Hev & _ & Hses & Hact & Hzero & _).
  simpl in Hfc, Hev, Hses, Hact, Hzero.
  assert (length (LocalMain.all_detections st) = length ticks) as Hlen by lia.
  assert (ApiServer.get_session fs'
          = (200, ApiServer.Document (Storage.SessionDoc (LocalMain.session_data st))))
    as Hsession.
  { apply get_session_written.
    destruct (iteration_trace_cases _ _ _ _ Hin) as [->|(ev & dn & rest & _ & _ & ->)];
      [done|].
    rewrite lookup_insert_ne; [done | apply paths_differ]. }
  split; [done|]. split; [done|]. split; [done|]. split; [done|]. split.
  { intros j e Hj. by destruct (Hev j e Hj). }
  split.
  - destruct (iteration_trace_cases _ _ _ _ Hin) as [->|(ev & dn & rest & Hid & Henc & ->)];
      [by left|].
    right. rewrite (get_detections_prefix _ _ _ _ Henc).
    destruct rest; [right | by left]. exists ev. split; [lia | done].
  - intros Hclean. apply (get_detections_consistent fs0 st fs Hc).
    destruct Hclean as [?|Hne]; [by left|]. right.
    intros Hnil. rewrite Hnil in Hlen. by destruct ticks.
Qed.

(** A signal landing during start-up: the detections file is untouched;
    the session file is as found, or cut short, or the complete start-up
    record. *)
Lemma stopped_in_start b (fs fs' : gmap string (list Storage.Token)) :
  fs' ∈ LocalMain.start_trace b fs →
  fs' !! Storage.current_detections = fs !! Storage.current_detections ∧
  (fs' = fs ∨
   ApiServer.get_session fs' = (500, ApiServer.Failure ValueError) ∨
   ∃ sd, ApiServer.get_session fs' = (200, ApiServer.Document (Storage.SessionDoc sd)) ∧
         Session.status sd = "active" ∧ Session.frame_count sd = 0 ∧
         Session.end_time sd = None).
Proof.
  intros Hin.
  destruct (start_trace_cases _ _ _ Hin) as [->|(s0 & dn & rest & Hs & Henc & ->)];
    [split; [done | by left]|].
  split; [rewrite lookup_insert_ne; [done|]; by intros ?%symmetry%paths_differ|].
  right. rewrite (get_session_prefix _ _ _ _ Henc).
  destruct rest; [right | by left].
  exists (LocalMain.session_data s0.1). split; [done|].
  destruct (start_consistent _ _ _ Hs) as ((_ & _ & _ & _ & _ & _ & Hact & Hzero & _) & _).
  split; [done|]. split; [done|]. revert Hs. unfold LocalMain.start.
  destruct (Pipeline.boot_config b); [done|].
  destruct (InferenceEngine._load_model _ _ _); [done|].
  destruct (VideoProcessor._open_source _ _ _); [done|]. by intros [= <-].
Qed.

(** A signal landing after the loop was left: the detections file is
    untouched; the session file is the start-up record, or cut short, or
    the "completed" record the worker wrote itself. *)
Lemma stopped_in_finish b fs0 s0 ticks st fs f fs' :
  LocalMain.start b fs0 = inr s0 →
  LocalMain.loop ticks s0 = LocalMain.Left (st, fs) →
  fs' ∈ LocalMain.finish_trace f (st, fs) →
  let sd := LocalMain.completed st (Pipeline.final_stamp f) in
  fs' !! Storage.current_detections = fs !! Storage.current_detections ∧
  Session.status (LocalMain.session_data st) = "active" ∧
  Session.status sd = "completed" ∧
  Session.frame_count sd = Z.of_nat (length (LocalMain.all_detections st)) ∧
  (ApiServer.get_session fs'
     = (200, ApiServer.Document (Storage.SessionDoc (LocalMain.session_data st))) ∨
   ApiServer.get_session fs' = (500, ApiServer.Failure ValueError) ∨
   ApiServer.get_session fs' = (200, ApiServer.Document (Storage.SessionDoc sd))).
Proof.
  intros Hstart Hloop Hin sd.
  destruct (start_consistent _ _ _ Hstart) as (Hc0 & _ & _).
  destruct (loop_consistent ticks fs0 s0 (st, fs) Hc0) as [_ HL].
  destruct (HL Hloop) as ((Hfc & _ & _ & _ & _ & Hses & Hact & _) & _).
  simpl in Hfc, Hses, Hact.
  destruct (archive_path_fresh (Pipeline.final_name f)) as [Ha1 Ha2].
  destruct (finish_trace_cases _ _ _ _ Hin) as [->|[(dn & rest & Henc & ->)|(dn & ->)]].
  - repeat split; try done. left. by apply get_session_written.
  - split; [rewrite lookup_insert_ne; [done|]; by intros ?%symmetry%paths_differ|].
    repeat split; try done. right. fold sd in Henc.
    rewrite (get_session_prefix _ _ _ _ Henc). destruct rest; [by right | by left].
  - split.
    { rewrite lookup_insert_ne by done. rewrite lookup_insert_ne; [done|].
      by intros ?%symmetry%paths_differ. }
    repeat split; try done. right. right. apply get_session_written.
    rewrite lookup_insert_ne by done. by rewrite lookup_insert_eq.
Qed.

End LocalMainFacts.

(** ** run_inference_firebase.py *)

Section FirebaseMainFacts.

Lemma firebase_start_consistent b db0 s0 :
  FirebaseMain.start b db0 = inr s0 →
  firebase_consistent db0 (Pipeline.make_id "inference_" (Pipeline.boot_time b)) s0 ∧
  firebase_all_pushed db0 s0.
Proof.
  unfold FirebaseMain.start. destruct (Pipeline.boot_config b) as [|cfg]; [done|].
  unfold FirebaseUploader.init. destruct (Pipeline.boot_client b); [done|].
  assert (String.eqb (Pipeline.make_id "inference_" (Pipeline.boot_time b)) "" = false) as ->
    by done.
  destruct (negb (Pipeline.boot_online b)); [done|].
  destruct (InferenceEngine._load_model _ _ _) as [|eng]; [done|].
  destruct (VideoProcessor._open_source _ _ _) as [|vid] eqn:Hopen; [done|].
  intros [= <-]. destruct (open_source_fresh _ _ _ _ Hopen) as (Hc & _ & _).
  split.
  - unfold firebase_consistent; simpl. repeat split; try done.
    + exists []. rewrite app_nil_r. repeat split; try done.
      by intros e ?%elem_of_nil.
    + eexists. rewrite lookup_insert_eq. by repeat split.
  - unfold firebase_all_pushed; simpl. by rewrite app_nil_r.
Qed.

(** One pass of the remote loop: the invariant is kept, and the uploader's
    frame counter stays at 0 whatever happens. *)
Lemma firebase_iteration_consistent k db0 sid s :
  firebase_consistent db0 sid s →
  match FirebaseMain.iteration k s with
  | Pipeline.Continue s' =>
      firebase_consistent db0 sid s' ∧
      FirebaseMain.frame_count s'.1 = FirebaseMain.frame_count s.1 + 1 ∧
      (Pipeline.tick_online k = true → firebase_all_pushed db0 s → firebase_all_pushed db0 s')
  | Pipeline.Break s' =>
      firebase_consistent db0 sid s' ∧
      (Pipeline.tick_online k = true → firebase_all_pushed db0 s → firebase_all_pushed db0 s')
  | Pipeline.Raise _ s' =>
      FirebaseUploader.frame_count (FirebaseMain.uploader s'.1) = 0 ∧
      FirebaseUploader.session_id (FirebaseMain.uploader s'.1) = sid
  end.
Proof.
  destruct s as [st db].
  intros (Hsid & Hufc & Hfc & Hcur & (pushed & Hdb & Hpsid & Htot & Hlen) & Hrec).
  simpl in *. unfold FirebaseMain.iteration.
  pose proof (read_frame_current (FirebaseMain.video st)) as Hrd.
  destruct (VideoProcessor.read_frame (FirebaseMain.video st)) as [[success frame] vid].
  simpl in Hrd. destruct success; simpl.
  - destruct frame as [f|]; [|done].
    destruct (InferenceEngine.predict _ _ _ _) as [|[dets eng]]; [done|].
    unfold FirebaseUploader.upload_detection_event.
    set (event := DetectionFormatter.format_detection_event _ _ _ _).
    assert (∀ st' db',
      st' = FirebaseMain.with_event
              (FirebaseMain.with_video st vid (FirebaseMain.frame_count st + 1)) eng
              (if Pipeline.tick_online k
               then {| FirebaseUploader.session_id := FirebaseUploader.session_id (FirebaseMain.uploader st);
                       FirebaseUploader.frame_count := FirebaseUploader.frame_count (FirebaseMain.uploader st);
                       FirebaseUploader.total_detections :=
                         FirebaseUploader.total_detections (FirebaseMain.uploader st)
                         + DetectionFormatter.detection_count event;
                       FirebaseUploader.session_start := FirebaseUploader.session_start (FirebaseMain.uploader st) |}
               else FirebaseMain.uploader st) event →
      db' = (if Pipeline.tick_online k
             then (FirebaseClient.push_detection db
                     (DetectionFormatter.set_session_id event
                        (FirebaseUploader.session_id (FirebaseMain.uploader st)))).1
             else db) →
      firebase_consistent db0 sid (st', db') ∧
      FirebaseMain.frame_count st' = FirebaseMain.frame_count st + 1 ∧
      (Pipeline.tick_online k = true → firebase_all_pushed db0 (st, db) →
       firebase_all_pushed db0 (st', db'))) as Hstep.
    { intros st' db' -> ->. split; [|split; [done|]].
      - unfold firebase_consistent. destruct (Pipeline.tick_online k); simpl.
        + repeat split; try done; try lia.
          * rewrite length_app; simpl; lia.
          * exists (pushed ++ [DetectionFormatter.set_session_id event
                                (FirebaseUploader.session_id (FirebaseMain.uploader st))]).
            rewrite Hdb, app_assoc. split; [done|]. split; [|split].
            -- intros e [He|He%list_elem_of_singleton]%elem_of_app; [by apply Hpsid|].
               subst e. simpl. by rewrite Hsid.
            -- rewrite sum_counts_snoc. simpl. lia.
            -- rewrite !length_app. simpl. lia.
        + repeat split; try done; try lia.
          * rewrite length_app; simpl; lia.
          * exists pushed. repeat split; try done. rewrite length_app. simpl. lia.
      - intros Hon [Hall Hsum]. simpl in Hall, Hsum. rewrite Hon.
        unfold firebase_all_pushed; simpl. split.
        + by rewrite Hall, map_app, app_assoc.
        + rewrite sum_counts_snoc, Hsum. done. }
    destruct (Pipeline.tick_online k) eqn:Hon; simpl.
    + specialize (Hstep _ _ eq_refl eq_refl).
      destruct (Config.display_window _ && _); [by destruct Hstep as (? & _ & ?)|].
      destruct (Pipeline.log_raises _ _ _ _); [done|]. exact Hstep.
    + specialize (Hstep _ _ eq_refl eq_refl).
      destruct (Config.display_window _ && _); [by destruct Hstep as (? & _ & ?)|].
      destruct (Pipeline.log_raises _ _ _ _); [done|]. exact Hstep.
  - split.
    + unfold firebase_consistent; simpl. repeat split; try done; try lia.
      by exists pushed.
    + by intros _ [? ?].
Qed.

Lemma firebase_loop_consistent ticks : ∀ db0 sid s s',
  firebase_consistent db0 sid s →
  FirebaseMain.loop ticks s = FirebaseMain.Looping s' ∨
  FirebaseMain.loop ticks s = FirebaseMain.Left s' →
  firebase_consistent db0 sid s' ∧
  (Forall (λ k, Pipeline.tick_online k = true) ticks →
   firebase_all_pushed db0 s → firebase_all_pushed db0 s').
Proof.
  induction ticks as [|k ticks IH]; intros db0 sid s s' Hc; simpl.
  - intros [[= <-]|?]; done.
  - pose proof (firebase_iteration_consistent k db0 sid s Hc) as Hit.
    destruct (FirebaseMain.iteration k s) as [s1|s1|x s1].
    + destruct Hit as (Hc1 & _ & Hall). intros Hloop.
      destruct (IH db0 sid s1 s' Hc1 Hloop) as [Hc' Hall']. split; [done|].
      intros [Hk Hrest]%Forall_cons Hp. apply Hall'; [done|]. by apply Hall.
    + intros [?|[= <-]]; [done|]. destruct Hit as [Hc1 Hall]. split; [done|].
      intros [Hk _]%Forall_cons Hp. by apply Hall.
    + by intros [?|?].
Qed.

(** What the remote script leaves in the session record when the loop was
    left and the final update went through: the record is "completed" and
    carries the uploader's detection total, which counts every recorded
    event when all pushes went through; its frame count is 0 whatever the
    number of frames read. *)
Lemma remote_session_completed b db0 s0 ticks st db f :
  FirebaseMain.start b db0 = inr s0 →
  FirebaseMain.loop ticks s0 = FirebaseMain.Left (st, db) →
  Pipeline.final_online f = true →
  let sid := Pipeline.make_id "inference_" (Pipeline.boot_time b) in
  let db' := FirebaseUploader.end_session (FirebaseMain.uploader st) db
               (Pipeline.final_stamp f) (Pipeline.final_online f) in
  ∃ r,
    FirebaseClient.sessions db' !! sid = Some r ∧
    FirebaseClient.status r = Some "completed" ∧
    FirebaseClient.frame_count r = Some 0 ∧
    FirebaseClient.total_detections r
      = Some (FirebaseUploader.total_detections (FirebaseMain.uploader st)) ∧
    FirebaseMain.frame_count st = VideoProcessor.current_frame (FirebaseMain.video st) ∧
    FirebaseMain.frame_count st = Z.of_nat (length (FirebaseMain.all_events st)) ∧
    (Forall (λ k, Pipeline.tick_online k = true) ticks →
     FirebaseUploader.total_detections (FirebaseMain.uploader st)
       = sum_counts (FirebaseMain.all_events st)).
Proof.
  intros Hstart Hloop Hon sid db'.
  destruct (firebase_start_consistent _ _ _ Hstart) as [Hc0 Hp0].
  destruct (firebase_loop_consistent ticks db0 sid s0 (st, db) Hc0 (or_intror Hloop))
    as [(Hsid & Hufc & Hfc & Hcur & _ & (r & Hr & _)) Hall].
  simpl in *. unfold db', FirebaseUploader.end_session. rewrite Hon, Hsid. simpl.
  eexists. rewrite lookup_insert_eq. split; [done|]. simpl.
  rewrite Hufc. repeat split; try done.
  intros Hticks. by destruct (Hall Hticks Hp0).
Qed.

(** C2 at the failing input: ten frames, the third and the seventh with
    one detection each, every remote call going through.  The remote
    script reads all ten frames and exits with code 0; the session record
    it leaves is "completed" with [total_detections] 2 and [frame_count] 0,
    not 10.  The local script on the same input leaves "completed", 10
    and 2. *)
Theorem C2_remote_frame_count :
  let remote := FirebaseMain.main (sample_boot sample_model ten_frames)
                  (replicate 11 sample_tick) sample_final empty_db ∅ in
  let local := LocalMain.main (sample_boot sample_model ten_frames)
                 (replicate 11 sample_tick) sample_final ∅ in
  (λ o, (o.1.1,
         length (FirebaseClient.detections o.1.2),
         (λ r, (FirebaseClient.status r, FirebaseClient.frame_count r,
                FirebaseClient.total_detections r))
           <$> FirebaseClient.sessions o.1.2 !! "inference_1700000000")) <$> remote
    = Some (0, 10%nat, Some (Some "completed", Some 0, Some 2)) ∧
  (λ o, (o.1,
         (λ sd, (Session.status sd, Session.frame_count sd, Session.total_detections sd))
           <$> session_in (ApiServer.get_session o.2).2)) <$> local
    = Some (0, Some ("completed", 10, 2)).
Proof. split; vm_compute; reflexivity. Qed.

(** ** Where a signal can find the remote worker *)

Lemma firebase_iteration_sessions k s :
  FirebaseClient.sessions (step_state (FirebaseMain.iteration k s)).2
  = FirebaseClient.sessions s.2.
Proof.
  destruct s as [st db]. unfold FirebaseMain.iteration.
  destruct (VideoProcessor.read_frame _) as [[success frame] vid].
  destruct success; simpl; [|done]. destruct frame as [f|]; [|done].
  destruct (InferenceEngine.predict _ _ _ _) as [|[dets eng]]; [done|].
  unfold FirebaseUploader.upload_detection_event.
  destruct (Pipeline.tick_online k); simpl;
    (destruct (_ && _); [done|]); by destruct (Pipeline.log_raises _ _ _ _).
Qed.

(** [end_session] on a session that is still active: "completed" when the
    call goes through, untouched when it does not; the frame count it
    writes is the uploader's, which never moved. *)
Lemma end_session_record u d stamp online sid :
  FirebaseUploader.session_id u = sid →
  FirebaseUploader.frame_count u = 0 →
  remote_record d sid "active" →
  remote_record (FirebaseUploader.end_session u d stamp online) sid
    (if online then "completed" else "active").
Proof.
  intros Hsid Hfc (r & Hr & Hst & Hf). unfold FirebaseUploader.end_session.
  destruct online; [|by exists r].
  eexists. simpl. rewrite Hsid, lookup_insert_eq. split; [done|]. simpl.
  by rewrite Hfc.
Qed.

Lemma firebase_started_record b db0 :
  let sid := Pipeline.make_id "inference_" (Pipeline.boot_time b) in
  match FirebaseMain.start b db0 with
  | inl (FirebaseMain.NoUploader _) => True
  | inl (FirebaseMain.WithUploader _ u d) =>
      FirebaseUploader.session_id u = sid ∧ FirebaseUploader.frame_count u = 0 ∧
      remote_record d sid "active"
  | inr (st, d) => remote_record d sid "active"
  end.
Proof.
  intros sid. unfold FirebaseMain.start.
  destruct (Pipeline.boot_config b) as [|cfg]; [done|].
  unfold FirebaseUploader.init. destruct (Pipeline.boot_client b); [done|].
  assert (String.eqb sid "" = false) as Hne by done. fold sid. rewrite Hne.
  destruct (negb (Pipeline.boot_online b)); [done|].
  assert (remote_record
            (FirebaseClient.set_session db0 sid
               {| FirebaseClient.session_id := Some sid;
                  FirebaseClient.start_time := Some (Pipeline.boot_stamp b);
                  FirebaseClient.status := Some "active";
                  FirebaseClient.frame_count := Some 0;
                  FirebaseClient.total_detections := Some 0;
                  FirebaseClient.last_update := None;
                  FirebaseClient.end_time := None |}) sid "active") as Hrec.
  { eexists. simpl. by rewrite lookup_insert_eq. }
  destruct (InferenceEngine._load_model _ _ _); [done|].
  by destruct (VideoProcessor._open_source _ _ _).
Qed.

End FirebaseMainFacts.

(** ** api_server.py *)

Section ApiServerFacts.
Import ApiServer.

Ltac paths_ne :=
  first [ by intros ?%paths_differ | by intros ?%symmetry%paths_differ ].

(** C1.  While [current_analysis["running"]] is true, [/start-analysis]
    answers 400 "Analysis already in progress" whatever the request, and
    the whole state of the server is left as it was: session id, video
    name, start time, running flag, worker, files and database. *)
Theorem C1_start_while_running r w :
  running (current_analysis w) = true →
  start_analysis r w = (400, Error "Analysis already in progress", w).
Proof. intros H. unfold start_analysis. by rewrite H. Qed.

Lemma C1_start_while_running_witness :
  running (current_analysis started_world) = true ∧
  start_analysis sample_request started_world
    = (400, Error "Analysis already in progress", started_world).
Proof.
  split; [reflexivity|]. apply (C1_start_while_running sample_request started_world).
  reflexivity.
Defined.

(** C9.  While [current_analysis["running"]] is false, [/stop-analysis]
    answers 200 with success false, never an error, and leaves the whole
    state of the server as it was; calling it again gives the same. *)
Theorem C9_stop_when_idle w :
  running (current_analysis w) = false →
  stop_analysis w = (200, Stopped false "No analysis running", w) ∧
  stop_analysis (stop_analysis w).2 = stop_analysis w.
Proof.
  intros H.
  assert (stop_analysis w = (200, Stopped false "No analysis running", w)) as Hs.
  { unfold stop_analysis. rewrite H. by destruct (process (current_analysis w)). }
  split; [done|]. by rewrite Hs.
Qed.

Lemma C9_stop_when_idle_witness :
  running (current_analysis idle_world) = false ∧
  stop_analysis idle_world = (200, Stopped false "No analysis running", idle_world).
Proof.
  split; [reflexivity|]. apply (C9_stop_when_idle idle_world). reflexivity.
Defined.

Lemma proc_step_exited pid i w c :
  procs w !! pid = Some (Exited c) → proc_step pid i w = w.
Proof. intros H. unfold proc_step. by rewrite H. Qed.

(** A worker that exited never steps again, whatever it is offered. *)
Lemma proc_steps_exited pid inputs : ∀ w c,
  procs w !! pid = Some (Exited c) →
  foldl (λ w' i, proc_step pid i w') w inputs = w.
Proof.
  induction inputs as [|i inputs IH]; intros w c H; simpl; [done|].
  rewrite (proc_step_exited _ _ _ _ H). by eapply IH.
Qed.

Lemma stop_running w pid :
  running (current_analysis w) = true →
  process (current_analysis w) = Some pid →
  stop_analysis w
  = (200, Stopped true "Analysis stopped",
     set_running (set_procs w (alter terminate pid (procs w))) false).
Proof. intros Hr Hp. unfold stop_analysis. by rewrite Hp, Hr. Qed.

Lemma set_files_same w : set_files w (files w) = w.
Proof. by destruct w. Qed.

(** While a worker takes a step only the disk and the database move. *)
Lemma proc_trace_keeps pid i w0 w :
  w ∈ proc_trace pid i w0 →
  current_analysis w = current_analysis w0 ∧ procs w = procs w0 ∧
  FIREBASE_ENABLED w = FIREBASE_ENABLED w0.
Proof.
  unfold proc_trace. intros Hin.
  destruct (procs w0 !! pid) as [[|st|st|st|st|c]|];
    try (apply list_elem_of_singleton in Hin as ->; done);
    try (by apply list_elem_of_fmap in Hin as (fs & -> & _)).
  - destruct (FIREBASE_ENABLED w0) eqn:Hfe;
      [|apply list_elem_of_fmap in Hin as (fs & -> & _); by rewrite <- Hfe].
    destruct (FirebaseMain.start _ _) as [[x|x u d]|[st d]];
      repeat (apply elem_of_cons in Hin as [->|Hin]; [by rewrite <- Hfe|]);
      by apply elem_of_nil in Hin.
  - destruct (FirebaseMain.iteration _ _) as [[st' d]|[st' d]|x [st' d]];
      repeat (apply elem_of_cons in Hin as [->|Hin]; [done|]);
      by apply elem_of_nil in Hin.
  - apply elem_of_cons in Hin as [->|Hin]; [done|].
    apply elem_of_cons in Hin as [->|Hin]; [done|].
    by apply list_elem_of_fmap in Hin as (fs & -> & _).
Qed.

(** The last world of a step's trace has the disk and the database the
    completed step leaves. *)
Lemma proc_trace_last pid i w :
  ∃ wl, last (proc_trace pid i w) = Some wl ∧
        files wl = files (proc_step pid i w) ∧ db wl = db (proc_step pid i w).
Proof.
  unfold proc_trace, proc_step.
  destruct (procs w !! pid) as [[|st|st|st|st|c]|]; try (by eexists).
  - destruct (FIREBASE_ENABLED w).
    + destruct (FirebaseMain.start _ _) as [[x|x u d]|[st d]]; by eexists.
    + rewrite fmap_last, start_trace_last.
      destruct (LocalMain.start _ _) as [|[st fs]]; by eexists.
  - rewrite fmap_last, iteration_trace_last.
    destruct (LocalMain.iteration _ _) as [[st' fs]|[st' fs]|x [st' fs]]; by eexists.
  - rewrite fmap_last, finish_trace_last. by eexists.
  - destruct (FirebaseMain.iteration _ _) as [[st' d]|[st' d]|x [st' d]]; by eexists.
  - unfold FirebaseMain.save_backup_trace, FirebaseMain.save_backup.
    destruct (Config.save_detections _); [|by eexists].
    destruct (FirebaseMain.all_events st); [by eexists|].
    rewrite !last_cons, fmap_last, json_dump_trace_last. by eexists.
Qed.

Lemma lookup_default_elem {A} (l : list A) n d :
  (n <? length l)%nat = true → default d (l !! n) ∈ l.
Proof.
  intros H%Nat.ltb_lt. destruct (lookup_lt_is_Some_2 l n H) as [x Hx].
  rewrite Hx. by eapply list_elem_of_lookup_2.
Qed.

Lemma terminate_exited p : ∃ c, terminate p = Exited c.
Proof. destruct p; by eexists. Qed.

(** C3 (as amended).  Let the server hold a worker as the running job and
    let [/stop-analysis] arrive while that worker is anywhere inside the
    step it is taking, a rewrite of a file included.  The stop answers 200
    with success true, clears the running flag and terminates the worker;
    it writes nothing itself, to the disk or to the database, and the
    worker takes no step afterwards.  The session record is therefore not
    finalized by the stop.  For a local worker in its frame loop the
    session file is the record written at start-up, "active" with frame
    count 0, and the detections file is as the last finished pass left it
    (the events of the frames processed, numbered from 1), or cut short in
    the middle of its rewrite, which [/detections] answers with 500, or
    complete with the event of the frame in flight; no later frame ever
    appears.  For a local worker still starting up the session file is as
    found, cut short, or the start-up record; for one that had already
    left its loop it is the start-up record, cut short, or the
    "completed" record the worker wrote itself.  For a remote worker the
    session record has frame count 0 in every case and is "active" unless
    the worker had ended its session itself. *)
Theorem C3_stop_running_job w0 pid p i w :
  running (current_analysis w0) = true →
  process (current_analysis w0) = Some pid →
  procs w0 !! pid = Some p →
  w ∈ proc_trace pid i w0 →
  let w' := (stop_analysis w).2 in
  (stop_analysis w).1 = (200, Stopped true "Analysis stopped") ∧
  running (current_analysis w') = false ∧
  procs w' !! pid = Some (terminate p) ∧
  ((∀ c, p ≠ Exited c) → terminate p = Exited (-15)) ∧
  files w' = files w ∧ db w' = db w ∧
  (∀ inputs, foldl (λ w'' i', proc_step pid i' w'') w' inputs = w') ∧
  (∀ i', proc_trace pid i' w' = [w']) ∧
  (∀ st b fs0 s0 ticks,
     p = LocalLoop st →
     LocalMain.start b fs0 = inr s0 →
     LocalMain.loop ticks s0 = LocalMain.Looping (st, files w0) →
     get_session (files w')
       = (200, Document (Storage.SessionDoc (LocalMain.session_data st))) ∧
     Session.status (LocalMain.session_data st) = "active" ∧
     Session.frame_count (LocalMain.session_data st) = 0 ∧
     length (LocalMain.all_detections st) = length ticks ∧
     (∀ j e, LocalMain.all_detections st !! j = Some e →
             DetectionFormatter.frame_id e = Z.of_nat j + 1) ∧
     (files w' = files w0 ∨
      get_detections (files w') = (500, Failure ValueError) ∨
      ∃ ev, DetectionFormatter.frame_id ev = Z.of_nat (length ticks) + 1 ∧
            get_detections (files w')
            = (200, Document (Storage.DetectionsDoc (LocalMain.session_id st)
                                (LocalMain.all_detections st ++ [ev])))) ∧
     (fs0 !! Storage.current_detections = None ∨ ticks ≠ [] →
      detections_in (get_detections (files w0)).2
        = Some (match LocalMain.all_detections st with
                | [] => None
                | _ => Some (LocalMain.session_id st)
                end, LocalMain.all_detections st))) ∧
  (p = Spawned → FIREBASE_ENABLED w0 = false →
     files w' !! Storage.current_detections = files w0 !! Storage.current_detections ∧
     (files w' = files w0 ∨
      get_session (files w') = (500, Failure ValueError) ∨
      ∃ sd, get_session (files w') = (200, Document (Storage.SessionDoc sd)) ∧
            Session.status sd = "active" ∧ Session.frame_count sd = 0 ∧
            Session.end_time sd = None)) ∧
  (∀ st b fs0 s0 ticks,
     p = LocalLeft st →
     LocalMain.start b fs0 = inr s0 →
     LocalMain.loop ticks s0 = LocalMain.Left (st, files w0) →
     let sd := LocalMain.completed st (Pipeline.final_stamp (final i)) in
     files w' !! Storage.current_detections = files w0 !! Storage.current_detections ∧
     Session.status (LocalMain.session_data st) = "active" ∧
     Session.status sd = "completed" ∧
     Session.frame_count sd = Z.of_nat (length (LocalMain.all_detections st)) ∧
     (get_session (files w')
        = (200, Document (Storage.SessionDoc (LocalMain.session_data st))) ∨
      get_session (files w') = (500, Failure ValueError) ∨
      get_session (files w') = (200, Document (Storage.SessionDoc sd)))) ∧
  (p = Spawned → FIREBASE_ENABLED w0 = true →
     let sid := Pipeline.make_id "inference_" (Pipeline.boot_time (boot i)) in
     db w' = db w0 ∨ remote_record (db w') sid "active" ∨
     remote_record (db w') sid "completed") ∧
  (∀ st b db0 s0 ticks,
     p = FirebaseLoop st →
     FirebaseMain.start b db0 = inr s0 →
     FirebaseMain.loop ticks s0 = FirebaseMain.Looping (st, db w0) →
     let sid := Pipeline.make_id "inference_" (Pipeline.boot_time b) in
     remote_record (db w') sid "active" ∨
     (remote_record (db w') sid "completed" ∧
      ∃ x s', FirebaseMain.iteration (tick i) (st, db w0) = Pipeline.Raise x s')) ∧
  (∀ st b db0 s0 ticks,
     p = FirebaseLeft st →
     FirebaseMain.start b db0 = inr s0 →
     FirebaseMain.loop ticks s0 = FirebaseMain.Left (st, db w0) →
     let sid := Pipeline.make_id "inference_" (Pipeline.boot_time b) in
     remote_record (db w') sid "active" ∨ remote_record (db w') sid "completed").
Proof.
  intros Hrun Hproc Hpid Hin w'.
  destruct (proc_trace_keeps _ _ _ _ Hin) as (Hca & Hps & Hfe).
  assert (stop_analysis w
          = (200, Stopped true "Analysis stopped",
             set_running (set_procs w (alter terminate pid (procs w))) false)) as Hstop
    by (apply stop_running; by rewrite Hca).
  assert (procs w' !! pid = Some (terminate p)) as Hdead.
  { unfold w'. rewrite Hstop. simpl. by rewrite list_lookup_alter_eq, Hps, Hpid. }
  assert (files w' = files w) as Hfiles by (unfold w'; by rewrite Hstop).
  assert (db w' = db w) as Hdb by (unfold w'; by rewrite Hstop).
  destruct (terminate_exited p) as [c Hc].
  split; [by rewrite Hstop|]. split; [unfold w'; by rewrite Hstop|].
  split; [done|]. split; [intros Halive; destruct p; try done; by destruct (Halive returncode)|].
  split; [done|]. split; [done|]. split.
  { intros inputs. apply (proc_steps_exited pid inputs _ c). by rewrite Hdead, Hc. }
  split.
  { intros i'. unfold proc_trace. by rewrite Hdead, Hc. }
  rewrite Hfiles, Hdb. unfold proc_trace in Hin. rewrite Hpid in Hin.
  split; [|split; [|split; [|split; [|split]]]].
  - intros st b fs0 s0 ticks -> Hstart Hloop.
    apply list_elem_of_fmap in Hin as (fs' & -> & Hin). simpl.
    destruct (stopped_in_loop _ _ _ _ _ _ _ _ Hstart Hloop Hin)
      as (H1 & H2 & H3 & H4 & H5 & H6 & H7).
    by repeat split.
  - intros -> Hlocal. rewrite Hlocal in Hin.
    apply list_elem_of_fmap in Hin as (fs' & -> & Hin). simpl.
    by apply (stopped_in_start _ _ _ Hin).
  - intros st b fs0 s0 ticks -> Hstart Hloop sd.
    apply list_elem_of_fmap in Hin as (fs' & -> & Hin). simpl.
    by apply (stopped_in_finish _ _ _ _ _ _ _ _ Hstart Hloop Hin).
  - intros -> Hremote sid. rewrite Hremote in Hin.
    pose proof (firebase_started_record (with_config (boot i) (config_yaml w0)) (db w0))
      as Hrec. simpl in Hrec. fold sid in Hrec.
    destruct (FirebaseMain.start _ _) as [[x|x u d]|[st d]].
    + apply list_elem_of_singleton in Hin as ->. by left.
    + destruct Hrec as (Hsid & Hfc & Hrec).
      apply elem_of_cons in Hin as [->|Hin]; [by left|].
      apply elem_of_cons in Hin as [->|Hin]; [right; by left|].
      apply list_elem_of_singleton in Hin as ->. right. simpl.
      pose proof (end_session_record u d (Pipeline.final_stamp (final i))
                    (Pipeline.final_online (final i)) sid Hsid Hfc Hrec) as Hend.
      destruct (Pipeline.final_online (final i)); [by right | by left].
    + apply elem_of_cons in Hin as [->|Hin]; [by left|].
      apply list_elem_of_singleton in Hin as ->. right. by left.
  - intros st b db0 s0 ticks -> Hstart Hloop sid.
    destruct (firebase_start_consistent _ _ _ Hstart) as [Hc0 _].
    destruct (firebase_loop_consistent ticks db0 sid s0 (st, db w0) Hc0 (or_introl Hloop))
      as [Hcons _].
    pose proof Hcons as (_ & _ & _ & _ & _ & (r & Hr & Hact & Hzero)).
    assert (remote_record (db w0) sid "active") as Hrec0 by (by exists r).
    pose proof (firebase_iteration_consistent (tick i) db0 sid (st, db w0) Hcons) as Hit.
    pose proof (firebase_iteration_sessions (tick i) (st, db w0)) as Hses.
    destruct (FirebaseMain.iteration (tick i) (st, db w0)) as [[st' d]|[st' d]|x [st' d]];
      simpl in Hses.
    + apply elem_of_cons in Hin as [->|Hin]; [by left|].
      apply list_elem_of_singleton in Hin as ->. left. exists r. simpl. by rewrite Hses.
    + apply elem_of_cons in Hin as [->|Hin]; [by left|].
      apply list_elem_of_singleton in Hin as ->. left. exists r. simpl. by rewrite Hses.
    + destruct Hit as [Hfc Hsid]. simpl in Hfc, Hsid.
      assert (remote_record d sid "active") as Hrecd by (exists r; by rewrite Hses).
      apply elem_of_cons in Hin as [->|Hin]; [by left|].
      apply elem_of_cons in Hin as [->|Hin]; [by left|].
      apply list_elem_of_singleton in Hin as ->. simpl.
      pose proof (end_session_record (FirebaseMain.uploader st') d
                    (Pipeline.final_stamp (final i)) (Pipeline.final_online (final i))
                    sid Hsid Hfc Hrecd) as Hend.
      destruct (Pipeline.final_online (final i)); [|by left].
      right. split; [done|]. by eexists _, _.
  - intros st b db0 s0 ticks -> Hstart Hloop sid.
    destruct (firebase_start_consistent _ _ _ Hstart) as [Hc0 _].
    destruct (firebase_loop_consistent ticks db0 sid s0 (st, db w0) Hc0 (or_intror Hloop))
      as [Hcons _].
    pose proof Hcons as (Hsid & Hfc & _ & _ & _ & (r & Hr & Hact & Hzero)).
    simpl in Hsid, Hfc.
    assert (remote_record (db w0) sid "active") as Hrec0 by (by exists r).
    pose proof (end_session_record (FirebaseMain.uploader st) (db w0)
                  (Pipeline.final_stamp (final i)) (Pipeline.final_online (final i))
                  sid Hsid Hfc Hrec0) as Hend.
    apply elem_of_cons in Hin as [->|Hin]; [by left|].
    assert (db w = FirebaseUploader.end_session (FirebaseMain.uploader st) (db w0)
                     (Pipeline.final_stamp (final i)) (Pipeline.final_online (final i)))
      as ->.
    { apply elem_of_cons in Hin as [->|Hin]; [done|].
      by apply list_elem_of_fmap in Hin as (fs' & -> & _). }
    destruct (Pipeline.final_online (final i)); [by right | by left].
Qed.

Lemma C3_stop_running_job_witness :
  let w0 := running_world 4 in
  let w := cut_short_world 4 in
  let st := (world_run 4).1 in
  running (current_analysis w0) = true ∧
  w ∈ proc_trace 0 sample_input w0 ∧
  (stop_analysis w).1 = (200, Stopped true "Analysis stopped") ∧
  procs (stop_analysis w).2 !! 0%nat = Some (Exited (-15)) ∧
  Session.status (LocalMain.session_data st) = "active" ∧
  length (LocalMain.all_detections st) = 4%nat ∧
  get_detections (files (stop_analysis w).2) = (500, Failure ValueError).
Proof.
  intros w0 w st.
  assert (w ∈ proc_trace 0 sample_input w0) as Hin
    by (apply lookup_default_elem; vm_compute; reflexivity).
  assert (LocalMain.start world_boot ∅ = inr (local_boot world_boot ∅)) as H4
    by (apply started_local_boot; vm_compute; reflexivity).
  assert (LocalMain.loop (replicate 4 sample_tick) (local_boot world_boot ∅)
          = LocalMain.Looping (st, files w0)) as H5
    by (apply looping_local_state; vm_compute; reflexivity).
  pose proof (C3_stop_running_job w0 0%nat (LocalLoop st) sample_input w
                eq_refl eq_refl eq_refl Hin)
    as (Ha & _ & Hb & _ & _ & _ & _ & _ & Hloop & _).
  destruct (Hloop st world_boot ∅ _ _ eq_refl H4 H5) as (_ & Hc & _ & Hd & _).
  split; [reflexivity|]. split; [exact Hin|]. split; [exact Ha|].
  split; [exact Hb|]. split; [exact Hc|]. split; [exact Hd|].
  vm_compute. reflexivity.
Defined.

(** C3 as stated fails: stop the job after four of ten frames.  The stop
    succeeds, the worker is dead and takes none of the steps it is offered
    afterwards; the session record then reads "active" with frame count 0,
    not "completed" with a frame count of 3 to 5.  The event log does hold
    four events. *)
Lemma C3_counterexample :
  let w := world_after 4 in
  let stopped := worker_steps 0 3 (stop_analysis w).2 in
  running (current_analysis w) = true ∧
  (stop_analysis w).1 = (200, Stopped true "Analysis stopped") ∧
  procs stopped !! 0%nat = Some (Exited (-15)) ∧
  (λ sd, (Session.status sd, Session.frame_count sd))
    <$> session_in (get_session (files stopped)).2 = Some ("active", 0) ∧
  ¬ ((λ sd, Session.status sd) <$> session_in (get_session (files stopped)).2
     = Some "completed") ∧
  (λ r, length r.2) <$> detections_in (get_detections (files stopped)).2 = Some 4%nat.
Proof.
  intros w stopped.
  split; [vm_compute; reflexivity|]. split; [vm_compute; reflexivity|].
  split; [vm_compute; reflexivity|].
  assert ((λ sd, (Session.status sd, Session.frame_count sd))
            <$> session_in (get_session (files stopped)).2 = Some ("active", 0)) as Hs
    by (vm_compute; reflexivity).
  split; [exact Hs|]. split; [|vm_compute; reflexivity].
  intros Hcompleted.
  destruct (session_in (get_session (files stopped)).2) as [sd|]; [|discriminate Hs].
  cbn [fmap option_fmap option_map] in Hs, Hcompleted.
  injection Hs as Hst _. injection Hcompleted as Hco. rewrite Hst in Hco. discriminate Hco.
Qed.

Lemma session_prefix_differs t t' :
  Pipeline.make_id "session_" t ≠ Pipeline.make_id "local_" t' ∧
  Pipeline.make_id "session_" t ≠ Pipeline.make_id "inference_" t'.
Proof. split; intros H; unfold Pipeline.make_id in H; simpl in H; discriminate. Qed.

(** What a successful [/start-analysis] returns and leaves behind. *)
Lemma start_analysis_started r w sid name w' :
  start_analysis r w = (200, Started sid name, w') →
  sid = Pipeline.make_id "session_" (now r) ∧
  session_id (current_analysis w') = Some sid ∧
  running (current_analysis w') = true ∧
  (FIREBASE_ENABLED w = false →
   files w' !! Storage.current_detections = None ∧
   files w' !! Storage.current_session = None).
Proof.
  unfold start_analysis. destruct (running (current_analysis w)); [done|].
  destruct (video_path r) as [|p]; [done|]. destruct (falsy p); [done|].
  destruct (negb (path_exists r)); [done|]. intros [= <- <- <-]. simpl.
  repeat split; try done; unfold clear_data; rewrite H; simpl;
    unfold Storage.unlink_if_exists.
  - destruct (files w !! Storage.current_detections) eqn:H1.
    + destruct (delete Storage.current_detections (files w) !! Storage.current_session) eqn:H2.
      * rewrite lookup_delete_ne; [by rewrite lookup_delete_eq | paths_ne].
      * by rewrite lookup_delete_eq.
    + destruct (files w !! Storage.current_session) eqn:H2; [|done].
      rewrite lookup_delete_ne; [done | paths_ne].
  - destruct (files w !! Storage.current_detections) eqn:H1.
    + destruct (delete Storage.current_detections (files w) !! Storage.current_session) eqn:H2;
        [by rewrite lookup_delete_eq | done].
    + destruct (files w !! Storage.current_session) eqn:H2; [by rewrite lookup_delete_eq | done].
Qed.

(** C10.  Let [/start-analysis] succeed and return [sid], which is
    ["session_"] followed by the server's clock reading and is what
    [/status] keeps.  Whatever worker then runs takes an id of its own:
    the local script ["local_"] followed by its own clock reading, the
    remote script ["inference_"] followed by its own.  So in local mode,
    at any point of the run and after it, the id and the events that
    [/detections] returns and the record that [/session] returns never
    carry [sid]; and in remote mode the events the run pushes and the key
    of its session record are never [sid]. *)
Theorem C10_session_ids_differ r w sid name w' :
  start_analysis r w = (200, Started sid name, w') →
  session_id (current_analysis w') = Some sid ∧
  (∀ b ticks s0 st fs f,
     FIREBASE_ENABLED w = false →
     LocalMain.start b (files w') = inr s0 →
     LocalMain.loop ticks s0 = LocalMain.Looping (st, fs) ∨
     LocalMain.loop ticks s0 = LocalMain.Left (st, fs) →
     LocalMain.session_id st = Pipeline.make_id "local_" (Pipeline.boot_time b) ∧
     LocalMain.session_id st ≠ sid ∧
     (∃ osid evs,
        detections_in (get_detections fs).2 = Some (osid, evs) ∧
        osid ≠ Some sid ∧
        ∀ e, e ∈ evs → DetectionFormatter.session_id e ≠ Some sid) ∧
     (∃ sd, session_in (get_session fs).2 = Some sd ∧ Session.session_id sd ≠ sid) ∧
     (∃ sd, session_in (get_session (LocalMain.finish f (st, fs))).2 = Some sd ∧
            Session.session_id sd ≠ sid)) ∧
  (∀ b ticks s0 st d,
     FirebaseMain.start b (db w') = inr s0 →
     FirebaseMain.loop ticks s0 = FirebaseMain.Looping (st, d) ∨
     FirebaseMain.loop ticks s0 = FirebaseMain.Left (st, d) →
     FirebaseUploader.session_id (FirebaseMain.uploader st)
       = Pipeline.make_id "inference_" (Pipeline.boot_time b) ∧
     FirebaseUploader.session_id (FirebaseMain.uploader st) ≠ sid ∧
     is_Some (FirebaseClient.sessions d
                !! FirebaseUploader.session_id (FirebaseMain.uploader st)) ∧
     ∃ pushed,
       FirebaseClient.detections d = FirebaseClient.detections (db w') ++ pushed ∧
       ∀ e, e ∈ pushed → DetectionFormatter.session_id e ≠ Some sid).
Proof.
  intros Hstart.
  destruct (start_analysis_started _ _ _ _ _ Hstart) as (Hsid & Hkept & _ & Hclean).
  split; [done|]. split.
  - intros b ticks s0 st fs f Hmode Hboot Hloop.
    destruct (Hclean Hmode) as [Hnodet _].
    destruct (start_consistent _ _ _ Hboot) as (Hc0 & Hsid0 & _).
    destruct (loop_consistent ticks (files w') s0 (st, fs) Hc0) as [HL HR].
    assert (local_consistent (files w') (st, fs) ∧
            LocalMain.session_id st = LocalMain.session_id s0.1) as [Hc Hsame].
    { destruct Hloop as [H|H]; [by destruct (HL H) as (? & ? & _) | by destruct (HR H)]. }
    assert (LocalMain.session_id st ≠ sid) as Hne.
    { rewrite Hsame, Hsid0, Hsid. intros H. symmetry in H.
      by apply session_prefix_differs in H. }
    split; [congruence|]. split; [done|].
    pose proof Hc as (_ & _ & _ & Hev & _ & Hses & _ & _ & _ & Hsd & _).
    cbn [fst snd] in Hev, Hses, Hsd.
    destruct (get_detections_consistent _ _ _ Hc (or_introl Hnodet)) as [_ Hbody].
    split; [|split].
    + eexists _, _. split; [exact Hbody|]. split.
      * destruct (LocalMain.all_detections st); [done | congruence].
      * intros e [i Hi]%list_elem_of_lookup. destruct (Hev i e Hi) as (_ & -> & _).
        congruence.
    + exists (LocalMain.session_data st).
      rewrite (get_session_written _ _ Hses). split; [done | congruence].
    + exists (LocalMain.completed st (Pipeline.final_stamp f)).
      rewrite (get_session_written _ _ (finish_session f st fs)).
      split; [done|]. simpl. congruence.
  - intros b ticks s0 st d Hboot Hloop.
    destruct (firebase_start_consistent _ _ _ Hboot) as [Hc0 _].
    destruct (firebase_loop_consistent ticks _ _ s0 (st, d) Hc0 Hloop)
      as [(Hu & _ & _ & _ & (pushed & Hdb & Hpsid & _) & (rec & Hrec & _)) _].
    cbn [fst snd] in Hu, Hdb, Hrec.
    assert (Pipeline.make_id "inference_" (Pipeline.boot_time b) ≠ sid) as Hne.
    { rewrite Hsid. intros H. symmetry in H. by apply session_prefix_differs in H. }
    split; [done|]. split; [congruence|]. split; [rewrite Hu; by eexists|].
    exists pushed. split; [done|]. intros e He. rewrite (Hpsid e He). congruence.
Qed.

Lemma C10_session_ids_differ_witness :
  start_analysis sample_request idle_world
    = (200, Started "session_1699999999" "upload_20260208_013031.mp4", started_world) ∧
  session_id (current_analysis started_world) = Some "session_1699999999" ∧
  LocalMain.session_id (local_boot world_boot (files started_world)).1 = "local_1700000000".
Proof.
  assert (start_analysis sample_request idle_world
          = (200, Started "session_1699999999" "upload_20260208_013031.mp4", started_world))
    as H by (vm_cast_no_check
               (@eq_refl _ (200, Started "session_1699999999" "upload_20260208_013031.mp4",
                            started_world))).
  destruct (C10_session_ids_differ _ _ _ _ _ H) as (Hkept & _ & _).
  split; [exact H|]. split; [exact Hkept|]. vm_compute. reflexivity.
Defined.

End ApiServerFacts.

(* ================================================================= *)
(** * Further properties of the code *)

(** ** video_processor.py *)

Section VideoProcessorMore.
Import VideoProcessor.

Lemma read_frame_spent vp :
  remaining vp = 0%nat → read_frame vp = (false, None, vp).
Proof.
  unfold remaining, read_frame. destruct vp as [src [c|] f t n w h]; simpl; [|done].
  unfold cap_read. destruct c as [o a b d e fr]; simpl.
  destruct fr; [done|]. by intros [=].
Qed.

Lemma read_frame_next vp :
  remaining vp ≠ 0%nat →
  ∃ f, (read_frame vp).1 = (true, Some f) ∧
       S (remaining (read_frame vp).2) = remaining vp.
Proof.
  unfold remaining, read_frame. destruct (cap vp) as [c|]; simpl; [|done].
  unfold cap_read. destruct (stream c) as [|f rest]; simpl; [done|]. by exists f.
Qed.

(** X1.  Of [n] consecutive calls of [read_frame], exactly the first
    [min n r] return a frame, [r] being the number of frames the capture
    can still decode; [current_frame] advances by that much and the frames
    left shrink by that much.  Once the source is spent, a further call
    returns [(False, None)] and leaves the processor as it is. *)
Theorem X1_read_frames_until_spent n vp :
  let r := read_frames n vp in
  r.1 = Z.of_nat (n `min` remaining vp) ∧
  current_frame r.2 = current_frame vp + Z.of_nat (n `min` remaining vp) ∧
  remaining r.2 = (remaining vp - n)%nat ∧
  (remaining vp ≤ n → read_frame r.2 = (false, None, r.2))%nat.
Proof.
  revert vp. induction n as [|n IH]; intros vp; simpl.
  - repeat split; try lia. intros H. apply read_frame_spent. lia.
  - destruct (decide (remaining vp = 0%nat)) as [H0|Hne].
    + rewrite (read_frame_spent vp H0). specialize (IH vp). simpl in IH.
      destruct (read_frames n vp) as [oks vp'] eqn:Hr. simpl in *.
      rewrite H0 in *. rewrite Nat.min_0_r in *. simpl in *.
      destruct IH as (-> & IH2 & IH3 & IH4). repeat split; try done; try lia.
      intros _. apply IH4. lia.
    + destruct (read_frame_next vp Hne) as (f & Hf & Hrem).
      pose proof (read_frame_current vp) as Hcur.
      destruct (read_frame vp) as [[ret fr] vp1]. simpl in Hf, Hrem, Hcur.
      injection Hf as -> ->. specialize (IH vp1). simpl in IH.
      destruct (read_frames n vp1) as [oks vp'] eqn:Hr. simpl in *.
      destruct IH as (-> & IH2 & IH3 & IH4).
      destruct (remaining vp) as [|m] eqn:Hm; [done|].
      injection Hrem as Hrem. rewrite Hrem in *.
      repeat split; try lia. intros Hle. apply IH4. lia.
Qed.

(** X2.  [_open_source] raises [FileNotFoundError] exactly for a path that
    does not exist, and [RuntimeError] exactly when the capture did not
    open for a webcam or an existing path; no other exception comes out.
    A processor that opened starts at frame 0 with the capture attached;
    for a webcam its [total_frames] is -1 and its [fps] is never 0. *)
Theorem X2_open_source_outcomes src path_exists dev :
  let is_path := match src with SourcePath _ => true | SourceIndex _ => false end in
  (_open_source src path_exists dev = inl FileNotFoundError
     ↔ is_path = true ∧ path_exists = false) ∧
  (_open_source src path_exists dev = inl RuntimeError
     ↔ (is_path = false ∨ path_exists = true) ∧ isOpened dev = false) ∧
  (∀ x, _open_source src path_exists dev = inl x → x = FileNotFoundError ∨ x = RuntimeError) ∧
  (∀ vp, _open_source src path_exists dev = inr vp →
     isOpened dev = true ∧ current_frame vp = 0 ∧ cap vp = Some dev ∧ source vp = src ∧
     (is_path = false → total_frames vp = -1 ∧ fps vp ≠ 0)).
Proof.
  unfold _open_source.
  destruct src as [p|i], path_exists, (isOpened dev) eqn:Hop; simpl;
    repeat split; try by intuition (try congruence).
  all: simplify_eq; simpl; try done.
  all: by destruct (Z.eqb_spec (py_int (CAP_PROP_FPS dev)) 0).
Qed.

(** X3.  [release] closes the capture once and for all: releasing twice
    is releasing once, every later [read_frame] returns [(False, None)]
    without moving [current_frame], and [get_progress] is what it was
    before the release. *)
Theorem X3_release_idempotent vp :
  release (release vp) = release vp ∧
  read_frame (release vp) = (false, None, release vp) ∧
  current_frame (release vp) = current_frame vp ∧
  get_progress (release vp) = get_progress vp.
Proof.
  unfold release, read_frame, get_progress.
  destruct vp as [src [c|] f t n w h]; simpl; [|done].
  repeat split; done.
Qed.

End VideoProcessorMore.

(** ** inference_engine.py *)

Section InferenceEngineMore.
Import InferenceEngine.

(** X4.  [_load_model] raises [FileNotFoundError] exactly when the model
    file is missing; otherwise whatever goes wrong while loading or
    warming up comes out as [RuntimeError], never as the library's own
    exception.  An engine that loaded holds the model and its class names,
    has recorded no latency and reports an average of 0. *)
Theorem X4_load_model_outcomes threshold model_exists loaded :
  (_load_model threshold model_exists loaded = inl FileNotFoundError
     ↔ model_exists = false) ∧
  (_load_model threshold model_exists loaded = inl RuntimeError
     ↔ model_exists = true ∧
       ((∃ x, loaded = inl x) ∨
        (∃ m x, loaded = inr m ∧ model_predict m dummy_input default_conf = inl x))) ∧
  (∀ x, _load_model threshold model_exists loaded = inl x →
        x = FileNotFoundError ∨ x = RuntimeError) ∧
  (∀ e, _load_model threshold model_exists loaded = inr e →
        loaded = inr (model e) ∧ class_names e = names (model e) ∧
        conf_threshold e = threshold ∧ inference_times e = [] ∧
        get_avg_inference_time e = 0%Q).
Proof.
  unfold _load_model. destruct model_exists; simpl.
  - destruct loaded as [x|m].
    + repeat split; try (by intuition (try congruence)); try (by eauto 7);
        try (by intros [_ [[? ?]|(? & ? & ? & ?)]]; simplify_eq).
    + destruct (model_predict m dummy_input default_conf) as [x|rs] eqn:Hw.
      * repeat split; try (by intuition (try congruence)); try (by eauto 7);
        try (by intros [_ [[? ?]|(? & ? & ? & ?)]]; simplify_eq).
      * split; [by split|]. split.
        { split; [done|]. intros [_ [[x Hx]|(m' & x & Hm & Hx)]]; [done|].
          injection Hm as <-. congruence. }
        split; [done|]. by intros e [= <-].
  - repeat split; try (by intuition (try congruence)); try (by eauto 7);
        try (by intros [_ [[? ?]|(? & ? & ? & ?)]]; simplify_eq).
Qed.

Lemma parse_boxes_unknown e bs : ∀ acc b,
  b ∈ bs → class_names e !! py_int (cls b) = None →
  parse_boxes e bs acc = inl KeyError.
Proof.
  induction bs as [|b' bs IH]; intros acc b Hin Hnone; [by apply elem_of_nil in Hin|].
  simpl. unfold parse_box at 1.
  destruct (class_names e !! py_int (cls b')) as [name|] eqn:Hb'; [|done].
  destruct (xyxy b') as [[[? ?] ?] ?].
  apply elem_of_cons in Hin as [->|Hin]; [congruence|]. by eapply IH.
Qed.

(** X5.  When the model reports a box whose class id has no entry in
    [class_names], [predict] raises [KeyError] and returns no detection at
    all, whatever the other boxes of the frame are. *)
Theorem X5_unknown_class_raises e frame t0 t1 r rest b :
  model_predict (model e) frame (conf_threshold e) = inr (r :: rest) →
  b ∈ boxes r →
  class_names e !! py_int (cls b) = None →
  predict e frame t0 t1 = inl KeyError.
Proof.
  intros Hm Hin Hnone. unfold predict, _parse_results. rewrite Hm.
  by rewrite (parse_boxes_unknown (record_time e ((t1 - t0) * 1000)%Q) _ [] b Hin Hnone).
Qed.

Lemma X5_unknown_class_raises_witness :
  predict odd_engine (frame_tagged 0) 10 11 = inl KeyError.
Proof.
  apply (X5_unknown_class_raises odd_engine (frame_tagged 0) 10 11
           {| boxes := [sample_box;
                        {| cls := 7; conf := 1 # 2; xyxy := (0, 0, 5, 5)%Q |}] |} []
           {| cls := 7; conf := 1 # 2; xyxy := (0, 0, 5, 5)%Q |}).
  - reflexivity.
  - simpl. apply elem_of_cons. right. apply elem_of_cons. by left.
  - vm_compute. reflexivity.
Defined.

Lemma quot_bounds n (d : positive) :
  (0 ≤ n → Z.pos d * (n ÷ Z.pos d) ≤ n < Z.pos d * (n ÷ Z.pos d + 1) ∧ 0 ≤ n ÷ Z.pos d) ∧
  (n ≤ 0 → Z.pos d * (n ÷ Z.pos d - 1) < n ≤ Z.pos d * (n ÷ Z.pos d) ∧ n ÷ Z.pos d ≤ 0).
Proof.
  pose proof (Z.quot_rem' n (Z.pos d)) as Hqr.
  split; intros Hn.
  - pose proof (Z.rem_bound_pos n (Z.pos d) Hn ltac:(lia)).
    pose proof (Z.quot_pos n (Z.pos d) Hn ltac:(lia)). lia.
  - assert (n ÷ Z.pos d = - ((- n) ÷ Z.pos d)) as Hq
      by (rewrite Z.quot_opp_l by lia; lia).
    pose proof (Z.quot_rem' (- n) (Z.pos d)) as Hqr'.
    pose proof (Z.rem_bound_pos (- n) (Z.pos d) ltac:(lia) ltac:(lia)).
    pose proof (Z.quot_pos (- n) (Z.pos d) ltac:(lia) ltac:(lia)). lia.
Qed.

(** [int()] keeps the order of floats. *)
Lemma py_int_mono a b : (a <= b)%Q → py_int a ≤ py_int b.
Proof.
  unfold Qle, py_int. destruct a as [n1 d1], b as [n2 d2]; simpl. intros H.
  destruct (quot_bounds n1 d1) as [P1 N1], (quot_bounds n2 d2) as [P2 N2].
  destruct (Z.le_gt_cases 0 n1), (Z.le_gt_cases 0 n2).
  - specialize (P1 ltac:(lia)). specialize (P2 ltac:(lia)). nia.
  - nia.
  - specialize (N1 ltac:(lia)). specialize (P2 ltac:(lia)). lia.
  - specialize (N1 ltac:(lia)). specialize (N2 ltac:(lia)). nia.
Qed.

(** X6.  A detection built from a box carries the box's truncated class
    id, the name stored for it and the box's confidence unchanged; its
    pixel corners are the box's corners truncated toward zero, so a box
    with [x1 <= x2] and [y1 <= y2] gives a detection with [x1 <= x2] and
    [y1 <= y2]. *)
Theorem X6_parse_box_keeps_order e b d a1 b1 a2 b2 :
  parse_box e b = inr d →
  xyxy b = (a1, b1, a2, b2) →
  class_id d = py_int (cls b) ∧
  class_names e !! class_id d = Some (class_name d) ∧
  confidence d = conf b ∧
  bbox d = {| x1 := py_int a1; y1 := py_int b1; x2 := py_int a2; y2 := py_int b2 |} ∧
  ((a1 <= a2)%Q → x1 (bbox d) ≤ x2 (bbox d)) ∧
  ((b1 <= b2)%Q → y1 (bbox d) ≤ y2 (bbox d)).
Proof.
  unfold parse_box. destruct (class_names e !! py_int (cls b)) as [name|] eqn:Hn; [|done].
  intros H Hxy. rewrite Hxy in H. injection H as <-. simpl.
  repeat split; try done; apply py_int_mono.
Qed.

Lemma X6_parse_box_keeps_order_witness :
  ∃ d, parse_box odd_engine sample_box = inr d ∧
       class_name d = "Early Blight" ∧ x1 (bbox d) ≤ x2 (bbox d).
Proof.
  eexists. split; [vm_compute; reflexivity|].
  destruct (X6_parse_box_keeps_order odd_engine sample_box _ 10 20 110 220 eq_refl eq_refl)
    as (_ & _ & _ & _ & Hx & _).
  split; [reflexivity|]. apply Hx. vm_compute. discriminate.
Defined.

End InferenceEngineMore.

(** ** run_inference_local.py *)

Section LocalMainMore.

Lemma iteration_other_files k s p :
  p ≠ Storage.current_detections →
  (step_state (LocalMain.iteration k s)).2 !! p = s.2 !! p.
Proof.
  intros Hp. destruct s as [st fs]. unfold LocalMain.iteration.
  destruct (VideoProcessor.read_frame _) as [[success frame] vid].
  destruct success; simpl; [|done].
  destruct frame as [f|]; [|done].
  destruct (InferenceEngine.predict _ _ _ _) as [|[dets eng]]; [done|].
  destruct (Config.display_window _ && _); simpl;
    [by rewrite json_dump_lookup_ne|].
  destruct (Pipeline.log_raises _ _ _ _); simpl; by rewrite json_dump_lookup_ne.
Qed.

(** X7.  However long the loop runs and however it ends, the only file it
    writes is current_detections.json: every other path of the disk,
    the session file included, holds what it held when the loop was
    entered. *)
Theorem X7_loop_writes_one_file ticks s p :
  p ≠ Storage.current_detections →
  (local_state (LocalMain.loop ticks s)).2 !! p = s.2 !! p.
Proof.
  intros Hp. revert s. induction ticks as [|k ticks IH]; intros s; [done|].
  rewrite loop_cons. pose proof (iteration_other_files k s p Hp) as Hit.
  destruct (LocalMain.iteration k s) as [s1|s1|x s1]; simpl in *; [|done..].
  by rewrite IH.
Qed.

Lemma X7_loop_writes_one_file_witness :
  (local_after sample_model ten_frames 4).2 !! Storage.current_session
  = (local_started sample_model ten_frames ∅).2 !! Storage.current_session.
Proof.
  apply (X7_loop_writes_one_file (replicate 4 sample_tick)
           (local_started sample_model ten_frames ∅) Storage.current_session).
  by intros ?%symmetry%paths_differ.
Defined.

Lemma crashed_local_state r x :
  crashed_with r = Some x →
  r = LocalMain.Crashed x ((local_state r).1, (local_state r).2).
Proof. destruct r as [[? ?]|[? ?]|? [? ?]]; [done..|]. by intros [= ->]. Qed.

Lemma left_local_state r :
  has_left r = true → r = LocalMain.Left ((local_state r).1, (local_state r).2).
Proof. by destruct r as [[? ?]|[? ?]|? [? ?]]. Qed.

(** X8.  When a pass of the local loop raises, [main] exits with code 1
    and never reaches the code after the loop: the session file still
    holds the record written at start-up, with status "active", frame
    count 0 and no end time, and no archive file was written. *)
Theorem X8_local_crash_leaves_session_active b fs0 s0 ticks f x st fs :
  LocalMain.start b fs0 = inr s0 →
  LocalMain.loop ticks s0 = LocalMain.Crashed x (st, fs) →
  LocalMain.main b ticks f fs0 = Some (1, fs) ∧
  (∃ sd,
     ApiServer.get_session fs = (200, ApiServer.Document (Storage.SessionDoc sd)) ∧
     Session.status sd = "active" ∧ Session.frame_count sd = 0 ∧
     Session.total_detections sd = 0 ∧ Session.end_time sd = None ∧
     Session.session_id sd = Pipeline.make_id "local_" (Pipeline.boot_time b)) ∧
  fs !! LocalMain.archive_path (Pipeline.final_name f)
    = fs0 !! LocalMain.archive_path (Pipeline.final_name f).
Proof.
  intros Hstart Hloop. split; [by eapply local_main_crashed|].
  destruct (start_consistent _ _ _ Hstart)
    as ((_ & _ & _ & _ & _ & Hses & Hact & Hf0 & Ht0 & Hsid & Hoth) & Hsid0 & _).
  pose proof (X7_loop_writes_one_file ticks s0) as Hkeep. rewrite Hloop in Hkeep.
  simpl in Hkeep. split.
  - exists (LocalMain.session_data s0.1). split.
    + apply get_session_written. rewrite Hkeep; [done|].
      by intros ?%symmetry%paths_differ.
    + repeat split; try done; [|congruence].
      revert Hstart. unfold LocalMain.start.
      destruct (Pipeline.boot_config b); [done|].
      destruct (InferenceEngine._load_model _ _ _); [done|].
      destruct (VideoProcessor._open_source _ _ _); [done|]. by intros [= <-].
  - rewrite Hkeep; [|apply archive_path_fresh]. apply Hoth; apply archive_path_fresh.
Qed.

Lemma X8_local_crash_leaves_session_active_witness :
  let s0 := local_started failing_model crash_frames ∅ in
  let r := LocalMain.loop (replicate 4 sample_tick) s0 in
  LocalMain.start (sample_boot failing_model crash_frames) ∅ = inr s0 ∧
  r = LocalMain.Crashed (LibraryError "ultralytics") ((local_state r).1, (local_state r).2) ∧
  LocalMain.main (sample_boot failing_model crash_frames) (replicate 4 sample_tick)
    sample_final ∅ = Some (1, (local_state r).2).
Proof.
  intros s0 r.
  assert (LocalMain.start (sample_boot failing_model crash_frames) ∅ = inr s0) as H1
    by (apply started_local_boot; vm_compute; reflexivity).
  assert (r = LocalMain.Crashed (LibraryError "ultralytics")
                ((local_state r).1, (local_state r).2)) as H2
    by (apply crashed_local_state; vm_compute; reflexivity).
  destruct (X8_local_crash_leaves_session_active _ _ _ _ sample_final _ _ _ H1 H2) as (Hm & _).
  split; [exact H1|]. split; [exact H2 | exact Hm].
Defined.

(** X9.  When the local loop was left (end of the video, or the quit
    key), what follows it writes the session file and the archive: the
    session record is "completed" with an end time, its frame count is the
    number of frames read, which is the number of recorded events, and its
    detection total is the sum of their detection counts; the archive file
    parses to that same record together with exactly the recorded events,
    and the detections file is left as the loop left it. *)
Theorem X9_local_run_completed b fs0 s0 ticks st fs f :
  LocalMain.start b fs0 = inr s0 →
  LocalMain.loop ticks s0 = LocalMain.Left (st, fs) →
  let sd := LocalMain.completed st (Pipeline.final_stamp f) in
  let fs' := LocalMain.finish f (st, fs) in
  LocalMain.main b ticks f fs0 = Some (0, fs') ∧
  ApiServer.get_session fs' = (200, ApiServer.Document (Storage.SessionDoc sd)) ∧
  Session.status sd = "completed" ∧
  Session.end_time sd = Some (Pipeline.final_stamp f) ∧
  Session.frame_count sd = VideoProcessor.current_frame (LocalMain.video st) ∧
  Session.frame_count sd = Z.of_nat (length (LocalMain.all_detections st)) ∧
  Session.total_detections sd = sum_counts (LocalMain.all_detections st) ∧
  Storage.json_load <$> fs' !! LocalMain.archive_path (Pipeline.final_name f)
    = Some (Some (Storage.ArchiveDoc sd (LocalMain.all_detections st))) ∧
  fs' !! Storage.current_detections = fs !! Storage.current_detections.
Proof.
  intros Hstart Hloop sd fs'.
  destruct (local_session_completed _ _ _ _ _ _ f Hstart Hloop)
    as (sd' & Hget & Hst & Hcur & Hlen & Htot & _).
  assert (sd' = sd) as ->.
  { unfold fs' in *. rewrite (get_session_written _ _ (finish_session f st fs)) in Hget.
    by injection Hget as <-. }
  split; [unfold LocalMain.main; by rewrite Hstart, Hloop|].
  repeat split; try done.
  - unfold fs', LocalMain.finish. rewrite json_dump_lookup.
    unfold fmap, option_fmap, option_map. by rewrite json_load_encode.
  - apply finish_detections.
Qed.

Lemma X9_local_run_completed_witness :
  let s0 := local_started sample_model ten_frames ∅ in
  let r := LocalMain.loop (replicate 11 sample_tick) s0 in
  LocalMain.start (sample_boot sample_model ten_frames) ∅ = inr s0 ∧
  r = LocalMain.Left ((local_state r).1, (local_state r).2) ∧
  Session.frame_count (LocalMain.completed (local_state r).1 "2026-02-08T01:30:40") = 10 ∧
  Session.total_detections (LocalMain.completed (local_state r).1 "2026-02-08T01:30:40") = 2.
Proof.
  intros s0 r.
  assert (LocalMain.start (sample_boot sample_model ten_frames) ∅ = inr s0) as H1
    by (apply started_local_boot; vm_compute; reflexivity).
  assert (r = LocalMain.Left ((local_state r).1, (local_state r).2)) as H2
    by (apply left_local_state; vm_compute; reflexivity).
  destruct (X9_local_run_completed _ _ _ _ _ _ sample_final H1 H2)
    as (_ & _ & _ & _ & _ & Hlen & Htot & _).
  split; [exact H1|]. split; [exact H2|]. split; vm_compute; reflexivity.
Defined.

(** X10.  The local loop makes at most as many passes that go on as the
    video has frames left, so [main] returns, with exit code 0 or 1, as
    soon as it is given more ticks than the capture holds frames. *)
Theorem X10_local_main_returns b ticks f fs :
  (length (VideoProcessor.stream (Pipeline.boot_capture b)) < length ticks)%nat →
  ∃ code fs', LocalMain.main b ticks f fs = Some (code, fs') ∧ (code = 0 ∨ code = 1).
Proof.
  intros Hlen. destruct (local_main_returns b ticks f fs Hlen) as (code & fs' & Hm).
  exists code, fs'. split; [done|]. revert Hm. unfold LocalMain.main.
  destruct (LocalMain.start b fs) as [|s0]; [intros [= <- _]; by right|].
  destruct (LocalMain.loop ticks s0) as [?|?|? [? ?]]; [done| |];
    intros [= <- _]; auto.
Qed.

Lemma X10_local_main_returns_witness :
  ∃ code fs',
    LocalMain.main (sample_boot sample_model ten_frames) (replicate 11 sample_tick)
      sample_final ∅ = Some (code, fs') ∧ (code = 0 ∨ code = 1).
Proof.
  apply (X10_local_main_returns (sample_boot sample_model ten_frames)
           (replicate 11 sample_tick) sample_final ∅).
  simpl. lia.
Defined.

Lemma quit_pressed_mask key :
  Pipeline.quit_pressed key = true ↔ key mod 256 = 113.
Proof.
  unfold Pipeline.quit_pressed. change 255 with (Z.ones 8).
  rewrite Z.land_ones by lia. change (2 ^ 8) with 256. apply Z.eqb_eq.
Qed.

(** X11.  With the display window on, a pass of the local loop whose key
    reading is 'q' in its low eight bits never goes on to a next pass.  The
    key is looked at only after the frame was handled: when the pass
    leaves the loop with a frame still to read, that frame's event was
    appended and written to the detections file first; only at the end of
    the video does it leave without recording anything. *)
Theorem X11_quit_key_after_recording k st fs :
  Config.display_window (LocalMain.config st) = true →
  Pipeline.tick_key k mod 256 = 113 →
  match LocalMain.iteration k (st, fs) with
  | Pipeline.Continue _ => False
  | Pipeline.Break (st', fs') =>
      if decide (remaining (LocalMain.video st) = 0%nat)
      then LocalMain.all_detections st' = LocalMain.all_detections st ∧ fs' = fs
      else (∃ ev, LocalMain.all_detections st' = LocalMain.all_detections st ++ [ev] ∧
                  DetectionFormatter.frame_id ev = LocalMain.frame_count st + 1) ∧
           fs' !! Storage.current_detections
             = Some (Storage.encode (Storage.DetectionsDoc (LocalMain.session_id st)
                                       (LocalMain.all_detections st')))
  | Pipeline.Raise _ (_, fs') => fs' = fs
  end.
Proof.
  intros Hwin Hkey%quit_pressed_mask. unfold LocalMain.iteration.
  destruct (decide (remaining (LocalMain.video st) = 0%nat)) as [Hz|Hnz].
  - by rewrite (read_frame_spent _ Hz).
  - destruct (read_frame_next _ Hnz) as (f & Hf & _).
    destruct (VideoProcessor.read_frame _) as [[success frame] vid].
    simpl in Hf. injection Hf as -> ->. simpl.
    destruct (InferenceEngine.predict _ _ _ _) as [|[dets eng]]; [done|].
    rewrite Hwin, Hkey. simpl. split; [by eexists|]. by rewrite json_dump_lookup.
Qed.

Lemma X11_quit_key_after_recording_witness :
  let s := local_under window_config in
  Config.display_window (LocalMain.config s.1) = true ∧
  match LocalMain.iteration (with_key sample_tick 369) (s.1, s.2) with
  | Pipeline.Continue _ => False
  | Pipeline.Break (st', fs') =>
      if decide (remaining (LocalMain.video s.1) = 0%nat)
      then LocalMain.all_detections st' = LocalMain.all_detections s.1 ∧ fs' = s.2
      else (∃ ev, LocalMain.all_detections st' = LocalMain.all_detections s.1 ++ [ev] ∧
                  DetectionFormatter.frame_id ev = LocalMain.frame_count s.1 + 1) ∧
           fs' !! Storage.current_detections
             = Some (Storage.encode (Storage.DetectionsDoc (LocalMain.session_id s.1)
                                       (LocalMain.all_detections st')))
  | Pipeline.Raise _ (_, fs') => fs' = s.2
  end.
Proof.
  intros s. split; [reflexivity|].
  apply (X11_quit_key_after_recording (with_key sample_tick 369) s.1 s.2);
    reflexivity.
Defined.

Lemma iteration_config k s :
  LocalMain.config (step_state (LocalMain.iteration k s)).1 = LocalMain.config s.1.
Proof.
  destruct s as [st fs]. unfold LocalMain.iteration.
  destruct (VideoProcessor.read_frame _) as [[success frame] vid].
  destruct success; simpl; [|done].
  destruct frame as [f|]; [|done].
  destruct (InferenceEngine.predict _ _ _ _) as [|[dets eng]]; [done|].
  destruct (_ && _); [done|]. by destruct (Pipeline.log_raises _ _ _ _).
Qed.

Lemma iteration_no_window k key s :
  Config.display_window (LocalMain.config s.1) = false →
  LocalMain.iteration (with_key k key) s = LocalMain.iteration k s.
Proof.
  intros Hwin. destruct s as [st fs]. unfold LocalMain.iteration. simpl in *.
  by rewrite Hwin.
Qed.

(** X12.  With the display window off the local loop never reads the
    keyboard: whatever keys are pressed during a run, 'q' included, the run
    takes the same passes and ends in the same state.  Such a worker can
    only be stopped from outside. *)
Theorem X12_no_window_no_quit ticks keys s :
  Config.display_window (LocalMain.config s.1) = false →
  length keys = length ticks →
  LocalMain.loop (zip_with with_key ticks keys) s = LocalMain.loop ticks s.
Proof.
  revert keys s. induction ticks as [|k ticks IH]; intros [|key keys] s Hwin Hlen;
    try done.
  simpl zip_with. rewrite !loop_cons, (iteration_no_window _ _ _ Hwin).
  pose proof (iteration_config k s) as Hcfg.
  destruct (LocalMain.iteration k s) as [s1|s1|x s1]; [|done..].
  simpl in Hcfg. apply IH; [congruence|]. simpl in Hlen. lia.
Qed.

Lemma X12_no_window_no_quit_witness :
  let s := local_started sample_model ten_frames ∅ in
  LocalMain.loop (zip_with with_key (replicate 3 sample_tick) [113; 113; 113]) s
  = LocalMain.loop (replicate 3 sample_tick) s.
Proof.
  intros s.
  apply (X12_no_window_no_quit (replicate 3 sample_tick) [113; 113; 113] s);
    reflexivity.
Defined.

(** X13.  The periodic log of the local loop is not guarded against a zero
    divisor.  When logging is on and the pass is one that logs with no time
    elapsed since start-up, or the configured interval is 0, a pass that
    read a frame and got its detections raises ZeroDivisionError, and it
    does so after the frame's event was appended and the detections file
    rewritten: the run ends as a crash with that event on disk. *)
Theorem X13_periodic_log_raises k st fs f vid dets eng ticks :
  VideoProcessor.read_frame (LocalMain.video st) = (true, Some f, vid) →
  InferenceEngine.predict (LocalMain.engine st) f
    (Pipeline.tick_start k) (Pipeline.tick_end k) = inr (dets, eng) →
  Config.display_window (LocalMain.config st) && Pipeline.quit_pressed (Pipeline.tick_key k)
    = false →
  Config.log_fps (LocalMain.config st) = true →
  Config.log_interval (LocalMain.config st) = 0 ∨
  ((LocalMain.frame_count st + 1) mod Config.log_interval (LocalMain.config st) = 0 ∧
   (Pipeline.tick_clock k == LocalMain.start_time st)%Q) →
  ∃ st' fs',
    LocalMain.loop (k :: ticks) (st, fs) = LocalMain.Crashed ZeroDivisionError (st', fs') ∧
    length (LocalMain.all_detections st') = S (length (LocalMain.all_detections st)) ∧
    LocalMain.frame_count st' = LocalMain.frame_count st + 1 ∧
    ApiServer.get_detections fs'
      = (200, ApiServer.Document
                (Storage.DetectionsDoc (LocalMain.session_id st)
                   (LocalMain.all_detections st'))).
Proof.
  intros Hread Hpred Hquit Hlog Hzero.
  rewrite loop_cons. unfold LocalMain.iteration. rewrite Hread. simpl.
  rewrite Hpred, Hquit.
  assert (Pipeline.log_raises (LocalMain.config st) (LocalMain.frame_count st + 1)
            (LocalMain.start_time st) (Pipeline.tick_clock k) = true) as ->.
  { unfold Pipeline.log_raises. rewrite Hlog.
    destruct Hzero as [->|[-> Heq]]; [done|].
    destruct (Z.eqb_spec (Config.log_interval (LocalMain.config st)) 0); [done|].
    simpl. apply Qeq_bool_iff. rewrite Heq. ring. }
  eexists _, _. split; [done|]. simpl.
  split; [rewrite length_app; simpl; lia|]. split; [done|].
  apply get_detections_written. by rewrite json_dump_lookup.
Qed.

Lemma X13_periodic_log_raises_witness :
  let s := local_under zero_interval_config in
  crashed_with (LocalMain.loop [sample_tick] (s.1, s.2)) = Some ZeroDivisionError.
Proof.
  intros s.
  destruct (X13_periodic_log_raises sample_tick s.1 s.2 _ _ _ _ []
              eq_refl eq_refl eq_refl eq_refl (or_introl eq_refl))
    as (st' & fs' & H & _).
  rewrite H. reflexivity.
Defined.

Lemma parse_boxes_named e bs : ∀ acc ds,
  InferenceEngine.parse_boxes e bs acc = inr ds →
  Forall (λ d, InferenceEngine.class_names e !! InferenceEngine.class_id d
               = Some (InferenceEngine.class_name d)) acc →
  Forall (λ d, InferenceEngine.class_names e !! InferenceEngine.class_id d
               = Some (InferenceEngine.class_name d)) ds.
Proof.
  induction bs as [|b bs IH]; intros acc ds; simpl; [by intros [= <-]|].
  destruct (InferenceEngine.parse_box e b) as [|d] eqn:Hb; [done|].
  intros Hrest Hacc. apply (IH _ _ Hrest). apply Forall_app. split; [done|].
  apply Forall_singleton. revert Hb. unfold InferenceEngine.parse_box.
  destruct (InferenceEngine.class_names e !! _) eqn:Hn; [|done].
  destruct (InferenceEngine.xyxy b) as [[[? ?] ?] ?]. by intros [= <-].
Qed.

Lemma predict_named e f t0 t1 ds e' :
  InferenceEngine.predict e f t0 t1 = inr (ds, e') →
  e' = InferenceEngine.record_time e ((t1 - t0) * 1000)%Q ∧
  Forall (λ d, InferenceEngine.class_names e !! InferenceEngine.class_id d
               = Some (InferenceEngine.class_name d)) ds.
Proof.
  unfold InferenceEngine.predict, InferenceEngine._parse_results.
  destruct (InferenceEngine.model_predict _ _ _) as [|[|r rest]]; [done..|].
  destruct (InferenceEngine.parse_boxes _ _ _) as [|ds'] eqn:Hp; [done|].
  intros [= <- <-]. split; [done|]. by apply (parse_boxes_named _ _ _ _ Hp).
Qed.

Lemma iteration_engine_consistent names k s :
  engine_consistent names s.1 →
  engine_consistent names (step_state (LocalMain.iteration k s)).1.
Proof.
  destruct s as [st fs]. intros (Hn & Hl & Hall). simpl in *.
  unfold LocalMain.iteration.
  destruct (VideoProcessor.read_frame _) as [[success frame] vid].
  destruct success; simpl; [|done].
  destruct frame as [f|]; [|done]. simpl.
  destruct (InferenceEngine.predict _ _ _ _) as [|[dets eng]] eqn:Hp; [done|].
  destruct (predict_named _ _ _ _ _ _ Hp) as [-> Hd].
  assert (engine_consistent names
            (LocalMain.with_event
               (LocalMain.with_video st vid (LocalMain.frame_count st + 1))
               (InferenceEngine.record_time (LocalMain.engine st)
                  ((Pipeline.tick_end k - Pipeline.tick_start k) * 1000)%Q)
               (DetectionFormatter.set_session_id
                  (DetectionFormatter.format_detection_event
                     (LocalMain.frame_count st + 1) (Pipeline.tick_stamp k) dets
                     (frame_shape f))
                  (LocalMain.session_id st))
               (Z.of_nat (length dets)))) as Hnew.
  { unfold engine_consistent. simpl. rewrite !length_app, Hl. simpl.
    split; [done|]. split; [done|]. apply Forall_app. split; [done|].
    apply Forall_singleton. simpl. by rewrite <- Hn. }
  destruct (_ && _); [done|]. by destruct (Pipeline.log_raises _ _ _ _).
Qed.

(** X27.  While a local run is in its loop, and when it has left it, the
    engine holds exactly one latency sample per recorded event, so the
    average inference time and the FPS estimate it reports are taken over
    the frames that were recorded and no others; and every detection of
    every recorded event carries the name the model's table gives its
    class id.  The table itself is the one read from the model at load
    time. *)
Theorem X27_one_latency_per_event b fs0 s0 ticks cfg m st fs :
  Pipeline.boot_config b = inr cfg →
  Pipeline.boot_model b = inr m →
  LocalMain.start b fs0 = inr s0 →
  LocalMain.loop ticks s0 = LocalMain.Looping (st, fs) ∨
  LocalMain.loop ticks s0 = LocalMain.Left (st, fs) →
  InferenceEngine.class_names (LocalMain.engine st) = InferenceEngine.names m ∧
  length (InferenceEngine.inference_times (LocalMain.engine st))
    = length (LocalMain.all_detections st) ∧
  ∀ e d, e ∈ LocalMain.all_detections st → d ∈ DetectionFormatter.detections e →
         InferenceEngine.names m !! InferenceEngine.class_id d
         = Some (InferenceEngine.class_name d).
Proof.
  intros Hcfg Hm Hstart Hloop.
  assert (engine_consistent (InferenceEngine.names m) s0.1) as H0.
  { revert Hstart. unfold LocalMain.start. rewrite Hcfg, Hm.
    unfold InferenceEngine._load_model. destruct (negb _); [done|].
    destruct (InferenceEngine.model_predict _ _ _); [done|].
    destruct (VideoProcessor._open_source _ _ _); [done|]. intros [= <-].
    unfold engine_consistent. simpl. by repeat split. }
  assert (engine_consistent (InferenceEngine.names m)
            (local_state (LocalMain.loop ticks s0)).1) as Hc.
  { clear Hstart Hloop. revert s0 H0.
    induction ticks as [|k ticks IH]; intros s0 H0; [done|].
    rewrite loop_cons. pose proof (iteration_engine_consistent _ k s0 H0) as H1.
    destruct (LocalMain.iteration k s0) as [s1|s1|x s1]; simpl in *; [|done..].
    by apply IH. }
  assert (engine_consistent (InferenceEngine.names m) st) as (Hn & Hl & Hall).
  { destruct Hloop as [Hl|Hl]; by rewrite Hl in Hc. }
  split; [done|]. split; [done|]. intros e d He Hd.
  rewrite Forall_forall in Hall. specialize (Hall e He).
  rewrite Forall_forall in Hall. by apply Hall.
Qed.

Lemma X27_one_latency_per_event_witness :
  let st := (local_after sample_model ten_frames 4).1 in
  length (InferenceEngine.inference_times (LocalMain.engine st))
  = length (LocalMain.all_detections st).
Proof.
  intros st.
  assert (LocalMain.start (sample_boot sample_model ten_frames) ∅
          = inr (local_started sample_model ten_frames ∅)) as H1
    by (apply started_local_boot; vm_compute; reflexivity).
  assert (LocalMain.loop (replicate 4 sample_tick) (local_started sample_model ten_frames ∅)
          = LocalMain.Looping ((local_after sample_model ten_frames 4).1,
                               (local_after sample_model ten_frames 4).2)) as H2
    by (apply looping_local_state; vm_compute; reflexivity).
  exact (proj1 (proj2 (X27_one_latency_per_event (sample_boot sample_model ten_frames) ∅ _
                         (replicate 4 sample_tick) sample_config sample_model _ _
                         eq_refl eq_refl H1 (or_introl H2)))).
Defined.

End LocalMainMore.

(** ** firebase_uploader.py *)

Section FirebaseUploaderMore.
Import FirebaseUploader.

Lemma pushed_of_snoc {A} (l : list (A * bool)) x :
  pushed_of (l ++ [x]) = pushed_of l ++ (if x.2 then [x.1] else []).
Proof. unfold pushed_of. rewrite omap_app. simpl. by destruct x.2. Qed.

(** X14.  Over any sequence of [upload_detection_event] calls, the
    uploader's detection total grows by the detection counts of exactly
    the events whose push went through, and the /detections stream grows
    by exactly those events, in order and stamped with the uploader's
    session id.  Events whose push failed are dropped without a trace, and
    no call ever touches the frame counter, /frames or the session
    records. *)
Theorem X14_uploads_count_pushed_events uploads u db :
  let s' := upload_all uploads (u, db) in
  FirebaseClient.detections s'.2
    = FirebaseClient.detections db
      ++ map (λ e, DetectionFormatter.set_session_id e (session_id u)) (pushed_of uploads) ∧
  total_detections s'.1 = total_detections u + sum_counts (pushed_of uploads) ∧
  frame_count s'.1 = frame_count u ∧
  session_id s'.1 = session_id u ∧
  FirebaseClient.frames s'.2 = FirebaseClient.frames db ∧
  FirebaseClient.sessions s'.2 = FirebaseClient.sessions db.
Proof.
  induction uploads as [|[e o] uploads IH] using rev_ind; simpl.
  - unfold pushed_of, sum_counts. simpl. rewrite app_nil_r. repeat split; lia.
  - unfold upload_all in *. rewrite foldl_app. simpl in *.
    destruct (foldl _ (u, db) uploads) as [u1 db1]. simpl in *.
    destruct IH as (Hd & Ht & Hf & Hs & Hfr & Hse).
    rewrite pushed_of_snoc. unfold upload_detection_event. destruct o; simpl.
    + rewrite Hd, Ht, Hs, map_app, sum_counts_snoc, app_assoc. simpl.
      repeat split; try done. lia.
    + rewrite !app_nil_r. by repeat split.
Qed.

Lemma summarise_all_snoc frames fr s :
  summarise_all (frames ++ [fr]) s
  = let s1 := summarise_all frames s in
    let '(_, u, db) :=
      upload_frame_summary s1.1 s1.2 fr.1.1.1 fr.1.1.2 fr.1.2 fr.2 in
    (u, db).
Proof. unfold summarise_all. by rewrite foldl_app. Qed.

(** X15.  A session opened by the uploader, fed any sequence of frame
    summaries and then ended with the remote call going through, leaves a
    session record that keeps the id and start time written at
    initialisation, has status "completed" and an end time, and whose
    frame count is the number of frame summaries whose push went through:
    [upload_frame_summary] is the one method that advances the count, and
    only on a successful push.  /frames holds exactly those summaries. *)
Theorem X15_frame_summaries_counted sid now stamp db0 u0 db1 frames stamp' :
  init sid now stamp None true db0 = inr (u0, db1) →
  let s' := summarise_all frames (u0, db1) in
  let pushed := pushed_of (map (λ fr, (fr.1.1.1, fr.1.2)) frames) in
  let db' := end_session s'.1 s'.2 stamp' true in
  frame_count s'.1 = Z.of_nat (length pushed) ∧
  FirebaseClient.frames s'.2
    = FirebaseClient.frames db0
      ++ map (λ e, DetectionFormatter.set_session_id e (session_id u0)) pushed ∧
  FirebaseClient.detections db' = FirebaseClient.detections db0 ∧
  ∃ r, FirebaseClient.sessions db' !! session_id u0 = Some r ∧
       FirebaseClient.session_id r = Some (session_id u0) ∧
       FirebaseClient.start_time r = Some stamp ∧
       FirebaseClient.status r = Some "completed" ∧
       FirebaseClient.frame_count r = Some (Z.of_nat (length pushed)) ∧
       FirebaseClient.total_detections r = Some 0 ∧
       FirebaseClient.end_time r = Some stamp'.
Proof.
  intros Hinit.
  assert (frame_count u0 = 0 ∧ total_detections u0 = 0 ∧
          FirebaseClient.frames db1 = FirebaseClient.frames db0 ∧
          FirebaseClient.detections db1 = FirebaseClient.detections db0 ∧
          ∃ r, FirebaseClient.sessions db1 !! session_id u0 = Some r ∧
               FirebaseClient.session_id r = Some (session_id u0) ∧
               FirebaseClient.start_time r = Some stamp) as (Hf0 & Ht0 & Hfr0 & Hd0 & Hr0).
  { revert Hinit. unfold init. simpl. intros [= <- <-]. simpl.
    repeat split; try done. eexists. by rewrite lookup_insert_eq. }
  assert (let s' := summarise_all frames (u0, db1) in
          let pushed := pushed_of (map (λ fr, (fr.1.1.1, fr.1.2)) frames) in
          frame_count s'.1 = Z.of_nat (length pushed) ∧
          total_detections s'.1 = 0 ∧ session_id s'.1 = session_id u0 ∧
          FirebaseClient.frames s'.2
            = FirebaseClient.frames db0
              ++ map (λ e, DetectionFormatter.set_session_id e (session_id u0)) pushed ∧
          FirebaseClient.detections s'.2 = FirebaseClient.detections db0 ∧
          ∃ r, FirebaseClient.sessions s'.2 !! session_id u0 = Some r ∧
               FirebaseClient.session_id r = Some (session_id u0) ∧
               FirebaseClient.start_time r = Some stamp) as Hinv.
  { induction frames as [|[[[e st] o] so] frames IH] using rev_ind.
    - simpl. unfold pushed_of. simpl. rewrite app_nil_r. by repeat split.
    - rewrite summarise_all_snoc, map_app. cbn [map]. rewrite pushed_of_snoc. simpl in *.
      destruct (summarise_all frames (u0, db1)) as [u1 d1]. simpl in *.
      destruct IH as (Hf & Ht & Hs & Hfr & Hd & r & Hr & Hrs & Hrt).
      unfold upload_frame_summary. destruct o; simpl.
      + rewrite length_app, map_app, app_assoc, Hfr, Hs. simpl.
        unfold _update_session_stats. destruct so; simpl.
        * repeat split; try done; [lia|]. rewrite lookup_insert_eq, Hr. simpl.
          eexists. split; [done|]. simpl. by rewrite Hrs, Hrt.
        * repeat split; try done; [lia|]. by exists r.
      + rewrite !app_nil_r. repeat split; try done. by exists r. }
  simpl in *. destruct (summarise_all frames (u0, db1)) as [u1 d1]. simpl in *.
  destruct Hinv as (Hf & Ht & Hs & Hfr & Hd & r & Hr & Hrs & Hrt).
  repeat split; try done. rewrite Hs, lookup_insert_eq, Hr. simpl.
  eexists. split; [done|]. simpl. rewrite Hrs, Hrt, Hf, Ht. by repeat split.
Qed.

Lemma X15_frame_summaries_counted_witness :
  let frames := [(sample_event 1 0, "2026-01-14T20:30:14", true, true);
                 (sample_event 2 1, "2026-01-14T20:30:15", false, true);
                 (sample_event 3 0, "2026-01-14T20:30:16", true, false)] in
  let u0 := {| session_id := "test_session"; frame_count := 0; total_detections := 0;
               session_start := "2026-01-14T20:30:13" |} in
  frame_count (summarise_all frames
                 (u0, FirebaseClient.set_session empty_db "test_session"
                        {| FirebaseClient.session_id := Some "test_session";
                           FirebaseClient.start_time := Some "2026-01-14T20:30:13";
                           FirebaseClient.status := Some "active";
                           FirebaseClient.frame_count := Some 0;
                           FirebaseClient.total_detections := Some 0;
                           FirebaseClient.last_update := None;
                           FirebaseClient.end_time := None |})).1
  = 2.
Proof.
  intros frames u0.
  exact (proj1 (X15_frame_summaries_counted (Some "test_session") 1768422613
                  "2026-01-14T20:30:13" empty_db u0 _ frames "2026-01-14T20:30:20"
                  eq_refl)).
Defined.

End FirebaseUploaderMore.

(** ** run_inference_firebase.py *)

Section FirebaseMainMore.

Lemma remote_started_boot b db :
  remote_has_started b db = true → FirebaseMain.start b db = inr (remote_boot b db).
Proof. unfold remote_has_started, remote_boot. by destruct (FirebaseMain.start b db). Qed.

Lemma remote_left_state r :
  remote_has_left r = true →
  r = FirebaseMain.Left ((remote_state r).1, (remote_state r).2).
Proof. by destruct r as [[? ?]|[? ?]|? [? ?]]. Qed.

Lemma remote_crashed_state r x :
  remote_crashed_with r = Some x →
  r = FirebaseMain.Crashed x ((remote_state r).1, (remote_state r).2).
Proof. destruct r as [[? ?]|[? ?]|? [? ?]]; [done..|]. by intros [= ->]. Qed.

Lemma firebase_loop_cons k ticks s :
  FirebaseMain.loop (k :: ticks) s
  = match FirebaseMain.iteration k s with
    | Pipeline.Continue s' => FirebaseMain.loop ticks s'
    | Pipeline.Break s' => FirebaseMain.Left s'
    | Pipeline.Raise x s' => FirebaseMain.Crashed x s'
    end.
Proof. done. Qed.

Lemma firebase_iteration_offline k o s1 s2 :
  local_part s1.1 = local_part s2.1 →
  ending (FirebaseMain.iteration (with_online k o) s1)
    = ending (FirebaseMain.iteration k s2) ∧
  local_part (step_state (FirebaseMain.iteration (with_online k o) s1)).1
    = local_part (step_state (FirebaseMain.iteration k s2)).1.
Proof.
  destruct s1 as [[c1 u1 e1 v1 a1 f1 t1] db1], s2 as [[c2 u2 e2 v2 a2 f2 t2] db2].
  unfold local_part. simpl. intros [= -> -> -> -> -> ->].
  unfold FirebaseMain.iteration. simpl.
  destruct (VideoProcessor.read_frame _) as [[success frame] vid].
  destruct success; simpl; [|done].
  destruct frame as [f|]; simpl; [|done].
  destruct (InferenceEngine.predict _ _ _ _) as [|[dets eng]]; simpl; [done|].
  unfold FirebaseUploader.upload_detection_event.
  destruct o, (Pipeline.tick_online k); simpl;
    (destruct (_ && _); simpl; [done|]);
    by destruct (Pipeline.log_raises _ _ _ _).
Qed.

Lemma firebase_loop_offline ticks : ∀ flags s1 s2,
  length flags = length ticks →
  local_part s1.1 = local_part s2.1 →
  remote_ending (FirebaseMain.loop (zip_with with_online ticks flags) s1)
    = remote_ending (FirebaseMain.loop ticks s2) ∧
  local_part (remote_state (FirebaseMain.loop (zip_with with_online ticks flags) s1)).1
    = local_part (remote_state (FirebaseMain.loop ticks s2)).1.
Proof.
  induction ticks as [|k ticks IH]; intros [|o flags] s1 s2 Hlen Hloc; try done.
  simpl zip_with. rewrite !firebase_loop_cons.
  destruct (firebase_iteration_offline k o s1 s2 Hloc) as [Hend Hst].
  destruct (FirebaseMain.iteration (with_online k o) s1) as [a|a|x a],
           (FirebaseMain.iteration k s2) as [c|c|y c]; simpl in Hend; try done.
  apply IH; [simpl in Hlen; lia | done].
Qed.

(** X16.  A failed push to the remote database never reaches the remote
    loop: whether each pass finds the database reachable or not, the run
    reads the same frames, records the same events locally and ends the
    same way (still looping, left, or crashed with the same exception).
    Connectivity shows only in the uploader and in the database. *)
Theorem X16_push_failure_not_fatal ticks flags s :
  length flags = length ticks →
  let offline := FirebaseMain.loop (zip_with with_online ticks flags) s in
  let plain := FirebaseMain.loop ticks s in
  remote_ending offline = remote_ending plain ∧
  FirebaseMain.all_events (remote_state offline).1
    = FirebaseMain.all_events (remote_state plain).1 ∧
  FirebaseMain.frame_count (remote_state offline).1
    = FirebaseMain.frame_count (remote_state plain).1 ∧
  FirebaseMain.video (remote_state offline).1 = FirebaseMain.video (remote_state plain).1.
Proof.
  intros Hlen offline plain.
  destruct (firebase_loop_offline ticks flags s s Hlen eq_refl) as [Hend Hloc].
  split; [done|]. unfold local_part in Hloc. injection Hloc as _ _ Hv Ha Hf _.
  fold offline plain in Hv, Ha, Hf. done.
Qed.

Lemma X16_push_failure_not_fatal_witness :
  let s := remote_boot (sample_boot sample_model ten_frames) empty_db in
  remote_ending (FirebaseMain.loop
                   (zip_with with_online (replicate 3 sample_tick) [false; true; false]) s)
  = remote_ending (FirebaseMain.loop (replicate 3 sample_tick) s).
Proof.
  intros s.
  exact (proj1 (X16_push_failure_not_fatal (replicate 3 sample_tick)
                  [false; true; false] s eq_refl)).
Defined.

Lemma firebase_iteration_more k s :
  Forall (λ e, DetectionFormatter.session_id e = None) (FirebaseMain.all_events s.1) →
  let s' := step_state (FirebaseMain.iteration k s) in
  Forall (λ e, DetectionFormatter.session_id e = None) (FirebaseMain.all_events s'.1) ∧
  FirebaseClient.frames s'.2 = FirebaseClient.frames s.2 ∧
  FirebaseMain.config s'.1 = FirebaseMain.config s.1.
Proof.
  destruct s as [st db]. simpl. intros Hall. unfold FirebaseMain.iteration.
  destruct (VideoProcessor.read_frame _) as [[success frame] vid].
  destruct success; simpl; [|done].
  destruct frame as [f|]; simpl; [|done].
  destruct (InferenceEngine.predict _ _ _ _) as [|[dets eng]]; simpl; [done|].
  unfold FirebaseUploader.upload_detection_event.
  assert (Forall (λ e, DetectionFormatter.session_id e = None)
            (FirebaseMain.all_events st
             ++ [DetectionFormatter.format_detection_event (FirebaseMain.frame_count st + 1)
                   (Pipeline.tick_stamp k) dets (frame_shape f)])) as Hall'.
  { apply Forall_app. split; [done|]. by apply Forall_singleton. }
  destruct (Pipeline.tick_online k); simpl;
    (destruct (_ && _); simpl; [done|]);
    by destruct (Pipeline.log_raises _ _ _ _).
Qed.

Lemma firebase_loop_more ticks : ∀ s,
  Forall (λ e, DetectionFormatter.session_id e = None) (FirebaseMain.all_events s.1) →
  let s' := remote_state (FirebaseMain.loop ticks s) in
  Forall (λ e, DetectionFormatter.session_id e = None) (FirebaseMain.all_events s'.1) ∧
  FirebaseClient.frames s'.2 = FirebaseClient.frames s.2 ∧
  FirebaseMain.config s'.1 = FirebaseMain.config s.1.
Proof.
  induction ticks as [|k ticks IH]; intros s Hall; [done|].
  rewrite firebase_loop_cons.
  destruct (firebase_iteration_more k s Hall) as (Ha & Hf & Hc).
  destruct (FirebaseMain.iteration k s) as [s1|s1|x s1]; simpl in *; [|done..].
  destruct (IH s1 Ha) as (Ha' & Hf' & Hc'). simpl in *.
  split; [done|]. split; congruence.
Qed.

Lemma end_session_online u db stamp :
  let db' := FirebaseUploader.end_session u db stamp true in
  FirebaseClient.detections db' = FirebaseClient.detections db ∧
  FirebaseClient.frames db' = FirebaseClient.frames db ∧
  (∀ sid, sid ≠ FirebaseUploader.session_id u →
          FirebaseClient.sessions db' !! sid = FirebaseClient.sessions db !! sid) ∧
  ∃ r, FirebaseClient.sessions db' !! FirebaseUploader.session_id u = Some r ∧
       FirebaseClient.status r = Some "completed" ∧
       FirebaseClient.end_time r = Some stamp ∧
       FirebaseClient.frame_count r = Some (FirebaseUploader.frame_count u) ∧
       FirebaseClient.total_detections r = Some (FirebaseUploader.total_detections u).
Proof.
  simpl. repeat split; try done.
  - intros sid Hne. by rewrite lookup_insert_ne.
  - eexists. by rewrite lookup_insert_eq.
Qed.

(** X17.  A remote run that left its loop with every push having gone
    through has streamed to /detections exactly the events it recorded, in
    order, each stamped with the session id "inference_<start time>";
    there is one event per frame read.  The copies kept for the local
    backup carry no session id, /frames is never written, and [main]
    exits with code 0 after writing the backup file, which holds those
    copies, when saving is configured and at least one frame was read. *)
Theorem X17_remote_run_streams_every_event b db0 s0 ticks st db f fs :
  FirebaseMain.start b db0 = inr s0 →
  FirebaseMain.loop ticks s0 = FirebaseMain.Left (st, db) →
  Forall (λ k, Pipeline.tick_online k = true) ticks →
  let sid := Pipeline.make_id "inference_" (Pipeline.boot_time b) in
  let events := FirebaseMain.all_events st in
  FirebaseClient.detections db
    = FirebaseClient.detections db0
      ++ map (λ e, DetectionFormatter.set_session_id e sid) events ∧
  Z.of_nat (length events) = VideoProcessor.current_frame (FirebaseMain.video st) ∧
  Forall (λ e, DetectionFormatter.session_id e = None) events ∧
  FirebaseClient.frames db = FirebaseClient.frames db0 ∧
  ∃ db' fs',
    FirebaseMain.main b ticks f db0 fs = Some (0, db', fs') ∧
    FirebaseClient.detections db' = FirebaseClient.detections db ∧
    (Config.save_detections (FirebaseMain.config st) = true → events ≠ [] →
     Storage.json_load
       <$> fs' !! FirebaseMain.backup_path (FirebaseMain.config st) (Pipeline.final_name f)
     = Some (Some (Storage.EventsDoc events))) ∧
    (Config.save_detections (FirebaseMain.config st) = false ∨ events = [] → fs' = fs).
Proof.
  intros Hstart Hloop Hon sid events.
  destruct (firebase_start_consistent _ _ _ Hstart) as [Hc0 Hp0].
  destruct (firebase_loop_consistent ticks db0 sid s0 (st, db) Hc0 (or_intror Hloop))
    as [(Hsid & Hufc & Hfc & Hcur & _) Hall].
  destruct (Hall Hon Hp0) as [Hdets Htot]. simpl in *.
  assert (FirebaseMain.all_events s0.1 = [] ∧
          FirebaseClient.frames s0.2 = FirebaseClient.frames db0) as [Hnil Hfr0].
  { revert Hstart. unfold FirebaseMain.start.
    destruct (Pipeline.boot_config b); [done|].
    unfold FirebaseUploader.init. destruct (Pipeline.boot_client b); [done|].
    destruct (String.eqb _ _); (destruct (negb _); [done|]);
      (destruct (InferenceEngine._load_model _ _ _); [done|]);
      (destruct (VideoProcessor._open_source _ _ _); [done|]); by intros [= <-]. }
  pose proof (firebase_loop_more ticks s0) as Hmore. rewrite Hloop, Hnil in Hmore.
  destruct (Hmore (Forall_nil_2 _)) as (Hnone & Hfr & _). simpl in *.
  split; [by rewrite Hdets, Hsid|]. split; [unfold events; lia|].
  split; [done|]. split; [congruence|].
  eexists _, _. split; [unfold FirebaseMain.main; by rewrite Hstart, Hloop|].
  split; [|split].
  - unfold FirebaseUploader.end_session. by destruct (Pipeline.final_online f).
  - intros Hsave Hne. unfold FirebaseMain.save_backup. rewrite Hsave. fold events.
    destruct events as [|e events']; [done|]. rewrite json_dump_lookup.
    unfold fmap, option_fmap, option_map. by rewrite json_load_encode.
  - unfold FirebaseMain.save_backup. fold events. intros [->| ->]; [done|].
    by destruct (Config.save_detections _).
Qed.

Lemma X17_remote_run_streams_every_event_witness :
  let s0 := remote_boot (sample_boot sample_model ten_frames) empty_db in
  let r := FirebaseMain.loop (replicate 11 sample_tick) s0 in
  length (FirebaseClient.detections (remote_state r).2)
  = length (FirebaseMain.all_events (remote_state r).1).
Proof.
  intros s0 r.
  assert (FirebaseMain.start (sample_boot sample_model ten_frames) empty_db = inr s0) as H1
    by (apply remote_started_boot; vm_compute; reflexivity).
  assert (r = FirebaseMain.Left ((remote_state r).1, (remote_state r).2)) as H2
    by (apply remote_left_state; vm_compute; reflexivity).
  assert (Forall (λ k, Pipeline.tick_online k = true) (replicate 11 sample_tick)) as H3
    by (apply Forall_replicate; reflexivity).
  destruct (X17_remote_run_streams_every_event _ _ _ _ _ _ sample_final ∅ H1 H2 H3)
    as (Hd & _).
  rewrite Hd. cbn [FirebaseClient.detections empty_db app]. apply length_map.
Defined.

(** X18.  When a pass of the remote loop raises, the handler of [main]
    still ends the session: if that last remote call goes through, the
    session record reads "completed", with an end time, frame count 0 and
    the total of the detections pushed so far, although the run exits with
    code 1.  No backup file is written and the events already pushed stay
    in /detections. *)
Theorem X18_remote_crash_completes_session b db0 s0 ticks x st db f fs :
  FirebaseMain.start b db0 = inr s0 →
  FirebaseMain.loop ticks s0 = FirebaseMain.Crashed x (st, db) →
  Pipeline.final_online f = true →
  let sid := Pipeline.make_id "inference_" (Pipeline.boot_time b) in
  ∃ db',
    FirebaseMain.main b ticks f db0 fs = Some (1, db', fs) ∧
    FirebaseClient.detections db' = FirebaseClient.detections db ∧
    ∃ r, FirebaseClient.sessions db' !! sid = Some r ∧
         FirebaseClient.status r = Some "completed" ∧
         FirebaseClient.end_time r = Some (Pipeline.final_stamp f) ∧
         FirebaseClient.frame_count r = Some 0 ∧
         FirebaseClient.total_detections r
           = Some (FirebaseUploader.total_detections (FirebaseMain.uploader st)).
Proof.
  intros Hstart Hloop Hon sid.
  destruct (firebase_start_consistent _ _ _ Hstart) as [Hc0 _].
  assert (FirebaseUploader.frame_count (FirebaseMain.uploader st) = 0 ∧
          FirebaseUploader.session_id (FirebaseMain.uploader st) = sid) as [Hfc Hsid].
  { clear Hstart. revert s0 Hc0 Hloop. induction ticks as [|k ticks IH]; intros s0 Hc0; [done|].
    rewrite firebase_loop_cons.
    pose proof (firebase_iteration_consistent k db0 sid s0 Hc0) as Hit.
    destruct (FirebaseMain.iteration k s0) as [s1|s1|y s1]; [|done|].
    - apply IH. apply Hit.
    - by intros [= _ ->]. }
  eexists. split; [unfold FirebaseMain.main; by rewrite Hstart, Hloop|].
  rewrite Hon.
  destruct (end_session_online (FirebaseMain.uploader st) db (Pipeline.final_stamp f))
    as (Hd & _ & _ & r & Hr & Hst & Het & Hrf & Hrt).
  split; [done|]. exists r. rewrite <- Hsid, <- Hfc. by repeat split.
Qed.

Lemma X18_remote_crash_completes_session_witness :
  let s0 := remote_boot (sample_boot failing_model crash_frames) empty_db in
  let r := FirebaseMain.loop (replicate 4 sample_tick) s0 in
  ∃ db',
    FirebaseMain.main (sample_boot failing_model crash_frames) (replicate 4 sample_tick)
      sample_final empty_db ∅ = Some (1, db', ∅) ∧
    FirebaseClient.detections db' = FirebaseClient.detections (remote_state r).2.
Proof.
  intros s0 r.
  assert (FirebaseMain.start (sample_boot failing_model crash_frames) empty_db = inr s0) as H1
    by (apply remote_started_boot; vm_compute; reflexivity).
  assert (r = FirebaseMain.Crashed (LibraryError "ultralytics")
                ((remote_state r).1, (remote_state r).2)) as H2
    by (apply remote_crashed_state; vm_compute; reflexivity).
  destruct (X18_remote_crash_completes_session _ _ _ _ _ _ _ sample_final ∅ H1 H2 eq_refl)
    as (db' & Hm & Hd & _).
  exists db'. split; [exact Hm | exact Hd].
Defined.

(** X19.  How the remote [main] fails before its loop.  When the
    configuration cannot be loaded, the client cannot be constructed or
    the first remote write fails, no uploader exists and the database is
    left untouched.  When the uploader was created and the model file is
    missing, the session record just written as "active" is ended by the
    handler: it reads "completed" with frame count and total 0.  In every
    case the exit code is 1 and the disk is unchanged. *)
Theorem X19_remote_start_failures b ticks f db fs :
  let sid := Pipeline.make_id "inference_" (Pipeline.boot_time b) in
  ((∃ x, Pipeline.boot_config b = inl x) ∨ Pipeline.boot_client b ≠ None ∨
   Pipeline.boot_online b = false →
   FirebaseMain.main b ticks f db fs = Some (1, db, fs)) ∧
  (∀ cfg,
     Pipeline.boot_config b = inr cfg →
     Pipeline.boot_client b = None → Pipeline.boot_online b = true →
     Pipeline.boot_model_exists b = false →
     Pipeline.final_online f = true →
     ∃ db' r,
       FirebaseMain.main b ticks f db fs = Some (1, db', fs) ∧
       FirebaseClient.detections db' = FirebaseClient.detections db ∧
       FirebaseClient.sessions db' !! sid = Some r ∧
       FirebaseClient.session_id r = Some sid ∧
       FirebaseClient.start_time r = Some (Pipeline.boot_stamp b) ∧
       FirebaseClient.status r = Some "completed" ∧
       FirebaseClient.frame_count r = Some 0 ∧
       FirebaseClient.total_detections r = Some 0 ∧
       FirebaseClient.end_time r = Some (Pipeline.final_stamp f)).
Proof.
  intros sid. unfold FirebaseMain.main, FirebaseMain.start, FirebaseUploader.init.
  assert (String.eqb sid "" = false) as Hne by done. fold sid. rewrite Hne. split.
  - intros [[x ->]|[Hcl|Hoff]]; [done|..]; destruct (Pipeline.boot_config b); try done.
    + by destruct (Pipeline.boot_client b).
    + rewrite Hoff. by destruct (Pipeline.boot_client b).
  - intros cfg -> -> -> Hmodel ->. unfold InferenceEngine._load_model. rewrite Hmodel.
    simpl. eexists _, _. split; [done|]. simpl.
    split; [done|]. rewrite lookup_insert_eq, lookup_insert_eq. by repeat split.
Qed.

Lemma X19_remote_start_failures_witness :
  ∃ db' r,
    FirebaseMain.main no_model_boot [] sample_final empty_db ∅ = Some (1, db', ∅) ∧
    FirebaseClient.sessions db' !! "inference_1700000000" = Some r ∧
    FirebaseClient.status r = Some "completed".
Proof.
  destruct (X19_remote_start_failures no_model_boot [] sample_final empty_db ∅)
    as (_ & H).
  destruct (H sample_config eq_refl eq_refl eq_refl eq_refl eq_refl)
    as (db' & r & Hm & _ & Hr & _ & _ & Hs & _).
  exists db', r. split; [exact Hm|]. split; [exact Hr | exact Hs].
Defined.

End FirebaseMainMore.

(** ** api_server.py *)

Section ApiServerMore.
Import ApiServer.

Lemma set_running_idle w :
  running (current_analysis w) = false → set_running w false = w.
Proof. destruct w as [fe [r s v t p] fs c d ps ts]. simpl. by intros ->. Qed.

(** X20.  [/start-analysis] answers 200 exactly when no job is running
    and the request names a non-empty path that exists; otherwise it
    answers 400, 404 or 500 and leaves the server exactly as it found it:
    nothing is cleared, no thread is started, the global dictionary is
    unchanged. *)
Theorem X20_rejected_start_changes_nothing r w :
  let out := start_analysis r w in
  (out.1.1 = 200 ∨ out.1.1 = 400 ∨ out.1.1 = 404 ∨ out.1.1 = 500) ∧
  (out.1.1 = 200 ↔
   running (current_analysis w) = false ∧
   ∃ p, video_path r = inr (Some p) ∧ p ≠ "" ∧ path_exists r = true) ∧
  (out.1.1 ≠ 200 → out.2 = w).
Proof.
  unfold start_analysis.
  destruct (running (current_analysis w)) eqn:Hrun; simpl.
  { split; [auto|]. split; [|done]. split; [done|]. by intros [? _]. }
  destruct (video_path r) as [x|[p|]] eqn:Hpath; simpl.
  - split; [auto|]. split; [|by rewrite set_running_idle].
    split; [done|]. by intros (_ & p & ? & _).
  - destruct (String.eqb_spec p "") as [->|Hne]; simpl.
    { split; [auto|]. split; [|done]. split; [done|].
      by intros (_ & p & [= <-] & ? & _). }
    destruct (path_exists r) eqn:Hex; simpl.
    + split; [auto|]. split; [|done]. split; [|done]. intros _. split; [done|].
      by exists p.
    + split; [auto|]. split; [|done]. split; [done|]. by intros (_ & ? & _ & _ & ?).
  - split; [auto|]. split; [|done]. split; [done|]. by intros (_ & p & ? & _).
Qed.

Lemma X20_rejected_start_changes_nothing_witness :
  (start_analysis empty_request stale_world).1.1 = 400 ∧
  (start_analysis empty_request stale_world).2 = stale_world.
Proof.
  destruct (X20_rejected_start_changes_nothing empty_request stale_world) as (_ & _ & H).
  split; [reflexivity|]. apply H. discriminate.
Defined.

Lemma unlink_if_exists_delete (fs : gmap string (list Storage.Token)) p :
  Storage.unlink_if_exists fs p = delete p fs.
Proof.
  unfold Storage.unlink_if_exists. destruct (fs !! p) eqn:H; [done|].
  symmetry. by apply delete_id.
Qed.

Lemma start_analysis_accepted r w sid name w' :
  start_analysis r w = (200, Started sid name, w') →
  ∃ p, video_path r = inr (Some p) ∧
       w' = set_threads
              (set_analysis (clear_data r w)
                 {| running := true;
                    session_id := Some (Pipeline.make_id "session_" (now r));
                    video_name := Some (path_name r);
                    start_time := Some (stamp r);
                    process := process (current_analysis (clear_data r w)) |})
              (threads (clear_data r w) ++ [Pending p]) ∧
       sid = Pipeline.make_id "session_" (now r) ∧ name = path_name r ∧
       running (current_analysis w) = false.
Proof.
  unfold start_analysis. destruct (running (current_analysis w)); [done|].
  destruct (video_path r) as [|[p|]]; try done; simpl.
  destruct (String.eqb p ""); [done|]. destruct (negb (path_exists r)); [done|].
  intros [= <- <- <-]. by exists p.
Qed.

(** X21.  In local mode a [/start-analysis] that answers 200 removes both
    result files of the previous run before it returns, so [/detections]
    and [/session] answer the empty defaults until the new worker writes;
    no other file is touched.  [/status] then reports the job as running
    with the new session id, the video's file name and the start time.
    Exactly one background thread is added and no worker exists yet; the
    worker recorded in the global dictionary is not reset. *)
Theorem X21_local_start_clears_results r w sid name w' :
  FIREBASE_ENABLED w = false →
  start_analysis r w = (200, Started sid name, w') →
  get_detections (files w') = (200, NoDetections) ∧
  get_session (files w') = (200, NoSession) ∧
  (∀ p, p ≠ Storage.current_detections → p ≠ Storage.current_session →
        files w' !! p = files w !! p) ∧
  get_status w' = (200, Status true (Some sid) (Some name) (Some (stamp r))) ∧
  (∃ p, video_path r = inr (Some p) ∧ threads w' = threads w ++ [Pending p]) ∧
  procs w' = procs w ∧ db w' = db w ∧ config_yaml w' = config_yaml w ∧
  process (current_analysis w') = process (current_analysis w).
Proof.
  intros Hloc Hstart.
  destruct (start_analysis_accepted _ _ _ _ _ Hstart) as (p & Hp & -> & -> & -> & _).
  unfold clear_data. rewrite Hloc. rewrite !unlink_if_exists_delete.
  unfold get_detections, get_session, get_status. simpl.
  rewrite lookup_delete_ne by (by intros ?%symmetry%paths_differ).
  rewrite !lookup_delete_eq.
  repeat split; try done.
  - intros q Hq1 Hq2. by rewrite !lookup_delete_ne.
  - by exists p.
Qed.

Lemma X21_local_start_clears_results_witness :
  get_detections (files stale_world)
    = (200, Document (Storage.DetectionsDoc "local_1699990000" [])) ∧
  get_detections (files (start_analysis sample_request stale_world).2) = (200, NoDetections).
Proof.
  split; [vm_compute; reflexivity|].
  exact (proj1 (X21_local_start_clears_results sample_request stale_world
                  "session_1699999999" "upload_20260208_013031.mp4"
                  (start_analysis sample_request stale_world).2 eq_refl eq_refl)).
Defined.

(** X22.  In Firebase mode a [/start-analysis] that answers 200 clears
    nothing at all.  [clear_data] asks the client to set /detections to
    [None], which the library refuses before anything is sent, and the
    handler swallows the error; when the client cannot be built the
    outcome is the same.  The database, with the events and frames of
    earlier sessions, and the local result files are exactly as before,
    so [/detections] and [/session] go on serving what an earlier local
    run left; the job is started all the same. *)
Theorem X22_firebase_start_clears_nothing r w sid name w' :
  FIREBASE_ENABLED w = true →
  start_analysis r w = (200, Started sid name, w') →
  db w' = db w ∧
  files w' = files w ∧
  get_detections (files w') = get_detections (files w) ∧
  get_session (files w') = get_session (files w) ∧
  running (current_analysis w') = true ∧
  session_id (current_analysis w') = Some sid ∧
  ∃ p, video_path r = inr (Some p) ∧ threads w' = threads w ++ [Pending p].
Proof.
  intros Hfb Hstart.
  destruct (start_analysis_accepted _ _ _ _ _ Hstart) as (p & Hp & -> & -> & -> & _).
  unfold clear_data. rewrite Hfb. unfold FirebaseClient.set_data_none.
  destruct (client r) as [x|]; simpl; repeat split; try done; by exists p.
Qed.

Lemma X22_firebase_start_clears_nothing_witness :
  db (start_analysis sample_request firebase_world).2 = db firebase_world ∧
  db (start_analysis offline_request firebase_world).2 = db firebase_world ∧
  get_detections (files (start_analysis sample_request firebase_world).2)
    = (200, Document (Storage.DetectionsDoc "local_1699990000" [])).
Proof.
  destruct (X22_firebase_start_clears_nothing sample_request firebase_world
              "session_1699999999" "upload_20260208_013031.mp4"
              (start_analysis sample_request firebase_world).2 eq_refl eq_refl)
    as (Hd & _ & Hg & _).
  destruct (X22_firebase_start_clears_nothing offline_request firebase_world
              "session_1699999999" "upload_20260208_013031.mp4"
              (start_analysis offline_request firebase_world).2 eq_refl eq_refl)
    as (Hk & _).
  split; [exact Hd|]. split; [exact Hk|]. rewrite Hg. vm_compute. reflexivity.
Defined.

(** X23.  Between a successful [/start-analysis] on a server that never
    ran a job and the moment the background thread records the worker,
    the job can be neither stopped nor replaced: [/stop-analysis] answers
    success false, "No analysis running", and changes nothing, although
    [/status] reports the job as running, and another [/start-analysis]
    answers 400. *)
Theorem X23_stop_before_worker_recorded r w sid name w' :
  process (current_analysis w) = None →
  start_analysis r w = (200, Started sid name, w') →
  stop_analysis w' = (200, Stopped false "No analysis running", w') ∧
  get_status w' = (200, Status true (Some sid) (Some name) (Some (stamp r))) ∧
  ∀ r', start_analysis r' w' = (400, Error "Analysis already in progress", w').
Proof.
  intros Hnone Hstart.
  destruct (start_analysis_accepted _ _ _ _ _ Hstart) as (p & Hp & -> & -> & -> & _).
  assert (process (current_analysis (clear_data r w)) = None) as Hproc.
  { unfold clear_data. destruct (FIREBASE_ENABLED w); [|done].
    by destruct (client r). }
  unfold stop_analysis, get_status, start_analysis. simpl. by rewrite Hproc.
Qed.

Lemma X23_stop_before_worker_recorded_witness :
  stop_analysis started_world = (200, Stopped false "No analysis running", started_world).
Proof.
  exact (proj1 (X23_stop_before_worker_recorded sample_request idle_world
                  "session_1699999999" "upload_20260208_013031.mp4" started_world
                  eq_refl eq_refl)).
Defined.

Lemma stop_not_running w :
  running (current_analysis w) = false →
  stop_analysis w = (200, Stopped false "No analysis running", w).
Proof.
  intros H. unfold stop_analysis. rewrite H. by destruct (process (current_analysis w)).
Qed.

Lemma clear_data_keeps r w :
  current_analysis (clear_data r w) = current_analysis w ∧
  procs (clear_data r w) = procs w ∧ threads (clear_data r w) = threads w ∧
  config_yaml (clear_data r w) = config_yaml w ∧
  FIREBASE_ENABLED (clear_data r w) = FIREBASE_ENABLED w.
Proof.
  unfold clear_data. destruct (FIREBASE_ENABLED w) eqn:Hfb; [|by rewrite <- Hfb].
  destruct (client r); by rewrite <- Hfb.
Qed.

(** X24.  [/start-analysis] does not reset the worker kept in the global
    dictionary.  On a server whose previous job has exited, a
    [/stop-analysis] that arrives after the new start and before the
    background thread has spawned the new worker finds the old worker
    and the running flag set: it answers success true, "Analysis
    stopped", terminates nothing and clears the flag.  The thread still
    spawns the new worker afterwards; the flag stays cleared, so that
    worker cannot be stopped any more ([/stop-analysis] answers "No
    analysis running") and a further [/start-analysis] is not refused
    while it runs. *)
Theorem X24_stop_with_stale_worker r w sid name w1 pid c cfg i :
  process (current_analysis w) = Some pid →
  procs w !! pid = Some (Exited c) →
  config_yaml w = inr cfg →
  popen i = None →
  start_analysis r w = (200, Started sid name, w1) →
  let w2 := (stop_analysis w1).2 in
  let w3 := thread_step (length (threads w)) i w2 in
  (stop_analysis w1).1 = (200, Stopped true "Analysis stopped") ∧
  procs w2 = procs w ∧
  running (current_analysis w2) = false ∧
  procs w3 = procs w ++ [Spawned] ∧
  process (current_analysis w3) = Some (length (procs w)) ∧
  running (current_analysis w3) = false ∧
  stop_analysis w3 = (200, Stopped false "No analysis running", w3) ∧
  ∀ r', (start_analysis r' w3).1 ≠ (400, Error "Analysis already in progress").
Proof.
  intros Hproc Hexit Hcfg Hpopen Hstart w2 w3.
  destruct (start_analysis_accepted _ _ _ _ _ Hstart) as (p & Hp & Hw1 & -> & -> & Hidle).
  destruct (clear_data_keeps r w) as (Hca & Hps & Hts & Hcy & _).
  assert (stop_analysis w1
          = (200, Stopped true "Analysis stopped",
             set_running (set_procs w1 (alter terminate pid (procs w1))) false)) as Hstop.
  { apply stop_running; rewrite Hw1; simpl; [done|]. by rewrite Hca. }
  assert (procs w1 = procs w) as Hp1 by (rewrite Hw1; simpl; congruence).
  assert (alter terminate pid (procs w1) = procs w) as Halt.
  { rewrite Hp1. apply list_eq. intros j. destruct (decide (j = pid)) as [->|Hne].
    - by rewrite list_lookup_alter_eq, Hexit.
    - by rewrite list_lookup_alter_ne. }
  assert (threads w2 !! length (threads w) = Some (Pending p)) as Hth.
  { unfold w2. rewrite Hstop, Hw1. simpl. rewrite Hts.
    rewrite lookup_app_r by lia. by rewrite Nat.sub_diag. }
  assert (config_yaml w2 = inr cfg) as Hc2.
  { unfold w2. rewrite Hstop, Hw1. simpl. congruence. }
  assert (procs w2 = procs w) as Hp2 by (unfold w2; by rewrite Hstop).
  assert (running (current_analysis w2) = false) as Hr2 by (unfold w2; by rewrite Hstop).
  assert (w3 = let w1 := set_config w2 (inr (update_config_video_path cfg (relative_path i))) in
               let pid := length (procs w1) in
               let w2 := set_procs w1 (procs w1 ++ [Spawned]) in
               let w3 := set_process w2 pid in
               set_threads w3 (<[length (threads w) := Waiting pid]> (threads w3))) as Hw3.
  { unfold w3, thread_step. by rewrite Hth, Hc2, Hpopen. }
  assert (running (current_analysis w3) = false) as Hr3 by (by rewrite Hw3).
  split; [by rewrite Hstop|]. split; [done|]. split; [done|].
  split; [rewrite Hw3; simpl; by rewrite Hp2|].
  split; [rewrite Hw3; simpl; by rewrite Hp2|].
  split; [done|]. split; [by apply stop_not_running|].
  intros r'. unfold start_analysis. rewrite Hr3.
  destruct (video_path r') as [|q]; simpl; [done|].
  destruct (falsy q); simpl; [done|].
  by destruct (negb (path_exists r')).
Qed.

Lemma X24_stop_with_stale_worker_witness :
  let w1 := (start_analysis sample_request finished_world).2 in
  let w3 := thread_step 1 sample_input (stop_analysis w1).2 in
  (stop_analysis w1).1 = (200, Stopped true "Analysis stopped") ∧
  procs w3 = [Exited 0; Spawned] ∧
  running (current_analysis w3) = false.
Proof.
  intros w1 w3.
  destruct (X24_stop_with_stale_worker sample_request finished_world
              "session_1699999999" "upload_20260208_013031.mp4" w1 0%nat 0
              sample_config sample_input eq_refl eq_refl eq_refl eq_refl eq_refl)
    as (H1 & _ & _ & H2 & _ & H3 & _).
  split; [exact H1|]. split; [exact H2 | exact H3].
Defined.

(** X25.  When the background thread cannot start the worker, because
    config.yaml cannot be read or [subprocess.Popen] raises, it clears the
    running flag and ends: no worker exists, the worker kept in the
    global dictionary and the session id shown by [/status] are left as
    they were, and no file is written.  When it is [Popen] that failed,
    config.yaml has already been rewritten with the new video path. *)
Theorem X25_worker_start_failure tid i w p :
  threads w !! tid = Some (Pending p) →
  (∃ x, config_yaml w = inl x) ∨ popen i ≠ None →
  let w' := thread_step tid i w in
  running (current_analysis w') = false ∧
  procs w' = procs w ∧
  process (current_analysis w') = process (current_analysis w) ∧
  session_id (current_analysis w') = session_id (current_analysis w) ∧
  threads w' !! tid = Some Finished ∧
  files w' = files w ∧ db w' = db w ∧
  stop_analysis w' = (200, Stopped false "No analysis running", w') ∧
  (∀ c, config_yaml w = inr c →
        config_yaml w' = inr (update_config_video_path c (relative_path i))).
Proof.
  intros Hth Hfail w'. apply lookup_lt_Some in Hth as Hlt.
  assert (running (current_analysis w') = false ∧
          procs w' = procs w ∧
          process (current_analysis w') = process (current_analysis w) ∧
          session_id (current_analysis w') = session_id (current_analysis w) ∧
          threads w' !! tid = Some Finished ∧
          files w' = files w ∧ db w' = db w ∧
          (∀ c, config_yaml w = inr c →
                config_yaml w' = inr (update_config_video_path c (relative_path i))))
    as (H1 & H2 & H3 & H4 & H5 & H6 & H7 & H8).
  { unfold w', thread_step. rewrite Hth.
    destruct (config_yaml w) as [x|c] eqn:Hc; simpl.
    - rewrite list_lookup_insert_eq by done. by repeat split.
    - destruct Hfail as [[x ?]|Hp]; [done|].
      destruct (popen i); [|done]. simpl. rewrite list_lookup_insert_eq by done.
      repeat split; try done. by intros ? [= <-]. }
  repeat split; try done. by apply stop_not_running.
Qed.

Lemma X25_worker_start_failure_witness :
  let w' := thread_step 0 failing_input started_world in
  running (current_analysis started_world) = true ∧
  running (current_analysis w') = false ∧ procs w' = [].
Proof.
  intros w'.
  destruct (X25_worker_start_failure 0 failing_input started_world
              "video/uploads/upload_20260208_013031.mp4" eq_refl
              (or_intror (λ H : popen failing_input = None,
                            eq_ind (popen failing_input)
                              (λ o, match o with Some _ => True | None => False end)
                              I None H)))
    as (H1 & H2 & _).
  split; [reflexivity|]. split; [exact H1 | exact H2].
Defined.

Lemma set_proc_lookup w pid p q :
  procs w !! pid = Some q → procs (set_proc w pid p) !! pid = Some p.
Proof. intros H%lookup_lt_Some. simpl. by apply list_lookup_insert_eq. Qed.

Lemma worker_run_exited pid inputs w c :
  procs w !! pid = Some (Exited c) → worker_run pid inputs w = w.
Proof. apply proc_steps_exited. Qed.

Lemma worker_run_cons pid i inputs w :
  worker_run pid (i :: inputs) w = worker_run pid inputs (proc_step pid i w).
Proof. done. Qed.

(** The worker process stepped by the server goes through the passes of
    [LocalMain.loop] and, once the loop is left, through what follows
    it. *)
Lemma local_worker_loop b f pid k1 ticks : ∀ w st,
  procs w !! pid = Some (LocalLoop st) →
  let w' := worker_run pid (map (worker_input b f) (ticks ++ [k1])) w in
  match LocalMain.loop ticks (st, files w) with
  | LocalMain.Looping _ => True
  | LocalMain.Left s' =>
      procs w' = <[pid := Exited 0]> (procs w) ∧ files w' = LocalMain.finish f s' ∧
      same_server w' w
  | LocalMain.Crashed _ s' =>
      procs w' = <[pid := Exited 1]> (procs w) ∧ files w' = s'.2 ∧ same_server w' w
  end.
Proof.
  induction ticks as [|k ticks IH]; intros w st Hp; [done|].
  rewrite loop_cons. simpl app. simpl map. rewrite worker_run_cons.
  unfold proc_step at 1. rewrite Hp. simpl tick.
  destruct (LocalMain.iteration k (st, files w)) as [[st1 fs1]|[st1 fs1]|x [st1 fs1]].
  - pose proof (set_proc_lookup (set_files w fs1) pid (LocalLoop st1) _ Hp) as Hp1.
    specialize (IH _ _ Hp1). simpl in IH.
    destruct (LocalMain.loop ticks (st1, fs1)) as [?|s'|y s']; [done|..];
      destruct IH as (Hps & Hfs & Hsame); simpl; rewrite Hps, Hfs;
      by rewrite list_insert_insert_eq.
  - set (wl := set_proc (set_files w fs1) pid (LocalLeft st1)).
    assert (procs wl !! pid = Some (LocalLeft st1)) as Hp1
      by (by eapply set_proc_lookup).
    destruct (ticks ++ [k1]) as [|k' rest] eqn:Hrest; [by destruct ticks|].
    simpl map. rewrite worker_run_cons.
    assert (proc_step pid (worker_input b f k') wl
            = set_proc (set_files wl (LocalMain.finish f (st1, fs1))) pid (Exited 0)) as ->
      by (unfold proc_step; by rewrite Hp1).
    rewrite (worker_run_exited pid _ _ 0).
    + simpl. by rewrite !list_insert_insert_eq.
    + simpl. apply list_lookup_insert_eq. rewrite length_insert.
      by eapply lookup_lt_Some.
  - erewrite worker_run_exited; [done|].
    simpl. apply list_lookup_insert_eq. by eapply lookup_lt_Some.
Qed.

(** X26.  A local job that is left alone runs to its end.  After a
    [/start-analysis] that answered 200, let the background thread spawn
    the worker, let the worker start up and read the video until its loop
    is left, and let the thread see it exit: the worker's exit code is 0,
    [/status] reports running false while keeping the session id, video
    name and start time of the start, [/session] serves a "completed"
    record that counts every recorded frame and carries the worker's own
    id, and a further [/start-analysis] is no longer refused as already in
    progress. *)
Theorem X26_job_runs_to_completion r w sid name w1 cfg i b f ticks k0 k1 s0 st fs :
  FIREBASE_ENABLED w = false →
  config_yaml w = inr cfg →
  popen i = None →
  start_analysis r w = (200, Started sid name, w1) →
  let tid := length (threads w) in
  let pid := length (procs w) in
  let b' := with_config b (inr (update_config_video_path cfg (relative_path i))) in
  LocalMain.start b' (files w1) = inr s0 →
  LocalMain.loop ticks s0 = LocalMain.Left (st, fs) →
  let w2 := thread_step tid i w1 in
  let w3 := worker_run pid (map (worker_input b f) (k0 :: ticks ++ [k1])) w2 in
  let w4 := thread_step tid i w3 in
  procs w4 !! pid = Some (Exited 0) ∧
  threads w4 !! tid = Some Finished ∧
  get_status w4 = (200, Status false (Some sid) (Some name) (Some (stamp r))) ∧
  files w4 = LocalMain.finish f (st, fs) ∧
  (∃ sd, get_session (files w4) = (200, Document (Storage.SessionDoc sd)) ∧
         Session.status sd = "completed" ∧
         Session.frame_count sd = Z.of_nat (length (LocalMain.all_detections st)) ∧
         Session.session_id sd = Pipeline.make_id "local_" (Pipeline.boot_time b) ∧
         Session.session_id sd ≠ sid) ∧
  ∀ r', (start_analysis r' w4).1 ≠ (400, Error "Analysis already in progress").
Proof.
  intros Hloc Hcfg Hpopen Hstart tid pid b' Hs0 Hloop w2 w3 w4.
  destruct (start_analysis_accepted _ _ _ _ _ Hstart) as (p & Hp & Hw1 & -> & -> & Hidle).
  destruct (clear_data_keeps r w) as (Hca & Hps & Hts & Hcy & Hfe).
  assert (threads w1 !! tid = Some (Pending p)) as Hth.
  { rewrite Hw1. simpl. rewrite Hts, lookup_app_r by done. unfold tid.
    by rewrite Nat.sub_diag. }
  assert (w2 = let wa := set_config w1 (inr (update_config_video_path cfg (relative_path i))) in
               let wb := set_procs wa (procs wa ++ [Spawned]) in
               let wc := set_process wb (length (procs wa)) in
               set_threads wc (<[tid := Waiting (length (procs wa))]> (threads wc))) as Hw2.
  { unfold w2, thread_step. rewrite Hth.
    assert (config_yaml w1 = inr cfg) as -> by (rewrite Hw1; simpl; congruence).
    by rewrite Hpopen. }
  assert (procs w1 = procs w) as Hp1 by (rewrite Hw1; simpl; congruence).
  assert (procs w2 = procs w ++ [Spawned]) as Hp2 by (rewrite Hw2; simpl; by rewrite Hp1).
  assert (procs w2 !! pid = Some Spawned) as Hspawned.
  { rewrite Hp2, lookup_app_r by done. unfold pid. by rewrite Nat.sub_diag. }
  assert (files w2 = files w1) as Hf2 by (by rewrite Hw2).
  assert (FIREBASE_ENABLED w2 = false) as Hfe2.
  { rewrite Hw2, Hw1. simpl. congruence. }
  assert (config_yaml w2 = inr (update_config_video_path cfg (relative_path i))) as Hc2
    by (by rewrite Hw2).
  destruct s0 as [st0 fs0].
  set (wl := set_proc (set_files w2 fs0) pid (LocalLoop st0)).
  assert (proc_step pid (worker_input b f k0) w2 = wl) as Hstep.
  { unfold proc_step. rewrite Hspawned, Hfe2, Hc2, Hf2. simpl boot. fold b'.
    by rewrite Hs0. }
  assert (procs wl !! pid = Some (LocalLoop st0)) as Hpl
    by (by eapply set_proc_lookup).
  pose proof (local_worker_loop b f pid k1 ticks wl st0 Hpl) as Hrun.
  simpl in Hrun. rewrite Hloop in Hrun.
  destruct Hrun as (Hp3 & Hf3 & Hfe3 & Hca3 & Hdb3 & Hcy3 & Hth3).
  assert (w3 = worker_run pid (map (worker_input b f) (ticks ++ [k1])) wl) as Hw3.
  { unfold w3. simpl map. by rewrite worker_run_cons, Hstep. }
  rewrite <- Hw3 in Hp3, Hf3, Hfe3, Hca3, Hdb3, Hcy3, Hth3.
  assert (pid < length (procs w2))%nat as Hlt by (by eapply lookup_lt_Some).
  assert (procs w3 !! pid = Some (Exited 0)) as Hex.
  { rewrite Hp3. apply list_lookup_insert_eq. simpl. by rewrite length_insert. }
  assert (threads w3 !! tid = Some (Waiting pid)) as Hwait.
  { rewrite Hth3. simpl. rewrite Hw2. simpl. rewrite Hp1.
    apply list_lookup_insert_eq. by eapply lookup_lt_Some. }
  assert (w4 = let wa := set_running w3 false in
               set_threads wa (<[tid := Finished]> (threads wa))) as Hw4.
  { unfold w4, thread_step. by rewrite Hwait, Hex. }
  assert (current_analysis w3 = current_analysis w2) as Hca32 by (by rewrite Hca3).
  assert (running (current_analysis w4) = false) as Hr4 by (by rewrite Hw4).
  split; [by rewrite Hw4|].
  split; [rewrite Hw4; simpl; apply list_lookup_insert_eq; by eapply lookup_lt_Some|].
  split; [rewrite Hw4; unfold get_status; simpl; rewrite Hca32, Hw2; simpl;
          by rewrite Hw1|].
  assert (files w4 = LocalMain.finish f (st, fs)) as Hf4 by (by rewrite Hw4).
  split; [done|]. split.
  - destruct (local_session_completed b' (files w1) (st0, fs0) ticks st fs f Hs0 Hloop)
      as (sd & Hget & Hst & _ & Hlen & _ & Hsid).
    exists sd. rewrite Hf4. repeat split; try done.
    rewrite Hsid. intros Heq. symmetry in Heq. revert Heq. apply session_prefix_differs.
  - intros r'. unfold start_analysis. rewrite Hr4.
    destruct (video_path r') as [|q]; simpl; [done|].
    destruct (falsy q); simpl; [done|].
    by destruct (negb (path_exists r')).
Qed.

Lemma X26_job_runs_to_completion_witness :
  let b' := with_config (sample_boot sample_model ten_frames)
              (inr (update_config_video_path sample_config (relative_path sample_input))) in
  let s0 := local_boot b' (files started_world) in
  let w2 := thread_step 0 sample_input started_world in
  let w3 := worker_run 0 (map (worker_input (sample_boot sample_model ten_frames) sample_final)
                            (sample_tick :: replicate 11 sample_tick ++ [sample_tick])) w2 in
  let w4 := thread_step 0 sample_input w3 in
  procs w4 !! 0%nat = Some (Exited 0) ∧
  get_status w4 = (200, Status false (Some "session_1699999999")
                          (Some "upload_20260208_013031.mp4")
                          (Some "2026-02-08T01:30:31")).
Proof.
  intros b' s0 w2 w3 w4.
  set (r := LocalMain.loop (replicate 11 sample_tick) s0).
  assert (LocalMain.start b' (files started_world) = inr s0) as H1
    by (apply started_local_boot; vm_compute; reflexivity).
  assert (r = LocalMain.Left ((local_state r).1, (local_state r).2)) as H2
    by (apply left_local_state; vm_compute; reflexivity).
  destruct (X26_job_runs_to_completion sample_request idle_world
              "session_1699999999" "upload_20260208_013031.mp4" started_world
              sample_config sample_input (sample_boot sample_model ten_frames)
              sample_final (replicate 11 sample_tick) sample_tick sample_tick
              s0 _ _ eq_refl eq_refl eq_refl eq_refl H1 H2)
    as (Ha & _ & Hb & _).
  split; [exact Ha | exact Hb].
Defined.

End ApiServerMore.

